(** * The E2E test harness of nestjs-e2e-showcase

    A shallow embedding of the data generator, the entity factories, the
    factory registry and the [E2ETestSetup] builder, together with the
    properties their specification states about them.

    The harness is effectful TypeScript: it reads the clock and the random
    source, talks to PostgreSQL through drizzle, and drives a NestJS testing
    module.  Every method is a function in a state-and-exception monad over
    a [World] that holds what the method can observe or change.  What the
    collaborators answer (clock values, random draws, whether a statement is
    rejected, whether the framework finds a provider) is read from an
    environment [Env] over which the theorems quantify.  The [async]
    methods are run to completion one after the other, as a test that
    awaits each call does. *)

From Stdlib Require Import ZArith Lia Ascii.
From stdpp Require Import base option list strings pretty gmap.

Local Open Scope Z_scope.

(** ** JavaScript values, errors and the effect monad *)

(** A row of [schools] as drizzle returns it ([typeof schools.$inferSelect]). *)
Record School := mkSchool {
  school_id : Z;
  school_name : string;
  school_address : option string;
  school_phone : option string;
  school_email : option string;
  school_createdAt : Z;
  school_updatedAt : Z;
}.

(** A row of [teachers] ([typeof teachers.$inferSelect]). *)
Record Teacher := mkTeacher {
  teacher_id : Z;
  teacher_firstName : string;
  teacher_lastName : string;
  teacher_email : string;
  teacher_phone : option string;
  teacher_subject : option string;
  teacher_schoolId : option Z;
  teacher_createdAt : Z;
  teacher_updatedAt : Z;
}.

(** The values that occur as attribute values, tokens and providers. *)
Inductive jsval :=
  | VUndefined
  | VNull
  | VBool (b : bool)
  | VNum (n : Z)
  | VStr (s : string)
  | VDate (ms : Z)
  | VSchool (s : School)
  | VClass (name : string).

(** A plain object used as a record of attributes: the [overrides] argument
    and the insert payloads.  Spread is union, rest-destructuring is delete. *)
Abbreviation jsobj := (gmap string jsval).

Inductive error :=
  | JsError (message : string)       (* [new Error(message)] thrown by the harness *)
  | DbError (reason : string)        (* a rejection of the database driver *)
  | NestError (reason : string)      (* a rejection of the framework *)
  | CallbackError (reason : string)  (* thrown by a function the test supplied *)
  | RangeError (message : string).   (* thrown by the language itself *)

Inductive outcome (A : Type) :=
  | Returned (a : A)
  | Threw (e : error).
Arguments Returned {A} a.
Arguments Threw {A} e.

(** A computation over a mutable state [St]: what it changed before it threw
    stays changed. *)
Definition M (St A : Type) : Type := St → outcome A * St.

Definition ret {St A} (a : A) : M St A := λ s, (Returned a, s).

Definition bind {St A B} (c : M St A) (k : A → M St B) : M St B := λ s,
  match c s with
  | (Returned a, s') => k a s'
  | (Threw e, s') => (Threw e, s')
  end.

Definition throw {St A} (e : error) : M St A := λ s, (Threw e, s).

(** [try { c } catch (e) { h e }] *)
Definition try_catch {St A} (c : M St A) (h : error → M St A) : M St A := λ s,
  match c s with
  | (Returned a, s') => (Returned a, s')
  | (Threw e, s') => h e s'
  end.

Definition get {St} : M St St := λ s, (Returned s, s).
Definition modify {St} (f : St → St) : M St unit := λ s, (Returned tt, f s).

#[global] Instance M_ret {St} : MRet (M St) := λ A, ret.
#[global] Instance M_bind {St} : MBind (M St) := λ A B k c, bind c k.

(** [for (const x of xs) { body x }] *)
Fixpoint for_of {St A} (xs : list A) (body : A → M St unit) : M St unit :=
  match xs with
  | [] => ret tt
  | x :: rest => body x ;; for_of rest body
  end.

(** [Array.from({ length }, (_, index) => f index)], indices from [start]. *)
Fixpoint array_from {St A} (start : nat) (length : nat) (f : nat → M St A)
  : M St (list A) :=
  match length with
  | O => ret []
  | S n => x ← f start; rest ← array_from (S start) n f; ret (x :: rest)
  end.

(** [Array.from({ length: count }, (_, index) => f index)]: a negative
    length counts as 0, and a length above 2^32 - 1 is refused before [f] is
    called. *)
Definition Array_from {St A} (count : Z) (f : nat → M St A) : M St (list A) :=
  if decide (count ≤ 2 ^ 32 - 1) then array_from 0 (Z.to_nat count) f
  else throw (RangeError "Invalid array length").

(** A function value supplied by a test. *)
Record jsfun := mkFun {
  fun_name : string;
  fun_call : list jsval → outcome jsval;
}.

(** ** The database

    PostgreSQL behind drizzle and the postgres driver is a collaborator of
    the harness, not part of it.  Its state is the two tables of the
    migration with their [serial] sequences; its statements have the
    meaning PostgreSQL gives them, under what the migration declares: the
    column types ([integer], [varchar(n)], [timestamp]) with their ranges
    and lengths, the defaults, primary keys, NOT NULL columns,
    [teachers_email_unique] and the foreign key of [teachers.school_id]. *)

Record DB := mkDB {
  schools : list School;
  teachers : list Teacher;
  schools_id_seq : Z;     (* the value the next [nextval] returns *)
  teachers_id_seq : Z;
}.

(** The raw statements the harness sends through [db.execute]. *)
Inductive Sql :=
  | TRUNCATE_teachers_schools  (* TRUNCATE TABLE teachers, schools RESTART IDENTITY CASCADE *)
  | TRUNCATE_teachers          (* TRUNCATE TABLE teachers RESTART IDENTITY *)
  | TRUNCATE_schools_CASCADE   (* TRUNCATE TABLE schools RESTART IDENTITY CASCADE *)
  | RESTART_teachers_id_seq    (* ALTER SEQUENCE teachers_id_seq RESTART WITH 1 *)
  | RESTART_schools_id_seq.    (* ALTER SEQUENCE schools_id_seq RESTART WITH 1 *)

Inductive Table := schools_table | teachers_table.

(** One round trip to the database. *)
Inductive DbRequest :=
  | Execute (q : Sql)                     (* db.execute(q) *)
  | DeleteFrom (t : Table)                (* db.delete(t) *)
  | InsertSchools (values : list jsobj)   (* transaction: insert(schools).values(..).returning() *)
  | InsertTeachers (values : list jsobj). (* transaction: insert(teachers).values(..).returning() *)

(** The database handle a factory is bound to: the connection the
    application numbered [n] resolved. *)
Inductive Database := Connection (n : nat).

(** ** The NestJS testing module *)

Inductive nest_module :=
  | AppModule
  | DatabaseModule
  | SchoolModule
  | TeacherModule
  | DynamicModule (name : string).

Record ModuleMetadata := mkMetadata {
  md_imports : list nest_module;
  md_controllers : list string;
  md_providers : list jsval;
}.

Inductive OverrideBy :=
  | UseValue (v : jsval)
  | UseClass (c : string).

(** [TestingModuleBuilder]: the metadata it was created from and the
    overrides installed so far, oldest first. *)
Record TestingModuleBuilder := mkBuilder {
  tmb_metadata : ModuleMetadata;
  tmb_overloads : list (jsval * OverrideBy);
}.

Record INestApplication := mkApp {
  app_id : nat;
  app_module : TestingModuleBuilder;
}.

Inductive NestEvent :=
  | Compiled (m : TestingModuleBuilder)
  | Initialized (id : nat)
  | CloseAttempt (id : nat) (completed : bool).

Inductive ConsoleLine :=
  | console_warn_error (message : string) (e : error)  (* console.warn(message, e) *)
  | console_warn_text (message : string)               (* console.warn(message) *)
  | console_error_line (e : error).                    (* console.error(e) *)

(** ** Environment and world *)

(** What the collaborators answer.  Each stream is indexed by the number of
    earlier calls of the same kind. *)
Record Env := mkEnv {
  clock : nat → Z;               (* the k-th [Date.now()] *)
  entropy : nat → Z;             (* the k-th [Math.random()], as a numerator over 2^53 *)
  radix36 : Z → string;          (* [r.toString(36)] of a draw, "0.i" for 1/2 *)
  db_fault : nat → bool;         (* the k-th request is rejected from outside *)
  db_now : nat → Z;              (* [now()] on the server during the k-th request *)
  nest_compile_fails : TestingModuleBuilder → bool;
  nest_init_fails : TestingModuleBuilder → bool;
  nest_provides_db : TestingModuleBuilder → bool;  (* 'DATABASE_CONNECTION' resolves *)
  nest_close_fails : nat → bool; (* [app.close()] rejects after k framework events *)
}.

Record World := mkWorld {
  env : Env;
  ticks : nat;                          (* [Date.now()] calls so far *)
  draws : nat;                          (* [Math.random()] calls so far *)
  counter : Z;                          (* [TestDataGenerator.counter] *)
  database : DB;
  requests : list (DbRequest * bool);   (* requests sent, with whether they succeeded *)
  console : list ConsoleLine;
  nest_events : list NestEvent;
  invocations : list (string * list jsval); (* calls of test-supplied functions *)
  apps_created : nat;
}.

Definition set_ticks (n : nat) (w : World) : World :=
  mkWorld (env w) n (draws w) (counter w) (database w) (requests w)
    (console w) (nest_events w) (invocations w) (apps_created w).
Definition set_draws (n : nat) (w : World) : World :=
  mkWorld (env w) (ticks w) n (counter w) (database w) (requests w)
    (console w) (nest_events w) (invocations w) (apps_created w).
Definition set_counter (c : Z) (w : World) : World :=
  mkWorld (env w) (ticks w) (draws w) c (database w) (requests w)
    (console w) (nest_events w) (invocations w) (apps_created w).
Definition set_database (d : DB) (r : DbRequest * bool) (w : World) : World :=
  mkWorld (env w) (ticks w) (draws w) (counter w) d (requests w ++ [r])
    (console w) (nest_events w) (invocations w) (apps_created w).
Definition add_console (l : ConsoleLine) (w : World) : World :=
  mkWorld (env w) (ticks w) (draws w) (counter w) (database w) (requests w)
    (console w ++ [l]) (nest_events w) (invocations w) (apps_created w).
Definition add_nest_event (e : NestEvent) (w : World) : World :=
  mkWorld (env w) (ticks w) (draws w) (counter w) (database w) (requests w)
    (console w) (nest_events w ++ [e]) (invocations w) (apps_created w).
Definition add_invocation (c : string * list jsval) (w : World) : World :=
  mkWorld (env w) (ticks w) (draws w) (counter w) (database w) (requests w)
    (console w) (nest_events w) (invocations w ++ [c]) (apps_created w).
Definition set_apps_created (n : nat) (w : World) : World :=
  mkWorld (env w) (ticks w) (draws w) (counter w) (database w) (requests w)
    (console w) (nest_events w) (invocations w) n.

(** [Date.now()] *)
Definition Date_now : M World Z := λ w,
  (Returned (clock (env w) (ticks w)), set_ticks (S (ticks w)) w).

(** [Math.random()]: a double in [0, 1), kept as its numerator over 2^53. *)
Definition Math_random : M World Z := λ w,
  (Returned (entropy (env w) (draws w) `mod` 2 ^ 53), set_draws (S (draws w)) w).

(** ** JavaScript numbers

    A [number] is an IEEE 754 binary64 value.  The finite ones are kept as
    a mantissa and a binary exponent; an operation computes the exact
    result and rounds it to the nearest double, ties to even, as the
    standard prescribes for [+], [-] and [*]. *)
Inductive number :=
  | Num (m e : Z)               (* the finite value [m * 2^e]; mantissa 0 is +0 *)
  | NegZero                     (* -0 *)
  | Infinity (negative : bool)
  | NaN.

(** [a / 2^s] rounded to the nearest integer, ties to even ([0 <= a], [0 < s]). *)
Definition round_half_even (a s : Z) : Z :=
  let q := a `div` 2 ^ s in
  let rest := a `mod` 2 ^ s in
  if decide (2 * rest < 2 ^ s) then q
  else if decide (2 ^ s < 2 * rest) then q + 1
  else if Z.even q then q else q + 1.

(** The double nearest to [m * 2^e]: 53 bits of mantissa, the exponent of
    the last bit not below -1074, overflow to an infinity at 2^1024. *)
Definition num_round (m e : Z) : number :=
  if decide (m = 0) then Num 0 0 else
  let a := Z.abs m in
  let e' := Z.max (e + Z.log2 a - 52) (-1074) in
  let q := if decide (e' ≤ e) then a * 2 ^ (e - e') else round_half_even a (e' - e) in
  if decide (q = 0) then (if decide (m < 0) then NegZero else Num 0 0)
  else if decide (1024 ≤ Z.log2 q + e') then Infinity (bool_decide (m < 0))
  else Num (Z.sgn m * q) e'.

(** An integer literal, or an integer read as a number. *)
Definition num_of_Z (z : Z) : number := num_round z 0.

Definition num_neg (x : number) : number :=
  match x with
  | Num m e => if decide (m = 0) then NegZero else Num (- m) e
  | NegZero => Num 0 0
  | Infinity s => Infinity (negb s)
  | NaN => NaN
  end.

(** [x + y] *)
Definition num_add (x y : number) : number :=
  match x, y with
  | NaN, _ | _, NaN => NaN
  | Infinity s1, Infinity s2 => if decide (s1 = s2) then Infinity s1 else NaN
  | Infinity s, _ | _, Infinity s => Infinity s
  | NegZero, NegZero => NegZero
  | NegZero, Num m e | Num m e, NegZero => Num m e
  | Num m1 e1, Num m2 e2 =>
      let e := Z.min e1 e2 in
      num_round (m1 * 2 ^ (e1 - e) + m2 * 2 ^ (e2 - e)) e
  end.

(** [x - y] *)
Definition num_sub (x y : number) : number := num_add x (num_neg y).

(** The sign bit of a finite number or zero. *)
Definition num_negative (x : number) : bool :=
  match x with
  | Num m _ => bool_decide (m < 0)
  | NegZero => true
  | Infinity s => s
  | NaN => false
  end.

Definition num_is_zero (x : number) : bool :=
  match x with
  | Num m _ => bool_decide (m = 0)
  | NegZero => true
  | _ => false
  end.

(** [x * y] *)
Definition num_mul (x y : number) : number :=
  match x, y with
  | NaN, _ | _, NaN => NaN
  | Infinity s, z | z, Infinity s =>
      if num_is_zero z then NaN else Infinity (xorb s (num_negative z))
  | Num m1 e1, Num m2 e2 =>
      if decide (m1 * m2 = 0)
      then (if xorb (num_negative x) (num_negative y) then NegZero else Num 0 0)
      else num_round (m1 * m2) (e1 + e2)
  | _, _ => if xorb (num_negative x) (num_negative y) then NegZero else Num 0 0
  end.

(** [Math.floor(x)] *)
Definition num_floor (x : number) : number :=
  match x with
  | Num m e => if decide (0 ≤ e) then Num m e else Num (m `div` 2 ^ (- e)) 0
  | _ => x
  end.

(** The integer a number is, if it is one. *)
Definition num_to_Z (x : number) : option Z :=
  match x with
  | Num m e =>
      if decide (0 ≤ e) then Some (m * 2 ^ e)
      else if decide (m `mod` 2 ^ (- e) = 0) then Some (m `div` 2 ^ (- e)) else None
  | NegZero => Some 0
  | _ => None
  end.

(** [x] is the integer [v]. *)
Definition num_int (x : number) (v : Z) : Prop :=
  match x with
  | Num m e => (0 ≤ e ∧ v = m * 2 ^ e) ∨ (e < 0 ∧ m = v * 2 ^ (- e))
  | NegZero => v = 0
  | _ => False
  end.

(** The draw with numerator [r]: [Math.random()] as a number. *)
Definition num_of_draw (r : Z) : number := Num r (-53).

(** [Math.floor(r * n)] for a draw [r] and an integer [n]: the product is
    rounded to a double before the floor is taken.  The result is an
    integer for every [n] that is a finite double; the call sites pass
    integer literals and array lengths. *)
Definition floor_times (r n : Z) : Z :=
  default 0 (num_to_Z (num_floor (num_mul (num_of_draw r) (num_of_Z n)))).

(** [++c] on a number that holds the integer [c]: the sum is rounded, so
    the count stops at 2^53. *)
Definition increment (c : Z) : Z :=
  default c (num_to_Z (num_add (num_of_Z c) (num_of_Z 1))).

Definition console_warn (message : string) (e : error) : M World unit :=
  modify (add_console (console_warn_error message e)).

(** ** test/utils/test-data-generator.ts *)

Module TestDataGenerator.

(** [return ++this.counter;] *)
Definition getUniqueId : M World Z := λ w,
  (Returned (increment (counter w)), set_counter (increment (counter w)) w).

Definition getTimestampId : M World string :=
  now ← Date_now;
  r ← Math_random;
  w ← get;
  ret (pretty now +:+ String.substring 2 5 (radix36 (env w) r)).

(** [prefix || 'test']: an absent and an empty prefix both fall back. *)
Definition generateEmail (prefix : option string) : M World string :=
  let baseName :=
    match prefix with
    | Some p => if decide (p = "") then "test" else p
    | None => "test"
    end in
  id ← getTimestampId;
  ret (baseName +:+ id +:+ "@example.com").

Definition generatePhone : M World string :=
  r1 ← Math_random;
  let area := floor_times r1 900 + 100 in
  r2 ← Math_random;
  let first := floor_times r2 900 + 100 in
  r3 ← Math_random;
  let second := floor_times r3 9000 + 1000 in
  ret ("+1" +:+ pretty area +:+ pretty first +:+ pretty second).

Definition generateName (prefix : option string) : M World string :=
  id ← getUniqueId;
  ret (match prefix with
       | Some p => if decide (p = "") then "Test Name " +:+ pretty id
                   else p +:+ " " +:+ pretty id
       | None => "Test Name " +:+ pretty id
       end).

Definition streets : list string :=
  ["Main St"; "Oak Ave"; "Pine Rd"; "Elm Way"; "Cedar Blvd"].

Definition generateAddress : M World string :=
  r1 ← Math_random;
  let streetNumber := floor_times r1 9999 + 1 in
  r2 ← Math_random;
  let street :=
    default "undefined"
      (streets !! Z.to_nat (floor_times r2 (Z.of_nat (length streets)))) in
  ret (pretty streetNumber +:+ " " +:+ street).

(** [items[Math.floor(Math.random() * items.length)]]; [None] is
    [undefined], the answer for an empty array. *)
Definition randomChoice {T} (items : list T) : M World (option T) :=
  r ← Math_random;
  ret (items !! Z.to_nat (floor_times r (Z.of_nat (length items)))).


(** [Math.floor(Math.random() * (max - min + 1)) + min] *)
Definition randomInt (min max : number) : M World number :=
  r ← Math_random;
  ret (num_add
         (num_floor (num_mul (num_of_draw r) (num_add (num_sub max min) (num_of_Z 1))))
         min).

End TestDataGenerator.

(** ** The database handle: drizzle over PostgreSQL *)

(** How drizzle reads a column from a payload.  A key that is absent or
    [undefined] leaves the column to its DEFAULT; [null] is sent as an
    explicit NULL; any other value is sent as a parameter, which the server
    reads as the column's type when the statement is bound.  The payloads
    are typed ([NewSchool], [NewTeacher]): a text column holds a string, an
    [integer] column a number and a [timestamp] column a [Date].  A value
    TypeScript does not admit in the column is outside the harness as it
    is written; the embedding lets no such statement through. *)
Inductive cell (A : Type) :=
  | Default
  | Null
  | Value (a : A)
  | Unbindable.      (* a parameter the column's type cannot take *)
Arguments Default {A}.
Arguments Null {A}.
Arguments Value {A} a.
Arguments Unbindable {A}.

Definition int4_min : Z := - 2 ^ 31.
Definition int4_max : Z := 2 ^ 31 - 1.

(** The milliseconds of 0001-01-01T00:00:00.000Z and of
    9999-12-31T23:59:59.999Z: the dates whose [toISOString()] the server
    reads as a [timestamp]. *)
Definition timestamp_min : Z := -62135596800000.
Definition timestamp_max : Z := 253402300799999.

(** A text parameter must not hold the NUL character. *)
Fixpoint contains_nul (s : string) : bool :=
  match s with
  | EmptyString => false
  | String c rest => bool_decide (c = "000"%char) || contains_nul rest
  end.

(** The characters of a text, which is kept in UTF-8: the bytes that do not
    continue a character. *)
Definition continuation (c : ascii) : bool :=
  match c with Ascii _ _ _ _ _ _ b6 b7 => b7 && negb b6 end.

Fixpoint char_length (s : string) : nat :=
  match s with
  | EmptyString => 0%nat
  | String c rest => ((if continuation c then 0 else 1) + char_length rest)%nat
  end.

Definition cell_text (o : jsobj) (k : string) : cell string :=
  match o !! k with
  | None | Some VUndefined => Default
  | Some VNull => Null
  | Some (VStr s) => if contains_nul s then Unbindable else Value s
  | Some _ => Unbindable
  end.

Definition cell_int (o : jsobj) (k : string) : cell Z :=
  match o !! k with
  | None | Some VUndefined => Default
  | Some VNull => Null
  | Some (VNum n) => if decide (int4_min ≤ n ≤ int4_max) then Value n else Unbindable
  | Some _ => Unbindable
  end.

Definition cell_time (o : jsobj) (k : string) : cell Z :=
  match o !! k with
  | None | Some VUndefined => Default
  | Some VNull => Null
  | Some (VDate t) =>
      if decide (timestamp_min ≤ t ≤ timestamp_max) then Value t else Unbindable
  | Some _ => Unbindable
  end.

Definition bindable {A} (c : cell A) : bool :=
  match c with Unbindable => false | _ => true end.

(** A column the payload leaves out is written as the keyword [default];
    every other value, [null] too, is sent as a parameter. *)
Definition parameter {A} (c : cell A) : nat :=
  match c with Default => 0 | _ => 1 end.

(** The driver sends no query with 65534 parameters or more. *)
Definition max_parameters : Z := 65534.

(** Every parameter of a row of [schools] can be bound. *)
Definition bindable_school (o : jsobj) : bool :=
  bindable (cell_int o "id") && bindable (cell_text o "name") &&
  bindable (cell_text o "address") && bindable (cell_text o "phone") &&
  bindable (cell_text o "email") && bindable (cell_time o "createdAt") &&
  bindable (cell_time o "updatedAt").

Definition bindable_teacher (o : jsobj) : bool :=
  bindable (cell_int o "id") && bindable (cell_text o "firstName") &&
  bindable (cell_text o "lastName") && bindable (cell_text o "email") &&
  bindable (cell_text o "phone") && bindable (cell_text o "subject") &&
  bindable (cell_int o "schoolId") && bindable (cell_time o "createdAt") &&
  bindable (cell_time o "updatedAt").

(** The parameters one row of [schools] adds to the query. *)
Definition parameters_school (o : jsobj) : nat :=
  parameter (cell_int o "id") + parameter (cell_text o "name") +
  parameter (cell_text o "address") + parameter (cell_text o "phone") +
  parameter (cell_text o "email") + parameter (cell_time o "createdAt") +
  parameter (cell_time o "updatedAt").

Definition parameters_teacher (o : jsobj) : nat :=
  parameter (cell_int o "id") + parameter (cell_text o "firstName") +
  parameter (cell_text o "lastName") + parameter (cell_text o "email") +
  parameter (cell_text o "phone") + parameter (cell_text o "subject") +
  parameter (cell_int o "schoolId") + parameter (cell_time o "createdAt") +
  parameter (cell_time o "updatedAt").

(** A [varchar(n)] column without a default: the stored value, or [None]
    when the text is too long. *)
Definition varchar (n : nat) (c : cell string) : option (option string) :=
  match c with
  | Value s => if decide (char_length s ≤ n)%nat then Some (Some s) else None
  | Default | Null => Some None
  | Unbindable => None
  end.

(** An [integer] column without a default. *)
Definition integer (c : cell Z) : option (option Z) :=
  match c with
  | Value n => Some (Some n)
  | Default | Null => Some None
  | Unbindable => None
  end.

(** A [timestamp DEFAULT now()] column. *)
Definition timestamp_default_now (now : Z) (c : cell Z) : option (option Z) :=
  match c with
  | Value t => Some (Some t)
  | Default => Some (Some now)
  | Null => Some None
  | Unbindable => None
  end.

(** NOT NULL *)
Definition not_null {A} (v : option (option A)) : option A := v ≫= λ x, x.

(** A [serial] column: the identifier of the row and the sequence after
    it.  DEFAULT draws from the sequence, which stops at the largest
    [integer]. *)
Definition serial (seq : Z) (c : cell Z) : option (option Z * Z) :=
  match c with
  | Default => if decide (seq ≤ int4_max) then Some (Some seq, seq + 1) else None
  | Value n => Some (Some n, seq)
  | Null => Some (None, seq)
  | Unbindable => None
  end.

Definition with_schools (rows : list School) (seq : Z) (d : DB) : DB :=
  mkDB rows (teachers d) seq (teachers_id_seq d).
Definition with_teachers (rows : list Teacher) (seq : Z) (d : DB) : DB :=
  mkDB (schools d) rows (schools_id_seq d) seq.

(** The row of [schools] a payload makes with the identifier [id], if the
    row passes the checks made while it is inserted: the lengths, NOT NULL
    and the primary key. *)
Definition school_row (now : Z) (o : jsobj) (id : option Z) (d : DB) : option School :=
  id ← id;
  name ← not_null (varchar 255 (cell_text o "name"));
  address ← varchar 500 (cell_text o "address");
  phone ← varchar 20 (cell_text o "phone");
  email ← varchar 255 (cell_text o "email");
  createdAt ← not_null (timestamp_default_now now (cell_time o "createdAt"));
  updatedAt ← not_null (timestamp_default_now now (cell_time o "updatedAt"));
  if decide (int4_min ≤ id ≤ int4_max ∧ id ∉ school_id <$> schools d)
  then Some (mkSchool id name address phone email createdAt updatedAt)
  else None.

(** [INSERT INTO schools ... RETURNING *] for one row.  The identifier is
    drawn before the row is checked, so a row that is refused has used up
    its value of the sequence; [None] is a violation. *)
Definition insert_school (now : Z) (o : jsobj) (d : DB) : option School * DB :=
  match serial (schools_id_seq d) (cell_int o "id") with
  | None => (None, d)
  | Some (id, seq) =>
    match school_row now o id d with
    | Some row => (Some row, with_schools (schools d ++ [row]) seq d)
    | None => (None, with_schools (schools d) seq d)
    end
  end.

(** The row of [teachers] a payload makes: lengths, NOT NULL, the primary
    key and [teachers_email_unique].  The foreign key is checked when the
    statement ends. *)
Definition teacher_row (now : Z) (o : jsobj) (id : option Z) (d : DB) : option Teacher :=
  id ← id;
  firstName ← not_null (varchar 100 (cell_text o "firstName"));
  lastName ← not_null (varchar 100 (cell_text o "lastName"));
  email ← not_null (varchar 255 (cell_text o "email"));
  phone ← varchar 20 (cell_text o "phone");
  subject ← varchar 100 (cell_text o "subject");
  schoolId ← integer (cell_int o "schoolId");
  createdAt ← not_null (timestamp_default_now now (cell_time o "createdAt"));
  updatedAt ← not_null (timestamp_default_now now (cell_time o "updatedAt"));
  if decide (int4_min ≤ id ≤ int4_max ∧ (id ∉ teacher_id <$> teachers d) ∧
             email ∉ teacher_email <$> teachers d)
  then Some (mkTeacher id firstName lastName email phone subject schoolId
               createdAt updatedAt)
  else None.

(** [INSERT INTO teachers ... RETURNING *] for one row. *)
Definition insert_teacher (now : Z) (o : jsobj) (d : DB) : option Teacher * DB :=
  match serial (teachers_id_seq d) (cell_int o "id") with
  | None => (None, d)
  | Some (id, seq) =>
    match teacher_row now o id d with
    | Some row => (Some row, with_teachers (teachers d ++ [row]) seq d)
    | None => (None, with_teachers (teachers d) seq d)
    end
  end.

(** The rows of one multi-row insert, in order; stops at the first row that
    is refused. *)
Fixpoint insert_rows {Row} (ins : jsobj → DB → option Row * DB)
    (values : list jsobj) (d : DB) : option (list Row) * DB :=
  match values with
  | [] => (Some [], d)
  | o :: rest =>
    match ins o d with
    | (Some row, d1) =>
      match insert_rows ins rest d1 with
      | (Some rows, d2) => (Some (row :: rows), d2)
      | (None, d2) => (None, d2)
      end
    | (None, d1) => (None, d1)
    end
  end.

(** [teachers_school_id_schools_id_fk] for one row. *)
Definition foreign_key_holds (d : DB) (t : Teacher) : bool :=
  match teacher_schoolId t with
  | Some s => bool_decide (s ∈ school_id <$> schools d)
  | None => true
  end.

(** One INSERT statement.  The query is sent when it has fewer parameters
    than the driver's limit, and the parameters of all rows are bound before
    any row is inserted; the rows are then inserted in order, and the checks
    that wait for the end of the statement ([deferred], the foreign key)
    are made on the rows it inserted. *)
Definition insert_statement {Row} (parameters : jsobj → nat) (can_bind : jsobj → bool)
    (ins : jsobj → DB → option Row * DB) (deferred : DB → Row → bool)
    (values : list jsobj) (d : DB) : option (list Row) * DB :=
  if bool_decide (Z.of_nat (sum_list (parameters <$> values)) < max_parameters)
     && forallb can_bind values then
    match insert_rows ins values d with
    | (Some rows, d') =>
        if forallb (deferred d') rows then (Some rows, d') else (None, d')
    | (None, d') => (None, d')
    end
  else (None, d).

(** A rolled-back transaction restores the tables; sequences keep what they
    handed out. *)
Definition rollback (before after : DB) : DB :=
  mkDB (schools before) (teachers before)
       (schools_id_seq after) (teachers_id_seq after).

(** [db.transaction(tx => tx.insert(table).values(values).returning())].
    drizzle refuses an empty [values] list before it sends anything, and
    the transaction is rolled back. *)
Definition transaction_insert {Row} (parameters : jsobj → nat) (can_bind : jsobj → bool)
    (ins : jsobj → DB → option Row * DB) (deferred : DB → Row → bool)
    (values : list jsobj) (d : DB) : option (list Row) * DB :=
  match values with
  | [] => (None, d)
  | _ =>
    match insert_statement parameters can_bind ins deferred values d with
    | (Some rows, d') => (Some rows, d')
    | (None, d') => (None, rollback d d')
    end
  end.

(** A teacher row points at an existing school. *)
Definition references_school (d : DB) (t : Teacher) : bool :=
  match teacher_schoolId t with
  | Some s => bool_decide (s ∈ school_id <$> schools d)
  | None => false
  end.

Definition run_sql (q : Sql) (d : DB) : DB :=
  match q with
  | TRUNCATE_teachers_schools => mkDB [] [] 1 1
  | TRUNCATE_teachers => with_teachers [] 1 d
  | TRUNCATE_schools_CASCADE => mkDB [] [] 1 1
  | RESTART_teachers_id_seq => with_teachers (teachers d) 1 d
  | RESTART_schools_id_seq => with_schools (schools d) 1 d
  end.

(** [DELETE FROM t]: deleting the schools fails while a teacher still
    references one of them (the foreign key is ON DELETE NO ACTION). *)
Definition delete_all (t : Table) (d : DB) : option unit * DB :=
  match t with
  | teachers_table => (Some tt, with_teachers [] (teachers_id_seq d) d)
  | schools_table =>
    if existsb (references_school d) (teachers d) then (None, d)
    else (Some tt, with_schools [] (schools_id_seq d) d)
  end.

(** One request: rejected from outside when the environment says so,
    otherwise run against the tables. *)
Definition db_call {A} (req : DbRequest) (run : Z → DB → option A * DB)
  : M World A := λ w,
  let k := length (requests w) in
  if db_fault (env w) k
  then (Threw (DbError "request rejected"), set_database (database w) (req, false) w)
  else
    match run (db_now (env w) k) (database w) with
    | (Some a, d') => (Returned a, set_database d' (req, true) w)
    | (None, d') => (Threw (DbError "statement failed"), set_database d' (req, false) w)
    end.

Definition db_execute (q : Sql) : M World unit :=
  db_call (Execute q) (λ _ d, (Some tt, run_sql q d)).

Definition db_delete (t : Table) : M World unit :=
  db_call (DeleteFrom t) (λ _ d, delete_all t d).

Definition insert_schools_returning (values : list jsobj) : M World (list School) :=
  db_call (InsertSchools values)
    (λ now d, transaction_insert parameters_school bindable_school
                (insert_school now) (λ _ _, true) values d).

Definition insert_teachers_returning (values : list jsobj) : M World (list Teacher) :=
  db_call (InsertTeachers values)
    (λ now d, transaction_insert parameters_teacher bindable_teacher
                (insert_teacher now) foreign_key_holds values d).

(** ** test/factories/teacher.factory.ts *)

(** [overrides.school] when it holds a School entity. *)
Definition school_of (v : option jsval) : option School :=
  match v with Some (VSchool s) => Some s | _ => None end.

(** [if (school?.id) data.schoolId = school.id]: the assignment happens for
    a school whose identifier is truthy. *)
Definition assign_schoolId (school : option School) (data : jsobj) : jsobj :=
  match school with
  | Some s => if decide (school_id s = 0) then data
              else <["schoolId" := VNum (school_id s)]> data
  | None => data
  end.

Module TeacherFactory.

(** [schoolId: schoolId || null] *)
Definition getDefaultData (schoolId : option Z) : M World jsobj :=
  t1 ← Date_now;
  t2 ← Date_now;
  ret ({[ "firstName" := VStr ("Teacher" +:+ pretty t1);
          "lastName" := VStr "Doe";
          "email" := VStr ("teacher" +:+ pretty t2 +:+ "@test.com");
          "phone" := VStr "+1234567890";
          "subject" := VStr "Mathematics";
          "schoolId" := match schoolId with
                        | Some n => if decide (n = 0) then VNull else VNum n
                        | None => VNull
                        end ]} : jsobj).

(** The object [data] that [create] hands to [insert(teachers).values]. *)
Definition create_data (overrides : option jsobj) : M World jsobj :=
  let o := default ∅ overrides in
  let school := school_of (o !! "school") in
  let teacherData := delete "school" o in
  defaults ← getDefaultData (school_id <$> school);
  let data := teacherData ∪ defaults in
  ret (assign_schoolId school data).

(** [const [teacher] = await ...returning(); return teacher;] *)
Definition create (overrides : option jsobj) : M World (option Teacher) :=
  data ← create_data overrides;
  rows ← insert_teachers_returning [data];
  ret (head rows).

(** The array [teachersData] of [createMany]. *)
Definition createMany_data (count : Z) (overrides : option jsobj)
  : M World (list jsobj) :=
  let o := default ∅ overrides in
  let school := school_of (o !! "school") in
  let teacherData := delete "school" o in
  Array_from count (λ index,
    defaults ← getDefaultData (school_id <$> school);
    t3 ← Date_now;
    t4 ← Date_now;
    let data :=
      teacherData ∪
      <["email" := VStr ("teacher" +:+ pretty t4 +:+ "_" +:+ pretty index +:+ "@test.com")]>
        (<["firstName" := VStr ("Teacher" +:+ pretty t3 +:+ "_" +:+ pretty index)]>
           defaults) in
    ret (assign_schoolId school data)).

Definition createMany (count : Z) (overrides : option jsobj)
  : M World (list Teacher) :=
  teachersData ← createMany_data count overrides;
  insert_teachers_returning teachersData.

Definition cleanup : M World unit :=
  try_catch (db_execute TRUNCATE_teachers)
    (λ error,
      console_warn "Error cleaning up teachers:" error;;
      try_catch (db_delete teachers_table;; db_execute RESTART_teachers_id_seq)
        (λ fallbackError,
          console_warn "Fallback cleanup also failed:" fallbackError)).

End TeacherFactory.

(** ** test/factories/school.factory.ts *)

Module SchoolFactory.

Definition getDefaultData : M World jsobj :=
  name ← TestDataGenerator.generateName (Some "Test School");
  address ← TestDataGenerator.generateAddress;
  phone ← TestDataGenerator.generatePhone;
  email ← TestDataGenerator.generateEmail (Some "school");
  ret ({[ "name" := VStr name;
          "address" := VStr address;
          "phone" := VStr phone;
          "email" := VStr email ]} : jsobj).

(** [{ ...this.getDefaultData(), ...overrides }] *)
Definition create_data (overrides : option jsobj) : M World jsobj :=
  defaults ← getDefaultData;
  ret (default ∅ overrides ∪ defaults).

Definition create (overrides : option jsobj) : M World (option School) :=
  data ← create_data overrides;
  rows ← insert_schools_returning [data];
  ret (head rows).

Definition createMany_data (count : Z) (overrides : option jsobj)
  : M World (list jsobj) :=
  Array_from count (λ _, create_data overrides).

Definition createMany (count : Z) (overrides : option jsobj)
  : M World (list School) :=
  schoolsData ← createMany_data count overrides;
  insert_schools_returning schoolsData.

Definition cleanup : M World unit :=
  try_catch (db_execute TRUNCATE_schools_CASCADE)
    (λ error,
      console_warn "Error cleaning up schools:" error;;
      try_catch (db_delete schools_table;; db_execute RESTART_schools_id_seq)
        (λ fallbackError,
          console_warn "Fallback cleanup also failed:" fallbackError)).

End SchoolFactory.

(** ** test/factories/index.ts: the factory registry *)

(** A factory instance: the class it was built from and its [db]. *)
Inductive Factory :=
  | SchoolFactoryOf (db : Database)
  | TeacherFactoryOf (db : Database).

(** [factory.cleanup()] through the [IFactory] interface. *)
Definition Factory_cleanup (factory : Factory) : M World unit :=
  match factory with
  | SchoolFactoryOf _ => SchoolFactory.cleanup
  | TeacherFactoryOf _ => TeacherFactory.cleanup
  end.

(** The constructors registered under each factory type. *)
Definition FACTORY_REGISTRY (factoryType : string) : option (Database → Factory) :=
  if decide (factoryType = "school") then Some SchoolFactoryOf
  else if decide (factoryType = "teacher") then Some TeacherFactoryOf
  else None.

Record TestFactories := mkTestFactories {
  tf_factories : gmap string Factory;   (* [private factories = new Map()] *)
  tf_db : Database;
}.

Module TestFactories.

(** [new TestFactories(db)] *)
Definition new (db : Database) : TestFactories := mkTestFactories ∅ db.

Definition get (factoryType : string) : M TestFactories Factory := λ this,
  match tf_factories this !! factoryType with
  | Some factory => (Returned factory, this)
  | None =>
    match FACTORY_REGISTRY factoryType with
    | None => (Threw (JsError ("Unknown factory type: " +:+ factoryType)), this)
    | Some FactoryClass =>
      let factory := FactoryClass (tf_db this) in
      (Returned factory,
       mkTestFactories (<[factoryType := factory]> (tf_factories this)) (tf_db this))
    end
  end.



Definition cleanupOrder : list string := ["teacher"; "school"].

Definition cleanup (this : TestFactories) : M World unit :=
  try_catch (db_execute TRUNCATE_teachers_schools)
    (λ error,
      console_warn "Bulk cleanup failed, trying individual cleanup:" error;;
      for_of cleanupOrder (λ factoryType,
        match tf_factories this !! factoryType with
        | Some factory => Factory_cleanup factory
        | None => ret tt
        end)).

End TestFactories.

(** ** test/utils/test-setup.ts: the builder *)

Record ProviderOverride := mkOverride {
  token : jsval;
  useValue : jsval;                 (* [VUndefined] when the key is absent *)
  useClass : option string;
  useFactory : option jsfun;
  inject : option (list jsval);
}.

Record E2ETestSetup := mkSetup {
  e2e_app : option INestApplication;
  e2e_db : option Database;
  e2e_factories : option TestFactories;
  e2e_serverHttp : option nat;
  e2e_imports : list nest_module;
  e2e_controllers : list string;
  e2e_providers : list jsval;
  e2e_providerOverrides : list ProviderOverride;
  e2e_useCustomModule : bool;
}.

(** *** The framework calls [setupApp] and [teardown] make *)

(** [Test.createTestingModule(metadata)] *)
Definition Test_createTestingModule (metadata : ModuleMetadata) : TestingModuleBuilder :=
  mkBuilder metadata [].

(** [moduleBuilder.overrideProvider(token).useValue(..)] / [.useClass(..)] *)
Definition overrideProvider_use (tok : jsval) (by_ : OverrideBy)
    (moduleBuilder : TestingModuleBuilder) : TestingModuleBuilder :=
  mkBuilder (tmb_metadata moduleBuilder) (tmb_overloads moduleBuilder ++ [(tok, by_)]).

(** Calling a function the test supplied. *)
Definition call_function (f : jsfun) (args : list jsval) : M World jsval := λ w,
  (fun_call f args, add_invocation (fun_name f, args) w).

Definition moduleBuilder_compile (moduleBuilder : TestingModuleBuilder)
  : M World TestingModuleBuilder := λ w,
  if nest_compile_fails (env w) moduleBuilder
  then (Threw (NestError "compile"), w)
  else (Returned moduleBuilder, add_nest_event (Compiled moduleBuilder) w).

Definition createNestApplication (moduleFixture : TestingModuleBuilder)
  : M World INestApplication := λ w,
  (Returned (mkApp (apps_created w) moduleFixture),
   set_apps_created (S (apps_created w)) w).

Definition app_init (app : INestApplication) : M World unit := λ w,
  if nest_init_fails (env w) (app_module app)
  then (Threw (NestError "init"), w)
  else (Returned tt, add_nest_event (Initialized (app_id app)) w).

(** [app.get<Database>('DATABASE_CONNECTION')] *)
Definition app_get_DATABASE_CONNECTION (app : INestApplication) : M World Database := λ w,
  if nest_provides_db (env w) (app_module app)
  then (Returned (Connection (app_id app)), w)
  else (Threw (NestError "Nest could not find DATABASE_CONNECTION element"), w).

(** [app.close()]: every call is a shutdown attempt. *)
Definition app_close (app : INestApplication) : M World unit := λ w,
  if nest_close_fails (env w) (length (nest_events w))
  then (Threw (NestError "close"), add_nest_event (CloseAttempt (app_id app) false) w)
  else (Returned tt, add_nest_event (CloseAttempt (app_id app) true) w).

(** Running a computation on the world next to the [this] object. *)
Definition on_world {A} (c : M World A) : M (E2ETestSetup * World) A := λ st,
  let '(r, w) := c st.2 in (r, (st.1, w)).

Definition on_this (f : E2ETestSetup → E2ETestSetup) : M (E2ETestSetup * World) unit :=
  modify (λ st, (f st.1, st.2)).

Module E2ETestSetup.

(** [new E2ETestSetup()] *)
Definition new : E2ETestSetup :=
  mkSetup None None None None [AppModule] [] [] [] false.

Definition withAppModule (this : E2ETestSetup) : E2ETestSetup :=
  mkSetup (e2e_app this) (e2e_db this) (e2e_factories this) (e2e_serverHttp this)
    [AppModule] (e2e_controllers this) (e2e_providers this)
    (e2e_providerOverrides this) false.

Definition withCustomModule (this : E2ETestSetup) : E2ETestSetup :=
  mkSetup (e2e_app this) (e2e_db this) (e2e_factories this) (e2e_serverHttp this)
    [] (e2e_controllers this) (e2e_providers this)
    (e2e_providerOverrides this) true.

Definition withImports (imports : list nest_module) (this : E2ETestSetup) : E2ETestSetup :=
  if e2e_useCustomModule this then
    mkSetup (e2e_app this) (e2e_db this) (e2e_factories this) (e2e_serverHttp this)
      (e2e_imports this ++ imports) (e2e_controllers this) (e2e_providers this)
      (e2e_providerOverrides this) (e2e_useCustomModule this)
  else this.

Definition withControllers (controllers : list string) (this : E2ETestSetup) : E2ETestSetup :=
  if e2e_useCustomModule this then
    mkSetup (e2e_app this) (e2e_db this) (e2e_factories this) (e2e_serverHttp this)
      (e2e_imports this) (e2e_controllers this ++ controllers) (e2e_providers this)
      (e2e_providerOverrides this) (e2e_useCustomModule this)
  else this.

Definition withProviders (providers : list jsval) (this : E2ETestSetup) : E2ETestSetup :=
  if e2e_useCustomModule this then
    mkSetup (e2e_app this) (e2e_db this) (e2e_factories this) (e2e_serverHttp this)
      (e2e_imports this) (e2e_controllers this) (e2e_providers this ++ providers)
      (e2e_providerOverrides this) (e2e_useCustomModule this)
  else this.

(** [this.providerOverrides.push(override)] *)
Definition push_override (override : ProviderOverride) (this : E2ETestSetup) : E2ETestSetup :=
  mkSetup (e2e_app this) (e2e_db this) (e2e_factories this) (e2e_serverHttp this)
    (e2e_imports this) (e2e_controllers this) (e2e_providers this)
    (e2e_providerOverrides this ++ [override]) (e2e_useCustomModule this).

Definition overrideProvider (tok value : jsval) : E2ETestSetup → E2ETestSetup :=
  push_override (mkOverride tok value None None None).

Definition overrideProviderWithClass (tok : jsval) (cls : string)
  : E2ETestSetup → E2ETestSetup :=
  push_override (mkOverride tok VUndefined (Some cls) None None).

(** [inject] defaults to the empty list when the argument is left out. *)
Definition overrideProviderWithFactory (tok : jsval) (factoryFn : jsfun)
    (inject_ : option (list jsval)) : E2ETestSetup → E2ETestSetup :=
  push_override
    (mkOverride tok VUndefined None (Some factoryFn) (Some (default [] inject_))).

(** One turn of the loop over [this.providerOverrides]. *)
Definition apply_override (moduleBuilder : TestingModuleBuilder)
    (override : ProviderOverride) : M World TestingModuleBuilder :=
  match useValue override with
  | VUndefined =>
    match useClass override with
    | Some cls => ret (overrideProvider_use (token override) (UseClass cls) moduleBuilder)
    | None =>
      match useFactory override with
      | Some factoryFn =>
        value ← call_function factoryFn [];
        ret (overrideProvider_use (token override) (UseValue value) moduleBuilder)
      | None => ret moduleBuilder
      end
    end
  | value => ret (overrideProvider_use (token override) (UseValue value) moduleBuilder)
  end.

Fixpoint apply_overrides (moduleBuilder : TestingModuleBuilder)
    (overrides : list ProviderOverride) : M World TestingModuleBuilder :=
  match overrides with
  | [] => ret moduleBuilder
  | override :: rest =>
    moduleBuilder' ← apply_override moduleBuilder override;
    apply_overrides moduleBuilder' rest
  end.

Definition set_app (app : INestApplication) (this : E2ETestSetup) : E2ETestSetup :=
  mkSetup (Some app) (e2e_db this) (e2e_factories this) (e2e_serverHttp this)
    (e2e_imports this) (e2e_controllers this) (e2e_providers this)
    (e2e_providerOverrides this) (e2e_useCustomModule this).
Definition set_serverHttp (server : nat) (this : E2ETestSetup) : E2ETestSetup :=
  mkSetup (e2e_app this) (e2e_db this) (e2e_factories this) (Some server)
    (e2e_imports this) (e2e_controllers this) (e2e_providers this)
    (e2e_providerOverrides this) (e2e_useCustomModule this).
Definition set_db (db : Database) (this : E2ETestSetup) : E2ETestSetup :=
  mkSetup (e2e_app this) (Some db) (e2e_factories this) (e2e_serverHttp this)
    (e2e_imports this) (e2e_controllers this) (e2e_providers this)
    (e2e_providerOverrides this) (e2e_useCustomModule this).
Definition set_factories (factories : TestFactories) (this : E2ETestSetup) : E2ETestSetup :=
  mkSetup (e2e_app this) (e2e_db this) (Some factories) (e2e_serverHttp this)
    (e2e_imports this) (e2e_controllers this) (e2e_providers this)
    (e2e_providerOverrides this) (e2e_useCustomModule this).

Definition setupApp : M (E2ETestSetup * World) unit :=
  st ← get;
  let this := st.1 in
  moduleBuilder ← on_world
    (apply_overrides
       (Test_createTestingModule
          (mkMetadata (e2e_imports this) (e2e_controllers this) (e2e_providers this)))
       (e2e_providerOverrides this));
  moduleFixture ← on_world (moduleBuilder_compile moduleBuilder);
  app ← on_world (createNestApplication moduleFixture);
  on_this (set_app app);;
  on_world (app_init app);;
  on_this (set_serverHttp (app_id app));;
  try_catch
    (db ← on_world (app_get_DATABASE_CONNECTION app);
     on_this (set_db db);;
     on_this (set_factories (TestFactories.new db)))
    (λ error,
      on_world (modify (add_console (console_error_line error)));;
      on_world (modify (add_console (console_warn_text
        "DATABASE_CONNECTION not found - factories will not be available")))).

Definition cleanup (this : E2ETestSetup) : M World unit :=
  match e2e_factories this with
  | Some factories => TestFactories.cleanup factories
  | None => ret tt
  end.

Definition teardown (this : E2ETestSetup) : M World unit :=
  cleanup this;;
  match e2e_app this with
  | Some app => app_close app
  | None => ret tt
  end.

Definition FactoriesUnavailable : error :=
  JsError "Factories are not available. Make sure your test module includes DatabaseModule or use AppModule.".

Definition getFactory (factoryType : string) : M E2ETestSetup Factory := λ this,
  match e2e_factories this with
  | None => (Threw FactoriesUnavailable, this)
  | Some factories =>
    let '(r, factories') := TestFactories.get factoryType factories in
    (r, set_factories factories' this)
  end.

End E2ETestSetup.

(** ** Concrete environments

    Used to run the harness on explicit inputs. *)

Definition base36_alphabet : list ascii :=
  String.list_ascii_of_string "0123456789abcdefghijklmnopqrstuvwxyz".

(** The first [n] digits of the base-36 expansion of [r / 2^53], cut where
    the expansion ends. *)
Fixpoint base36_digits (n : nat) (r : Z) : string :=
  match n with
  | O => ""
  | S n' =>
    if decide (r = 0) then ""
    else String (default "0"%char (base36_alphabet !! Z.to_nat ((r * 36) `div` 2 ^ 53)))
                (base36_digits n' ((r * 36) `mod` 2 ^ 53))
  end.

(** [r.toString(36)] for a draw [r / 2^53]: the exact expansion, cut after
    eleven digits. *)
Definition base36 (r : Z) : string :=
  if decide (r = 0) then "0" else "0." +:+ base36_digits 11 r.

(** The framework finds 'DATABASE_CONNECTION' when the module imports
    [AppModule] or [DatabaseModule]. *)
Definition imports_database (m : TestingModuleBuilder) : bool :=
  existsb (λ i, match i with AppModule | DatabaseModule => true | _ => false end)
          (md_imports (tmb_metadata m)).

(** Nothing fails; the clock stands still and every draw is 1/2. *)
Definition steady_env : Env :=
  mkEnv (λ _, 1700000000000) (λ _, 2 ^ 52) base36
        (λ _, false) (λ _, 1700000000000)
        (λ _, false) (λ _, false) imports_database (λ _, false).

(** As [steady_env], but the database rejects the request numbered [k]. *)
Definition faulty_env (k : nat) : Env :=
  mkEnv (λ _, 1700000000000) (λ _, 2 ^ 52) base36
        (λ n, bool_decide (n = k)) (λ _, 1700000000000)
        (λ _, false) (λ _, false) imports_database (λ _, false).

Definition empty_db : DB := mkDB [] [] 1 1.

Definition start_world (e : Env) (d : DB) : World :=
  mkWorld e 0 0 0 d [] [] [] [] 0.

(** ** Scripts: sequences of calls on one builder *)

(** The configuration calls of the fluent interface. *)
Inductive ConfigCall :=
  | WithAppModule
  | WithCustomModule
  | WithImports (imports : list nest_module)
  | WithControllers (controllers : list string)
  | WithProviders (providers : list jsval)
  | OverrideProvider (tok value : jsval)
  | OverrideProviderWithClass (tok : jsval) (cls : string)
  | OverrideProviderWithFactory (tok : jsval) (factoryFn : jsfun)
      (inject_ : option (list jsval)).

Definition configure1 (c : ConfigCall) : E2ETestSetup → E2ETestSetup :=
  match c with
  | WithAppModule => E2ETestSetup.withAppModule
  | WithCustomModule => E2ETestSetup.withCustomModule
  | WithImports imports => E2ETestSetup.withImports imports
  | WithControllers controllers => E2ETestSetup.withControllers controllers
  | WithProviders providers => E2ETestSetup.withProviders providers
  | OverrideProvider tok value => E2ETestSetup.overrideProvider tok value
  | OverrideProviderWithClass tok cls => E2ETestSetup.overrideProviderWithClass tok cls
  | OverrideProviderWithFactory tok f inject_ =>
      E2ETestSetup.overrideProviderWithFactory tok f inject_
  end.

(** A chain of configuration calls, first call first. *)
Definition configure (calls : list ConfigCall) (this : E2ETestSetup) : E2ETestSetup :=
  foldl (λ s c, configure1 c s) this calls.

(** Every public method a test can call on the object. *)
Inductive Call :=
  | Configure (c : ConfigCall)
  | SetupApp
  | Cleanup
  | Teardown
  | GetFactory (factoryType : string).

(** One call; a call that throws leaves the object as it was when it threw. *)
Definition call1 (c : Call) (st : E2ETestSetup * World) : E2ETestSetup * World :=
  match c with
  | Configure c => (configure1 c st.1, st.2)
  | SetupApp => (E2ETestSetup.setupApp st).2
  | Cleanup => (st.1, (E2ETestSetup.cleanup st.1 st.2).2)
  | Teardown => (st.1, (E2ETestSetup.teardown st.1 st.2).2)
  | GetFactory factoryType => ((E2ETestSetup.getFactory factoryType st.1).2, st.2)
  end.

Definition script (calls : list Call) (st : E2ETestSetup * World) : E2ETestSetup * World :=
  foldl (λ st c, call1 c st) st calls.

(** What a chain of calls leaves in the controllers list: the arguments of
    the [withControllers] calls made while the custom mode was selected. *)
Fixpoint kept_controllers (custom : bool) (calls : list ConfigCall) : list string :=
  match calls with
  | [] => []
  | WithAppModule :: rest => kept_controllers false rest
  | WithCustomModule :: rest => kept_controllers true rest
  | WithControllers cs :: rest =>
      (if custom then cs else []) ++ kept_controllers custom rest
  | _ :: rest => kept_controllers custom rest
  end.

Fixpoint kept_providers (custom : bool) (calls : list ConfigCall) : list jsval :=
  match calls with
  | [] => []
  | WithAppModule :: rest => kept_providers false rest
  | WithCustomModule :: rest => kept_providers true rest
  | WithProviders ps :: rest =>
      (if custom then ps else []) ++ kept_providers custom rest
  | _ :: rest => kept_providers custom rest
  end.

(** What a chain of calls leaves in the imports list, starting from
    [current]: each mode selection starts the list afresh. *)
Fixpoint kept_imports (custom : bool) (current : list nest_module)
    (calls : list ConfigCall) : list nest_module :=
  match calls with
  | [] => current
  | WithAppModule :: rest => kept_imports false [AppModule] rest
  | WithCustomModule :: rest => kept_imports true [] rest
  | WithImports is_ :: rest =>
      kept_imports custom (if custom then current ++ is_ else current) rest
  | _ :: rest => kept_imports custom current rest
  end.

(** The shutdown attempts on the application [id] recorded so far. *)
Definition is_close_attempt (id : nat) (e : NestEvent) : bool :=
  match e with
  | CloseAttempt i _ => bool_decide (i = id)
  | _ => false
  end.

Definition close_attempts (id : nat) (w : World) : nat :=
  length (List.filter (is_close_attempt id) (nest_events w)).

(** The overrides recorded by [overrideProviderWithFactory]. *)
Definition factory_record (o : ProviderOverride) : option jsfun :=
  match useValue o, useClass o with
  | VUndefined, None => useFactory o
  | _, _ => None
  end.

(** ** Reading the request log *)

(** The requests [TeacherFactory.cleanup] sends. *)
Definition teacher_request (r : DbRequest * bool) : Prop :=
  r.1 = Execute TRUNCATE_teachers ∨ r.1 = DeleteFrom teachers_table ∨
  r.1 = Execute RESTART_teachers_id_seq.

(** The requests [SchoolFactory.cleanup] sends. *)
Definition school_request (r : DbRequest * bool) : Prop :=
  r.1 = Execute TRUNCATE_schools_CASCADE ∨ r.1 = DeleteFrom schools_table ∨
  r.1 = Execute RESTART_schools_id_seq.

(** What a computation leaves untouched when all it does is talk to the
    database and write to the console. *)
Definition same_surroundings (w w' : World) : Prop :=
  env w' = env w ∧ nest_events w' = nest_events w ∧
  apps_created w' = apps_created w ∧ invocations w' = invocations w ∧
  ticks w' = ticks w ∧ draws w' = draws w ∧ counter w' = counter w.

(** The registry after a series of [get] calls on [new TestFactories(db)];
    a call with an unknown type throws and changes nothing. *)
Definition registry_after (factoryTypes : list string) (db : Database) : TestFactories :=
  foldl (λ reg factoryType, (TestFactories.get factoryType reg).2)
        (TestFactories.new db) factoryTypes.

(** The lines a computation added to the console. *)
Definition console_since (w w' : World) : list ConsoleLine :=
  drop (length (console w)) (console w').

(** The requests of a log that failed. *)
Definition failures (tr : list (DbRequest * bool)) : nat :=
  length (List.filter (λ r, negb r.2) tr).

(** Between [w] and [w'] the requests [tr] were sent, one console line was
    written for each of them that failed, and nothing else happened. *)
Definition logged_run (w w' : World) (tr : list (DbRequest * bool)) : Prop :=
  requests w' = requests w ++ tr ∧
  (∃ lines, console w' = console w ++ lines ∧ length lines = failures tr) ∧
  same_surroundings w w'.

(** [c] when the registry holds a factory of that type, nothing otherwise. *)
Definition when_constructed (reg : TestFactories) (factoryType : string)
    (c : M World unit) : M World unit :=
  if decide (is_Some (tf_factories reg !! factoryType)) then c else ret tt.

(** A registry holds, under each type, the factory of that type. *)
Definition registry_ok (db : Database) (reg : TestFactories) : Prop :=
  tf_db reg = db ∧
  ∀ k f, tf_factories reg !! k = Some f →
    (k = "school" ∧ f = SchoolFactoryOf db) ∨ (k = "teacher" ∧ f = TeacherFactoryOf db).

(** Rows left by earlier tests: one school and a teacher employed there. *)
Definition seeded_db : DB :=
  mkDB [mkSchool 1 "Test School 1" None None None 1700000000000 1700000000000]
       [mkTeacher 1 "Teacher1" "Doe" "teacher1@test.com" None None (Some 1)
          1700000000000 1700000000000]
       2 2.

(** ** Rows and the payloads they were inserted from *)

Definition text_value (s : option string) : jsval :=
  match s with Some s => VStr s | None => VNull end.

Definition int_value (n : option Z) : jsval :=
  match n with Some n => VNum n | None => VNull end.

(** The attribute [k] of a row of [schools], as the returned object holds it. *)
Definition School_attribute (row : School) (k : string) : option jsval :=
  if decide (k = "id") then Some (VNum (school_id row))
  else if decide (k = "name") then Some (VStr (school_name row))
  else if decide (k = "address") then Some (text_value (school_address row))
  else if decide (k = "phone") then Some (text_value (school_phone row))
  else if decide (k = "email") then Some (text_value (school_email row))
  else if decide (k = "createdAt") then Some (VDate (school_createdAt row))
  else if decide (k = "updatedAt") then Some (VDate (school_updatedAt row))
  else None.

Definition Teacher_attribute (row : Teacher) (k : string) : option jsval :=
  if decide (k = "id") then Some (VNum (teacher_id row))
  else if decide (k = "firstName") then Some (VStr (teacher_firstName row))
  else if decide (k = "lastName") then Some (VStr (teacher_lastName row))
  else if decide (k = "email") then Some (VStr (teacher_email row))
  else if decide (k = "phone") then Some (text_value (teacher_phone row))
  else if decide (k = "subject") then Some (text_value (teacher_subject row))
  else if decide (k = "schoolId") then Some (int_value (teacher_schoolId row))
  else if decide (k = "createdAt") then Some (VDate (teacher_createdAt row))
  else if decide (k = "updatedAt") then Some (VDate (teacher_updatedAt row))
  else None.

(** The row holds every attribute the payload defines: each key of the
    payload that names a column, with a value other than [undefined], has
    that value in the row. *)
Definition applied (payload : jsobj) (attribute : string → option jsval) : Prop :=
  ∀ k v, payload !! k = Some v → v ≠ VUndefined → is_Some (attribute k) →
         attribute k = Some v.

(** A returned school row holds the payload's attributes; a column the
    payload leaves out holds its default. *)
Definition school_matches (data : jsobj) (row : School) : Prop :=
  applied data (School_attribute row) ∧
  (cell_text data "address" = Default → school_address row = None) ∧
  (cell_text data "phone" = Default → school_phone row = None) ∧
  (cell_text data "email" = Default → school_email row = None).

Definition teacher_matches (data : jsobj) (row : Teacher) : Prop :=
  applied data (Teacher_attribute row) ∧
  (cell_text data "phone" = Default → teacher_phone row = None) ∧
  (cell_text data "subject" = Default → teacher_subject row = None) ∧
  (cell_int data "schoolId" = Default → teacher_schoolId row = None).

(** What holds of the collaborators in every run: the clock reads
    milliseconds within the range of [Date], and [toString(36)] prints no
    NUL character. *)
Definition realistic (e : Env) : Prop :=
  (∀ k, 0 ≤ clock e k ≤ 8640000000000000) ∧
  (∀ r, contains_nul (radix36 e r) = false).

(** A payload carries every attribute of an override set. *)
Definition carries (overrides data : jsobj) : Prop :=
  ∀ k v, overrides !! k = Some v → data !! k = Some v.

(** The override set [TeacherFactory] merges into each payload: the
    argument without its [school] key, and with [schoolId] replaced by the
    identifier of the associated school when that is truthy. *)
Definition teacher_overrides (overrides : option jsobj) : jsobj :=
  assign_schoolId (school_of (default ∅ overrides !! "school"))
                  (delete "school" (default ∅ overrides)).

(** The object [getDefaultData] of [TeacherFactory] returns when the clock
    reads [t1] and then [t2]. *)
Definition teacher_defaults (t1 t2 : Z) (schoolId : option Z) : jsobj :=
  {[ "firstName" := VStr ("Teacher" +:+ pretty t1);
     "lastName" := VStr "Doe";
     "email" := VStr ("teacher" +:+ pretty t2 +:+ "@test.com");
     "phone" := VStr "+1234567890";
     "subject" := VStr "Mathematics";
     "schoolId" := match schoolId with
                   | Some n => if decide (n = 0) then VNull else VNum n
                   | None => VNull
                   end ]}.

(** A school that was inserted with the explicit identifier 0. *)
Definition school_zero : School :=
  mkSchool 0 "Zero School" None None None 1700000000000 1700000000000.

Definition school_seven : School :=
  mkSchool 7 "Seventh School" None None None 1700000000000 1700000000000.

Definition two_schools_db : DB := mkDB [school_zero; school_seven] [] 1 1.

(** ** Factories behind one interface *)

(** The number of rows in the storage a factory owns. *)
Definition storage_rows (factory : Factory) (d : DB) : nat :=
  match factory with
  | SchoolFactoryOf _ => length (schools d)
  | TeacherFactoryOf _ => length (teachers d)
  end.

(** The identifier the storage hands out next. *)
Definition id_sequence (factory : Factory) (d : DB) : Z :=
  match factory with
  | SchoolFactoryOf _ => schools_id_seq d
  | TeacherFactoryOf _ => teachers_id_seq d
  end.

(** [(await factory.create(overrides)).id] *)
Definition Factory_create_id (factory : Factory) (overrides : option jsobj)
  : M World (option Z) :=
  match factory with
  | SchoolFactoryOf _ =>
      row ← SchoolFactory.create overrides; ret (school_id <$> row)
  | TeacherFactoryOf _ =>
      row ← TeacherFactory.create overrides; ret (teacher_id <$> row)
  end.

(** What the data generator leaves untouched. *)
Definition same_database (w w' : World) : Prop :=
  env w' = env w ∧ database w' = database w ∧ requests w' = requests w ∧
  console w' = console w ∧ nest_events w' = nest_events w.

(** The shape of the object [getDefaultData] of [SchoolFactory] returns when
    the name it generates carries the unique identifier [id]. *)
Definition school_defaults_shape (defaults : jsobj) (id : Z) : Prop :=
  ∃ address phone email,
    defaults = {[ "name" := VStr ("Test School" +:+ " " +:+ pretty id);
                  "address" := VStr address;
                  "phone" := VStr phone;
                  "email" := VStr email ]}.

(** ** Strings *)

(** The character [c] does not occur in [s]. *)
Fixpoint lacks (c : ascii) (s : string) : Prop :=
  match s with
  | EmptyString => True
  | String a rest => a ≠ c ∧ lacks c rest
  end.

(** [c] is not a decimal digit. *)
Definition nondigit (c : ascii) : Prop := ∀ d, pretty_N_char d ≠ c.

(** The payload the [createMany] of [TeacherFactory] builds at [index] when
    the clock has been read [tick] times before. *)
Definition teacher_batch_payload (overrides : option jsobj) (e : Env)
    (tick index : nat) : jsobj :=
  let school := school_of (default ∅ overrides !! "school") in
  assign_schoolId school
    (delete "school" (default ∅ overrides) ∪
     <["email" := VStr ("teacher" +:+ pretty (clock e (S (S (S tick)))) +:+ "_"
                          +:+ pretty index +:+ "@test.com")]>
       (<["firstName" := VStr ("Teacher" +:+ pretty (clock e (S (S tick))) +:+ "_"
                                 +:+ pretty index)]>
          (teacher_defaults (clock e tick) (clock e (S tick))
             (school_id <$> school)))).

(** Every identifier in the table was handed out by the sequence or lies
    below it, so the next values of the sequence are free. *)
Definition schools_sequence_ahead (d : DB) : Prop :=
  Forall (λ r, school_id r < schools_id_seq d) (schools d).


(** ** The context a builder object holds *)

(** The database handle and the registry are present together, and the
    registry is one that [get] calls have built. *)
Definition context_ok (this : E2ETestSetup) : Prop :=
  (e2e_db this = None ↔ e2e_factories this = None) ∧
  ∀ reg, e2e_factories this = Some reg → ∃ db, registry_ok db reg.

(** What the build installs for a recorded override, if anything. *)
Definition installed (o : ProviderOverride) : option (jsval * OverrideBy) :=
  match useValue o with
  | VUndefined =>
    match useClass o with
    | Some cls => Some (token o, UseClass cls)
    | None =>
      match useFactory o with
      | Some f =>
        match fun_call f [] with
        | Returned v => Some (token o, UseValue v)
        | Threw _ => None
        end
      | None => None
      end
    end
  | v => Some (token o, UseValue v)
  end.

(** The call the build makes for a recorded override, if any. *)
Definition factory_invocation (o : ProviderOverride) : option (string * list jsval) :=
  match factory_record o with
  | Some f => Some (fun_name f, [])
  | None => None
  end.

(** The same record without its [inject] list. *)
Definition forget_inject (o : ProviderOverride) : ProviderOverride :=
  mkOverride (token o) (useValue o) (useClass o) (useFactory o) None.

(** A factory function of a test: it ignores its arguments. *)
Definition mockFactory : jsfun := mkFun "mockFactory" (λ _, Returned (VStr "mock")).

(** ** Payloads of [TeacherFactory.create] *)

(** The object [data] that [create] hands to the insert when the clock has
    been read [tick] times before. *)
Definition teacher_create_payload (overrides : option jsobj) (e : Env) (tick : nat)
  : jsobj :=
  let school := school_of (default ∅ overrides !! "school") in
  assign_schoolId school
    (delete "school" (default ∅ overrides) ∪
     teacher_defaults (clock e tick) (clock e (S tick)) (school_id <$> school)).

(** ** Generated texts and the columns they go into *)

(** A text that has no NUL character and at most [n] characters: a
    [varchar(n)] column takes it. *)
Definition fits (n : nat) (s : string) : Prop :=
  contains_nul s = false ∧ (String.length s ≤ n)%nat.

(** The object [getDefaultData] of [SchoolFactory] returns, with texts that
    fit the columns of [schools]. *)
Definition school_defaults_fit (defaults : jsobj) (id : Z) : Prop :=
  ∃ address phone email,
    defaults = {[ "name" := VStr ("Test School" +:+ " " +:+ pretty id);
                  "address" := VStr address;
                  "phone" := VStr phone;
                  "email" := VStr email ]} ∧
    fits 500 address ∧ fits 20 phone ∧ fits 255 email.

(** A payload [TeacherFactory] builds without overrides: the default
    attributes, with the first name and the email of the row. *)
Definition teacher_default_payload (p : jsobj) (firstName email : string) : Prop :=
  p !! "id" = None ∧
  p !! "firstName" = Some (VStr firstName) ∧
  p !! "lastName" = Some (VStr "Doe") ∧
  p !! "email" = Some (VStr email) ∧
  p !! "phone" = Some (VStr "+1234567890") ∧
  p !! "subject" = Some (VStr "Mathematics") ∧
  p !! "schoolId" = Some VNull ∧
  p !! "createdAt" = None ∧ p !! "updatedAt" = None.

(** ** A factory's cleanup and the rows created after it *)

(** The storage of a factory holds no rows and its sequence is at its
    initial value. *)
Definition erased (factory : Factory) (d : DB) : Prop :=
  storage_rows factory d = 0%nat ∧ id_sequence factory d = 1.

(** [DELETE FROM] the factory's table is not held up by a foreign key. *)
Definition delete_accepted (factory : Factory) (d : DB) : Prop :=
  match factory with
  | SchoolFactoryOf _ => existsb (references_school d) (teachers d) = false
  | TeacherFactoryOf _ => True
  end.

(** The erase-and-reset of [factory.cleanup()] goes through in [w]: the
    database takes the TRUNCATE, or it rejects the TRUNCATE and takes the two
    statements of the fallback. *)
Definition cleanup_goes_through (factory : Factory) (w : World) : Prop :=
  let k := length (requests w) in
  db_fault (env w) k = false ∨
  (db_fault (env w) (S k) = false ∧ delete_accepted factory (database w) ∧
   db_fault (env w) (S (S k)) = false).

(** The next [create()] of the factory yields the identifier 1: whenever it
    returns without an identifier of the caller's, and it does return for
    the default attributes when the database takes the insert. *)
Definition next_create_is_first (factory : Factory) (w : World) : Prop :=
  (∀ overrides id w',
     cell_int (default ∅ overrides) "id" = Default →
     Factory_create_id factory overrides w = (Returned id, w') → id = Some 1) ∧
  (db_fault (env w) (length (requests w)) = false →
   realistic (env w) → 0 ≤ counter w < 2 ^ 53 →
   ∃ w', Factory_create_id factory None w = (Returned (Some 1), w')).

(** The type under which the registry keeps a factory. *)
Definition factory_type (factory : Factory) : string :=
  match factory with
  | SchoolFactoryOf _ => "school"
  | TeacherFactoryOf _ => "teacher"
  end.

(** The world in which the fallback of the registry's [cleanup()] runs the
    cleanup of [factory], after the bulk statement was rejected in [w]. *)
Definition fallback_world (reg : TestFactories) (factory : Factory) (w : World) : World :=
  let w0 := add_console
              (console_warn_error "Bulk cleanup failed, trying individual cleanup:"
                 (DbError "request rejected"))
              (set_database (database w) (Execute TRUNCATE_teachers_schools, false) w) in
  match factory with
  | TeacherFactoryOf _ => w0
  | SchoolFactoryOf _ => (when_constructed reg "teacher" TeacherFactory.cleanup w0).2
  end.

(** ** More on the builder *)

(** The world once [compile()] and [createNestApplication()] have returned. *)
Definition world_with_app (moduleFixture : TestingModuleBuilder) (w : World) : World :=
  set_apps_created (S (apps_created w)) (add_nest_event (Compiled moduleFixture) w).

(** The two lines [setupApp] logs when 'DATABASE_CONNECTION' does not resolve. *)
Definition log_missing_database (w : World) : World :=
  add_console
    (console_warn_text "DATABASE_CONNECTION not found - factories will not be available")
    (add_console
       (console_error_line (NestError "Nest could not find DATABASE_CONNECTION element"))
       w).

(** The builder object with the [inject] list of every recorded override
    dropped. *)
Definition forget_injects (this : E2ETestSetup) : E2ETestSetup :=
  mkSetup (e2e_app this) (e2e_db this) (e2e_factories this) (e2e_serverHttp this)
    (e2e_imports this) (e2e_controllers this) (e2e_providers this)
    (forget_inject <$> e2e_providerOverrides this) (e2e_useCustomModule this).

(** A factory function of a test that throws. *)
Definition throwingFactory : jsfun :=
  mkFun "throwingFactory" (λ _, Threw (CallbackError "factory failed")).

(** The record a configuration call pushes on [providerOverrides], if any. *)
Definition recorded (c : ConfigCall) : option ProviderOverride :=
  match c with
  | OverrideProvider tok value => Some (mkOverride tok value None None None)
  | OverrideProviderWithClass tok cls =>
      Some (mkOverride tok VUndefined (Some cls) None None)
  | OverrideProviderWithFactory tok factoryFn inject_ =>
      Some (mkOverride tok VUndefined None (Some factoryFn) (Some (default [] inject_)))
  | _ => None
  end.


(** * Properties *)

(** ** Running computations *)

Ltac unfold_monad :=
  unfold mbind, M_bind, mret, M_ret, bind, ret, throw, try_catch, get, modify,
    on_world, on_this in *.

Ltac run := repeat (progress (unfold_monad; simpl in *)).

Lemma Math_random_range (w : World) :
  ∃ r, Math_random w = (Returned r, set_draws (S (draws w)) w) ∧ 0 ≤ r < 2 ^ 53.
Proof.
  eexists; split; [reflexivity|]. apply Z.mod_pos_bound. lia.
Qed.

(** ** Rounding to a double *)

Lemma round_half_even_exact (a s : Z) :
  0 ≤ s → a `mod` 2 ^ s = 0 → round_half_even a s = a `div` 2 ^ s.
Proof.
  intros Hs Hmod. unfold round_half_even. rewrite Hmod.
  assert (0 < 2 ^ s) by (apply Z.pow_pos_nonneg; lia).
  rewrite decide_True by lia. done.
Qed.

Lemma round_half_even_scale (a s k : Z) :
  0 ≤ a → 0 < s → 0 ≤ k →
  round_half_even (a * 2 ^ k) (s + k) = round_half_even a s.
Proof.
  intros Ha Hs Hk. unfold round_half_even.
  assert (0 < 2 ^ s) by (apply Z.pow_pos_nonneg; lia).
  assert (0 < 2 ^ k) by (apply Z.pow_pos_nonneg; lia).
  rewrite Z.pow_add_r by lia.
  rewrite Z.div_mul_cancel_r by lia.
  rewrite Z.mul_mod_distr_r by lia.
  repeat case_decide; try done; nia.
Qed.

(** The rounded quotient is within half a unit of the exact one. *)
Lemma round_half_even_bounds (a s : Z) :
  0 ≤ a → 0 < s →
  a `div` 2 ^ s ≤ round_half_even a s ∧
  2 * a - 2 ^ s ≤ 2 * (round_half_even a s * 2 ^ s) ≤ 2 * a + 2 ^ s.
Proof.
  intros Ha Hs. unfold round_half_even.
  assert (0 < 2 ^ s) as Hpos by (apply Z.pow_pos_nonneg; lia).
  pose proof (Z.div_mod a (2 ^ s) ltac:(lia)) as Hdm.
  pose proof (Z.mod_pos_bound a (2 ^ s) Hpos) as Hmod.
  repeat case_decide; try destruct (Z.even _); split; nia.
Qed.

Lemma num_round_scale (m e k : Z) :
  0 ≤ k → num_round (m * 2 ^ k) (e - k) = num_round m e.
Proof.
  intros Hk. unfold num_round.
  assert (0 < 2 ^ k) as Hpos by (apply Z.pow_pos_nonneg; lia).
  destruct (decide (m = 0)) as [->|Hm]; [done|].
  rewrite decide_False by nia.
  rewrite Z.abs_mul, (Z.abs_eq (2 ^ k)) by lia.
  assert (0 < Z.abs m) as Ha by lia.
  rewrite Z.log2_mul_pow2 by lia.
  replace (e - k + (k + Z.log2 (Z.abs m)) - 52) with (e + Z.log2 (Z.abs m) - 52) by lia.
  set (e' := Z.max _ _).
  assert ((if decide (e' ≤ e - k) then Z.abs m * 2 ^ k * 2 ^ (e - k - e')
           else round_half_even (Z.abs m * 2 ^ k) (e' - (e - k)))
          = (if decide (e' ≤ e) then Z.abs m * 2 ^ (e - e')
             else round_half_even (Z.abs m) (e' - e))) as ->.
  { destruct (decide (e' ≤ e - k)).
    - rewrite decide_True by lia.
      replace (e - e') with (k + (e - k - e')) by lia.
      rewrite Z.pow_add_r by lia. lia.
    - destruct (decide (e' ≤ e)).
      + rewrite round_half_even_exact; [|lia|].
        * replace k with ((e' - (e - k)) + (e - e')) at 1 by lia.
          rewrite Z.pow_add_r by lia.
          rewrite (Z.mul_comm (2 ^ (e' - (e - k)))), Z.mul_assoc, Z.div_mul; [lia|].
          apply Z.pow_nonzero; lia.
        * replace k with ((e - e') + (e' - (e - k))) at 1 by lia.
          rewrite Z.pow_add_r by lia.
          rewrite Z.mul_assoc.
          apply Z.mod_mul. apply Z.pow_nonzero; lia.
      + replace (e' - (e - k)) with ((e' - e) + k) by lia.
        apply round_half_even_scale; lia. }
  replace (Z.sgn (m * 2 ^ k)) with (Z.sgn m) by (rewrite Z.sgn_mul; lia).
  assert (m * 2 ^ k < 0 ↔ m < 0) as Hiff by nia.
  repeat case_decide; try done; exfalso; tauto.
Qed.

(** ** Numbers that are integers *)

Lemma num_int_to_Z (x : number) (v : Z) : num_int x v → num_to_Z x = Some v.
Proof.
  destruct x as [m e| | |]; simpl; try done.
  - intros [[He ->]|[He ->]].
    + by rewrite decide_True.
    + rewrite decide_False by lia.
      assert (2 ^ (- e) ≠ 0) by (apply Z.pow_nonzero; lia).
      rewrite Z.mod_mul, Z.div_mul by done. by rewrite decide_True.
  - by intros ->.
Qed.

(** Integers up to 2^53 in magnitude are doubles. *)
Lemma num_of_Z_int (v : Z) : Z.abs v ≤ 2 ^ 53 → num_int (num_of_Z v) v.
Proof.
  intros Hv. unfold num_of_Z, num_round.
  destruct (decide (v = 0)) as [->|Hne]; [simpl; lia|].
  set (a := Z.abs v). assert (0 < a) as Ha by lia.
  pose proof (Z.log2_spec a Ha) as [Hlo Hhi].
  pose proof (Z.log2_nonneg a) as Hl0.
  assert (Z.log2 a ≤ 53) as Hl.
  { apply Z.log2_le_mono in Hv. fold a in Hv. by rewrite Z.log2_pow2 in Hv. }
  rewrite Z.max_l by lia. rewrite Z.add_0_l.
  destruct (decide (Z.log2 a - 52 ≤ 0)) as [Hs|Hs].
  - set (k := 0 - (Z.log2 a - 52)).
    assert (0 < 2 ^ k) by (apply Z.pow_pos_nonneg; lia).
    rewrite decide_False by nia.
    assert (Z.log2 (a * 2 ^ k) = Z.log2 a + k) as Hlog
      by (rewrite Z.log2_mul_pow2; lia).
    rewrite decide_False by (rewrite Hlog; lia).
    simpl. destruct (decide (Z.log2 a - 52 = 0)) as [E|E].
    + left. split; [lia|]. rewrite E. replace k with 0 by lia.
      rewrite !Z.pow_0_r. subst a. lia.
    + right. split; [lia|]. replace (- (Z.log2 a - 52)) with k by lia.
      subst a. lia.
  - assert (Z.log2 a = 53) as E by lia.
    assert (a = 2 ^ 53) as Ea by (rewrite E in Hlo; subst a; lia).
    rewrite E. replace (round_half_even a (53 - 52 - 0)) with (2 ^ 52)
      by (rewrite Ea; vm_compute; done).
    simpl. left. split; [lia|]. subst a. lia.
Qed.

Lemma num_round_int (m e v : Z) :
  num_int (Num m e) v → Z.abs v ≤ 2 ^ 53 → num_int (num_round m e) v.
Proof.
  intros [[He ->]|[He ->]] Hv.
  - rewrite <- (num_round_scale m e e He), Z.sub_diag. by apply num_of_Z_int.
  - replace e with (0 - - e) at 2 by lia.
    rewrite num_round_scale by lia. by apply num_of_Z_int.
Qed.

Lemma num_int_align (m e v e0 : Z) :
  num_int (Num m e) v → e0 ≤ e →
  (0 ≤ e0 → v = m * 2 ^ (e - e0) * 2 ^ e0) ∧
  (e0 < 0 → m * 2 ^ (e - e0) = v * 2 ^ (- e0)).
Proof.
  intros [[He ->]|[He ->]] H0; split; intros H1; try lia;
    rewrite <- Z.mul_assoc, <- Z.pow_add_r by lia; do 2 f_equal; lia.
Qed.

(** Sums of integers are exact while they stay within 2^53. *)
Lemma num_add_int (x y : number) (a b : Z) :
  num_int x a → num_int y b → Z.abs (a + b) ≤ 2 ^ 53 →
  num_int (num_add x y) (a + b).
Proof.
  destruct x as [m1 e1| | |], y as [m2 e2| | |]; simpl; try done.
  - intros Ha Hb Hv. apply num_round_int; [|done].
    destruct (num_int_align m1 e1 a (Z.min e1 e2) Ha ltac:(lia)) as [A1 A2].
    destruct (num_int_align m2 e2 b (Z.min e1 e2) Hb ltac:(lia)) as [B1 B2].
    simpl. destruct (decide (0 ≤ Z.min e1 e2)).
    + left. split; [done|]. rewrite Z.mul_add_distr_r. rewrite <- A1, <- B1 by done. done.
    + right. split; [lia|]. rewrite Z.mul_add_distr_r. rewrite <- A2, <- B2 by lia. done.
  - intros Ha -> _. by rewrite Z.add_0_r.
  - intros -> Hb _. done.
  - intros -> -> _. done.
Qed.

Lemma num_neg_int (x : number) (a : Z) : num_int x a → num_int (num_neg x) (- a).
Proof.
  destruct x as [m e| | |]; simpl; try done.
  - intros H. destruct (decide (m = 0)) as [->|Hm]; simpl.
    + destruct H as [[_ ->]|[He H]]; [lia|].
      assert (0 < 2 ^ (- e)) by (apply Z.pow_pos_nonneg; lia). nia.
    + destruct H as [[? ->]|[? ->]]; [left|right]; split; lia.
  - intros ->. left. lia.
Qed.

Lemma num_sub_int (x y : number) (a b : Z) :
  num_int x a → num_int y b → Z.abs (a - b) ≤ 2 ^ 53 →
  num_int (num_sub x y) (a - b).
Proof.
  intros Ha Hb Hv. unfold num_sub. replace (a - b) with (a + - b) by lia.
  apply num_add_int; [done|by apply num_neg_int|].
  by replace (a + - b) with (a - b) by lia.
Qed.

(** ** The floor of a draw times an integer *)

(** The heart of it: a draw times [n], rounded and floored, stays below [n]. *)
Lemma num_floor_round_product (r n : Z) :
  0 < r < 2 ^ 53 → n ≠ 0 → Z.abs n ≤ 2 ^ 53 →
  ∃ F, num_int (num_floor (num_round (r * n) (-53))) F ∧
       (0 < n → 0 ≤ F < n) ∧ (n < 0 → n ≤ F ≤ 0).
Proof.
  intros Hr Hn0 Hn. unfold num_round.
  rewrite decide_False by nia.
  set (a := Z.abs (r * n)).
  assert (a = r * Z.abs n) as Ea by (subst a; rewrite Z.abs_mul; lia).
  assert (0 < a) as Ha by nia.
  pose proof (Z.log2_spec a Ha) as [Hlo Hhi].
  pose proof (Z.log2_nonneg a) as Hl0.
  set (l := Z.log2 a) in *.
  rewrite Z.pow_succ_r in Hhi by done.
  assert (0 < 2 ^ l) as Hpl by (apply Z.pow_pos_nonneg; lia).
  assert (a < 2 ^ 106) as Ha106.
  { replace (2 ^ 106) with (2 ^ 53 * 2 ^ 53) by done. nia. }
  assert (l ≤ 105) as Hl105.
  { destruct (decide (l ≤ 105)); [done|].
    assert (2 ^ 106 ≤ 2 ^ l) by (apply Z.pow_le_mono_r; lia). lia. }
  rewrite Z.max_l by lia.
  replace (-53 + l - 52) with (l - 105) by lia.
  destruct (decide (l - 105 ≤ -53)) as [Hsmall|Hbig].
  - (* the product is below 1 and exact *)
    set (k := -53 - (l - 105)).
    assert (0 < 2 ^ k) as Hpk by (apply Z.pow_pos_nonneg; lia).
    assert (Z.log2 (a * 2 ^ k) = l + k) as Hlog
      by (rewrite Z.log2_mul_pow2; lia).
    rewrite decide_False by nia. rewrite decide_False by lia.
    simpl. rewrite decide_False by lia.
    assert (2 ^ (- (l - 105)) = 2 ^ k * 2 ^ 53) as ->
      by (rewrite <- Z.pow_add_r by lia; f_equal; lia).
    assert (a < 2 ^ 53).
    { assert (2 ^ (l + 1) ≤ 2 ^ 53) by (apply Z.pow_le_mono_r; lia).
      rewrite Z.pow_add_r in * by lia. lia. }
    destruct (Z.sgn_spec (r * n)) as [[? ->]|[[? ->]|[? ->]]]; [|nia|].
    + exists 0. rewrite Z.div_small by nia. simpl. split; [lia|]. split; [nia|nia].
    + match goal with |- context [?x `div` ?y] =>
        assert (x `div` y = -1) as -> end.
      { symmetry. apply (Z.div_unique _ _ _ (2 ^ k * 2 ^ 53 - a * 2 ^ k)); nia. }
      exists (-1). simpl. split; [lia|]. split; [nia|nia].
  - (* the product is rounded to 53 bits *)
    set (s := l - 105 - -53). assert (0 < s) as Hs by lia.
    assert (0 < 2 ^ s) as Hps by (apply Z.pow_pos_nonneg; lia).
    destruct (round_half_even_bounds a s ltac:(lia) Hs) as [Hq0 [Hq1 Hq2]].
    set (q := round_half_even a s) in *.
    assert (2 ^ l = 2 ^ 52 * 2 ^ s) as El
      by (rewrite <- Z.pow_add_r by lia; f_equal; lia).
    assert (2 ^ 52 ≤ a `div` 2 ^ s) as Hdiv
      by (apply Z.div_le_lower_bound; lia).
    assert (q ≤ 2 ^ 53) as Hq53.
    { assert (2 * (q * 2 ^ s) ≤ 2 * (2 ^ 53 * 2 ^ s) + 2 ^ s) by nia. nia. }
    rewrite decide_False by lia.
    assert (Z.log2 q ≤ 53) as Hlq.
    { apply Z.log2_le_mono in Hq53. by rewrite Z.log2_pow2 in Hq53. }
    rewrite decide_False by lia.
    (* the rounded product is still below |n| *)
    assert (2 ^ 53 = 2 ^ (53 - s) * 2 ^ s) as E53
      by (rewrite <- Z.pow_add_r by lia; f_equal; lia).
    assert (0 < 2 ^ (53 - s)) as Hp53s by (apply Z.pow_pos_nonneg; lia).
    assert (2 ^ s < 2 * Z.abs n) as Hns.
    { assert (2 ^ l < 2 ^ 53 * Z.abs n) by nia.
      rewrite El in *. replace (2 ^ 53) with (2 ^ 52 * 2) in * by done. nia. }
    assert (q < Z.abs n * 2 ^ (53 - s)) as Hbound.
    { assert (2 * (q * 2 ^ s) < 2 * (Z.abs n * 2 ^ 53)) by nia.
      rewrite E53 in *. nia. }
    simpl. destruct (decide (0 ≤ l - 105)) as [He|He].
    + replace (53 - s) with 0 in Hbound by lia.
      rewrite Z.pow_0_r, Z.mul_1_r in Hbound.
      exists (Z.sgn (r * n) * q). simpl. split.
      * left. split; [done|]. replace (l - 105) with 0 by lia. lia.
      * destruct (Z.sgn_spec (r * n)) as [[? ->]|[[? ->]|[? ->]]]; nia.
    + replace (- (l - 105)) with (53 - s) by lia.
      exists ((Z.sgn (r * n) * q) `div` 2 ^ (53 - s)). split; [simpl; left; lia|].
      destruct (Z.sgn_spec (r * n)) as [[? ->]|[[? ->]|[? ->]]]; [|nia|].
      * split; [|nia]. intros Hpos. split.
        -- apply Z.div_pos; lia.
        -- apply Z.div_lt_upper_bound; nia.
      * split; [nia|]. intros Hneg. split.
        -- apply Z.div_le_lower_bound; nia.
        -- match goal with |- ?x `div` ?y ≤ 0 =>
             assert (x `div` y < 1); [|lia] end.
           apply Z.div_lt_upper_bound; nia.
Qed.

(** [Math.floor(r * y)] for a draw [r / 2^53] and an integer [y]. *)
Lemma num_floor_mul_draw (r n : Z) (y : number) :
  num_int y n → 0 ≤ r < 2 ^ 53 → Z.abs n ≤ 2 ^ 53 →
  ∃ F, num_int (num_floor (num_mul (Num r (-53)) y)) F ∧
       (0 < n → 0 ≤ F < n) ∧ (n < 0 → n ≤ F ≤ 0) ∧ (n = 0 → F = 0).
Proof.
  intros Hy Hr Hn.
  assert (∀ b : bool, num_int (num_floor (if b then NegZero else Num 0 0)) 0) as Hzero.
  { intros []; simpl; [done|]. left. lia. }
  destruct y as [m e| | |]; simpl in Hy; try done.
  - unfold num_mul. destruct (decide (r * m = 0)) as [Hz|Hnz].
    + exists 0. split; [apply Hzero|].
      assert (r = 0 ∨ n = 0) as Hor by (destruct Hy as [[? ->]|[? ->]]; nia).
      destruct Hor as [-> | ->]; lia.
    + assert (n ≠ 0) by (destruct Hy as [[? ->]|[? ->]]; nia).
      assert (num_round (r * m) (-53 + e) = num_round (r * n) (-53)) as ->.
      { destruct Hy as [[He ->]|[He ->]].
        - rewrite <- (num_round_scale (r * m) (-53 + e) e He).
          f_equal; lia.
        - replace (-53 + e) with (-53 - - e) by lia.
          rewrite <- (num_round_scale (r * n) (-53) (- e)) by lia.
          f_equal; lia. }
      destruct (num_floor_round_product r n) as (F & HF & Hpos & Hneg); [lia|done..|].
      exists F. repeat split; try lia; tauto.
  - subst n. exists 0. split; [|lia].
    unfold num_mul. simpl. apply Hzero.
Qed.

(** [Math.floor(r * n)] stays below [n], rounding included. *)
Lemma floor_times_nonneg (r n : Z) :
  0 ≤ r < 2 ^ 53 → 0 ≤ n ≤ 2 ^ 53 →
  0 ≤ floor_times r n ∧ (0 < n → floor_times r n < n).
Proof.
  intros Hr Hn. unfold floor_times, num_of_draw.
  destruct (num_floor_mul_draw r n (num_of_Z n)) as (F & HF & Hpos & _ & Hzero);
    [apply num_of_Z_int; lia|done|lia|].
  rewrite (num_int_to_Z _ _ HF). simpl.
  destruct (decide (n = 0)) as [->|?]; [rewrite Hzero by done; lia|].
  split; [|intros _]; apply Hpos; lia.
Qed.

Lemma floor_times_nonpos (r n : Z) :
  0 ≤ r < 2 ^ 53 → - 2 ^ 53 ≤ n ≤ 0 → n ≤ floor_times r n ≤ 0.
Proof.
  intros Hr Hn. unfold floor_times, num_of_draw.
  destruct (num_floor_mul_draw r n (num_of_Z n)) as (F & HF & _ & Hneg & Hzero);
    [apply num_of_Z_int; lia|done|lia|].
  rewrite (num_int_to_Z _ _ HF). simpl.
  destruct (decide (n = 0)) as [->|?]; [rewrite Hzero by done; lia|].
  apply Hneg; lia.
Qed.

(** The product is rounded before the floor is taken: 0.7 * 10 is the
    double 7, not 6.99.... *)
Example floor_times_rounds_the_product :
  floor_times 6305039478318694 10 = 7 ∧ (6305039478318694 * 10) `div` 2 ^ 53 = 6.
Proof. split; vm_compute; reflexivity. Qed.

(** ** The data generator *)

(** How [randomInt] runs on integers of at most 52 bits. *)
Lemma randomInt_run (min max : Z) (w : World) :
  - 2 ^ 52 < min < 2 ^ 52 → - 2 ^ 52 < max < 2 ^ 52 →
  ∃ x v, TestDataGenerator.randomInt (num_of_Z min) (num_of_Z max) w
           = (Returned x, set_draws (S (draws w)) w) ∧
         num_int x v ∧
         (min ≤ max → min ≤ v ≤ max) ∧
         (max < min → max < v ≤ min).
Proof.
  intros Hmin Hmax.
  destruct (Math_random_range w) as (r & Hrun & Hr).
  unfold TestDataGenerator.randomInt. unfold_monad. rewrite Hrun.
  assert (num_int (num_of_Z min) min) as Imin by (apply num_of_Z_int; lia).
  assert (num_int (num_of_Z max) max) as Imax by (apply num_of_Z_int; lia).
  assert (num_int (num_of_Z 1) 1) as I1 by (apply num_of_Z_int; lia).
  pose proof (num_sub_int _ _ _ _ Imax Imin ltac:(lia)) as Isub.
  pose proof (num_add_int _ _ _ _ Isub I1 ltac:(lia)) as In.
  destruct (num_floor_mul_draw r (max - min + 1) _ In Hr ltac:(lia))
    as (F & HF & Hpos & Hneg & Hzero).
  assert (min ≤ max → 0 ≤ F < max - min + 1) as Hp by (intros; apply Hpos; lia).
  assert (max < min → max - min + 1 ≤ F ≤ 0) as Hn.
  { intros. destruct (decide (max - min + 1 = 0)) as [E|E]; [rewrite Hzero; lia|].
    apply Hneg; lia. }
  pose proof (num_add_int _ _ _ _ HF Imin ltac:(lia)) as Iv.
  eexists _, (F + min). split; [reflexivity|]. split; [done|]. lia.
Qed.

(** C8 (amended).  [randomInt] never raises an error, whatever the range.
    For integers of at most 52 bits (between -2^52 and 2^52, exclusive) it
    returns an integer within [min, max] when [min <= max], and for an
    inverted range ([max < min]) it still returns an integer, one within
    [max + 1, min].  The arithmetic is that of doubles: [max - min + 1] and
    the final sum are exact on this range, and the product with the draw is
    rounded to the nearest double before the floor is taken. *)
Theorem randomInt_total_and_bounded (min max : Z) (w : World) :
  - 2 ^ 52 < min < 2 ^ 52 → - 2 ^ 52 < max < 2 ^ 52 →
  ∃ x v, TestDataGenerator.randomInt (num_of_Z min) (num_of_Z max) w
           = (Returned x, set_draws (S (draws w)) w) ∧
         num_to_Z x = Some v ∧
         (min ≤ max → min ≤ v ≤ max) ∧
         (max < min → max < v ≤ min).
Proof.
  intros Hmin Hmax.
  destruct (randomInt_run min max w Hmin Hmax) as (x & v & Hrun & Hv & Hb).
  exists x, v. split; [done|]. split; [by apply num_int_to_Z|done].
Qed.

Lemma randomInt_total_and_bounded_witness :
  ∃ x v, TestDataGenerator.randomInt (num_of_Z 1) (num_of_Z 10)
           (start_world steady_env empty_db)
           = (Returned x, set_draws 1 (start_world steady_env empty_db)) ∧
         num_to_Z x = Some v ∧
         (1 ≤ 10 → 1 ≤ v ≤ 10) ∧
         (10 < 1 → 10 < v ≤ 1).
Proof.
  apply (randomInt_total_and_bounded 1 10 (start_world steady_env empty_db)); lia.
Defined.

(** C8, as stated, fails twice.  On the inverted range (5, 1) [randomInt]
    returns 3 where the claim asks for an InvalidRange error.  And on the
    integers -10^308 and 10^308, where [max - min + 1] overflows,
    it returns [Infinity], which is no integer within the bounds. *)
Lemma randomInt_inverted_range_returns :
  let w := start_world steady_env empty_db in
  (1 < 5) ∧
  (TestDataGenerator.randomInt (num_of_Z 5) (num_of_Z 1) w).1 = Returned (num_of_Z 3) ∧
  (- 10 ^ 308 ≤ 10 ^ 308) ∧
  (TestDataGenerator.randomInt (num_of_Z (- 10 ^ 308)) (num_of_Z (10 ^ 308)) w).1
    = Returned (Infinity false) ∧
  num_to_Z (Infinity false) = None.
Proof.
  split; [lia|]. split; [vm_compute; reflexivity|]. split; [lia|].
  split; [vm_compute; reflexivity|]. reflexivity.
Qed.

(** The counter below 2^53 counts exactly; at 2^53 it stays. *)
Lemma increment_exact (c : Z) : - 2 ^ 53 ≤ c < 2 ^ 53 → increment c = c + 1.
Proof.
  intros Hc. unfold increment.
  rewrite (num_int_to_Z _ (c + 1)); [done|].
  apply num_add_int; [apply num_of_Z_int; lia|apply num_of_Z_int; lia|lia].
Qed.

Example increment_stops : increment (2 ^ 53) = 2 ^ 53.
Proof. vm_compute. reflexivity. Qed.
(** ** The builder: configuration *)

Lemma configure_cons (c : ConfigCall) (calls : list ConfigCall) (this : E2ETestSetup) :
  configure (c :: calls) this = configure calls (configure1 c this).
Proof. reflexivity. Qed.

(** What a chain of configuration calls leaves in the three lists. *)
Lemma configure_lists (calls : list ConfigCall) (this : E2ETestSetup) :
  e2e_controllers (configure calls this)
    = e2e_controllers this ++ kept_controllers (e2e_useCustomModule this) calls ∧
  e2e_providers (configure calls this)
    = e2e_providers this ++ kept_providers (e2e_useCustomModule this) calls ∧
  e2e_imports (configure calls this)
    = kept_imports (e2e_useCustomModule this) (e2e_imports this) calls.
Proof.
  revert this. induction calls as [|c calls IH]; intros this.
  - simpl. rewrite !app_nil_r. done.
  - rewrite configure_cons.
    destruct (IH (configure1 c this)) as (Hc & Hp & Hi).
    rewrite Hc, Hp, Hi. clear IH Hc Hp Hi.
    destruct c; simpl;
      unfold E2ETestSetup.withImports, E2ETestSetup.withControllers,
        E2ETestSetup.withProviders;
      try (destruct (e2e_useCustomModule this) eqn:Hmode; simpl; rewrite ?Hmode);
      rewrite ?app_nil_r, ?app_assoc; done.
Qed.

(** Configuration calls touch nothing but the configuration. *)
Lemma configure_keeps_context (calls : list ConfigCall) (this : E2ETestSetup) :
  e2e_app (configure calls this) = e2e_app this ∧
  e2e_db (configure calls this) = e2e_db this ∧
  e2e_factories (configure calls this) = e2e_factories this.
Proof.
  revert this. induction calls as [|c calls IH]; intros this; [done|].
  rewrite configure_cons. destruct (IH (configure1 c this)) as (-> & -> & ->).
  destruct c; simpl;
    unfold E2ETestSetup.withImports, E2ETestSetup.withControllers,
      E2ETestSetup.withProviders;
    try destruct (e2e_useCustomModule this) eqn:Hmode; done.
Qed.

(** ** The builder: [setupApp] *)

Lemma apply_override_metadata mb o w mb' w' :
  E2ETestSetup.apply_override mb o w = (Returned mb', w') →
  tmb_metadata mb' = tmb_metadata mb.
Proof.
  unfold E2ETestSetup.apply_override, call_function. run.
  destruct (useValue o); try (intros [= <- <-]; done).
  destruct (useClass o); [intros [= <- <-]; done|].
  destruct (useFactory o) as [f|]; [|intros [= <- <-]; done].
  destruct (fun_call f []); intros [= <- <-]; done.
Qed.

Lemma apply_overrides_metadata ovs mb w mb' w' :
  E2ETestSetup.apply_overrides mb ovs w = (Returned mb', w') →
  tmb_metadata mb' = tmb_metadata mb.
Proof.
  revert mb w. induction ovs as [|o ovs IH]; intros mb w.
  - intros [= <- <-]. done.
  - simpl. unfold_monad.
    destruct (E2ETestSetup.apply_override mb o w) as [[mb1|e] w1] eqn:H1; [|done].
    intros H2. apply IH in H2. rewrite H2. eapply apply_override_metadata, H1.
Qed.

(** Every way [setupApp] can end, with the object it leaves behind. *)
Lemma setupApp_cases (this : E2ETestSetup) (w : World) :
  let mb0 := Test_createTestingModule
               (mkMetadata (e2e_imports this) (e2e_controllers this) (e2e_providers this)) in
  match E2ETestSetup.apply_overrides mb0 (e2e_providerOverrides this) w with
  | (Threw e, w1) => E2ETestSetup.setupApp (this, w) = (Threw e, (this, w1))
  | (Returned mb, w1) =>
    if nest_compile_fails (env w1) mb
    then E2ETestSetup.setupApp (this, w) = (Threw (NestError "compile"), (this, w1))
    else
      let app := mkApp (apps_created w1) mb in
      ∃ w2, env w2 = env w1 ∧
      if nest_init_fails (env w1) mb
      then E2ETestSetup.setupApp (this, w)
           = (Threw (NestError "init"), (E2ETestSetup.set_app app this, w2))
      else if nest_provides_db (env w1) mb
      then E2ETestSetup.setupApp (this, w)
           = (Returned tt,
              (E2ETestSetup.set_factories (TestFactories.new (Connection (apps_created w1)))
                 (E2ETestSetup.set_db (Connection (apps_created w1))
                    (E2ETestSetup.set_serverHttp (apps_created w1)
                       (E2ETestSetup.set_app app this))), w2))
      else E2ETestSetup.setupApp (this, w)
           = (Returned tt,
              (E2ETestSetup.set_serverHttp (apps_created w1)
                 (E2ETestSetup.set_app app this), w2))
  end.
Proof.
  intros mb0. unfold E2ETestSetup.setupApp. unfold_monad. cbn [fst snd].
  fold mb0.
  destruct (E2ETestSetup.apply_overrides mb0 (e2e_providerOverrides this) w)
    as [[mb|e] w1]; [|done].
  unfold moduleBuilder_compile, createNestApplication, app_init,
    app_get_DATABASE_CONNECTION. cbn.
  destruct (nest_compile_fails (env w1) mb); [done|]. cbn.
  destruct (nest_init_fails (env w1) mb); cbn.
  { eexists; split; [|reflexivity]. done. }
  destruct (nest_provides_db (env w1) mb); cbn.
  - eexists; split; [|reflexivity]. done.
  - eexists; split; [|reflexivity]. done.
Qed.

(** ** Factory cleanup *)

Lemma same_surroundings_refl w : same_surroundings w w.
Proof. by repeat split. Qed.

Lemma same_surroundings_trans w1 w2 w3 :
  same_surroundings w1 w2 → same_surroundings w2 w3 → same_surroundings w1 w3.
Proof.
  unfold same_surroundings. intros (?&?&?&?&?&?&?) (?&?&?&?&?&?&?).
  repeat split; congruence.
Qed.

Lemma failures_app tr1 tr2 : failures (tr1 ++ tr2) = (failures tr1 + failures tr2)%nat.
Proof. unfold failures. by rewrite List.filter_app, length_app. Qed.

Lemma logged_run_refl w : logged_run w w [].
Proof.
  split; [by rewrite app_nil_r|]. split; [|apply same_surroundings_refl].
  exists []. by rewrite app_nil_r.
Qed.

Lemma logged_run_trans w1 w2 w3 tr1 tr2 :
  logged_run w1 w2 tr1 → logged_run w2 w3 tr2 → logged_run w1 w3 (tr1 ++ tr2).
Proof.
  intros (Hr1 & (l1 & Hc1 & Hl1) & Hs1) (Hr2 & (l2 & Hc2 & Hl2) & Hs2).
  split; [by rewrite Hr2, Hr1, app_assoc|].
  split; [|eauto using same_surroundings_trans].
  exists (l1 ++ l2). split; [by rewrite Hc2, Hc1, app_assoc|].
  rewrite length_app, failures_app. lia.
Qed.

Ltac solve_cleanup :=
  repeat first
    [ progress run
    | match goal with
      | |- context [if ?b then _ else _] => destruct b eqn:?
      | |- context [match delete_all ?t ?d with _ => _ end] =>
          destruct (delete_all t d) as [[[]|] ?] eqn:?
      end ];
  do 2 eexists;
  (split; [reflexivity|]);
  (split;
    [ split; [simpl; rewrite <- ?app_assoc; reflexivity|];
      split; [|by repeat split];
      eexists; split;
        [ simpl; first [ rewrite <- ?app_assoc; reflexivity
                       | symmetry; apply app_nil_r ]
        | reflexivity ]
    | ]);
  (split; [discriminate|]);
  repeat constructor; cbv; tauto.

(** [TeacherFactory.cleanup] always returns, logs one line per failed
    request, and sends nothing but requests on the teachers table. *)
Lemma TeacherFactory_cleanup_returns (w : World) :
  ∃ w' tr, TeacherFactory.cleanup w = (Returned tt, w') ∧
    logged_run w w' tr ∧ tr ≠ [] ∧ Forall teacher_request tr.
Proof.
  unfold TeacherFactory.cleanup, db_execute, db_delete, db_call, console_warn.
  solve_cleanup.
Qed.

Lemma SchoolFactory_cleanup_returns (w : World) :
  ∃ w' tr, SchoolFactory.cleanup w = (Returned tt, w') ∧
    logged_run w w' tr ∧ tr ≠ [] ∧ Forall school_request tr.
Proof.
  unfold SchoolFactory.cleanup, db_execute, db_delete, db_call, console_warn.
  solve_cleanup.
Qed.

(** ** The factory registry *)

Lemma registry_get_ok db reg factoryType :
  registry_ok db reg → registry_ok db (TestFactories.get factoryType reg).2.
Proof.
  intros [Hdb Hmap]. unfold TestFactories.get, FACTORY_REGISTRY.
  destruct (tf_factories reg !! factoryType) eqn:Hl; [done|].
  repeat case_decide; simpl; try done; subst.
  - split; [done|]. intros k f. simpl. rewrite lookup_insert. case_decide; subst.
    + intros [= <-]. by left.
    + apply Hmap.
  - split; [done|]. intros k f. simpl. rewrite lookup_insert. case_decide; subst.
    + intros [= <-]. by right.
    + apply Hmap.
Qed.

Lemma registry_after_ok factoryTypes db :
  registry_ok db (registry_after factoryTypes db).
Proof.
  unfold registry_after.
  induction factoryTypes as [|t ts IH] using rev_ind.
  - split; [done|]. intros k f. simpl. by rewrite lookup_empty.
  - rewrite foldl_app. simpl. by apply registry_get_ok.
Qed.

(** The two turns of the fallback loop: under "teacher" the registry holds
    a Teacher factory or nothing, under "school" a School factory or
    nothing. *)
Lemma registry_loop_turns db reg :
  registry_ok db reg →
  (match tf_factories reg !! "teacher" with
   | Some factory => Factory_cleanup factory
   | None => ret tt
   end = when_constructed reg "teacher" TeacherFactory.cleanup) ∧
  (match tf_factories reg !! "school" with
   | Some factory => Factory_cleanup factory
   | None => ret tt
   end = when_constructed reg "school" SchoolFactory.cleanup).
Proof.
  intros [_ Hmap]. unfold when_constructed. split.
  - destruct (tf_factories reg !! "teacher") as [f|] eqn:Hl.
    + destruct (Hmap _ _ Hl) as [[? _]|[_ ->]]; [done|].
      by rewrite decide_True by eauto.
    + by rewrite decide_False by (by intros [? ?]).
  - destruct (tf_factories reg !! "school") as [f|] eqn:Hl.
    + destruct (Hmap _ _ Hl) as [[_ ->]|[? _]]; [|done].
      by rewrite decide_True by eauto.
    + by rewrite decide_False by (by intros [? ?]).
Qed.

Lemma when_constructed_teacher reg w :
  ∃ w' tr, when_constructed reg "teacher" TeacherFactory.cleanup w = (Returned tt, w') ∧
    logged_run w w' tr ∧ Forall teacher_request tr ∧
    (tr ≠ [] ↔ is_Some (tf_factories reg !! "teacher")).
Proof.
  unfold when_constructed. case_decide as Hc.
  - destruct (TeacherFactory_cleanup_returns w) as (w' & tr & ? & ? & ? & ?).
    exists w', tr. split; [done|]. split; [done|]. split; [done|]. by split.
  - exists w, []. split; [done|]. split; [apply logged_run_refl|].
    split; [constructor|]. by split.
Qed.

Lemma when_constructed_school reg w :
  ∃ w' tr, when_constructed reg "school" SchoolFactory.cleanup w = (Returned tt, w') ∧
    logged_run w w' tr ∧ Forall school_request tr ∧
    (tr ≠ [] ↔ is_Some (tf_factories reg !! "school")).
Proof.
  unfold when_constructed. case_decide as Hc.
  - destruct (SchoolFactory_cleanup_returns w) as (w' & tr & ? & ? & ? & ?).
    exists w', tr. split; [done|]. split; [done|]. split; [done|]. by split.
  - exists w, []. split; [done|]. split; [apply logged_run_refl|].
    split; [constructor|]. by split.
Qed.

(** Every way the registry's [cleanup()] can go. *)
Lemma registry_cleanup_cases db reg (w : World) :
  registry_ok db reg →
  ∃ w' bulk_ok tr_teacher tr_school,
    TestFactories.cleanup reg w = (Returned tt, w') ∧
    logged_run w w'
      ((Execute TRUNCATE_teachers_schools, bulk_ok) :: tr_teacher ++ tr_school) ∧
    Forall teacher_request tr_teacher ∧
    Forall school_request tr_school ∧
    (tr_teacher ≠ [] ↔ bulk_ok = false ∧ is_Some (tf_factories reg !! "teacher")) ∧
    (tr_school ≠ [] ↔ bulk_ok = false ∧ is_Some (tf_factories reg !! "school")) ∧
    (bulk_ok = true → database w' = mkDB [] [] 1 1) ∧
    (bulk_ok = false →
       ∃ e w1,
         let w0 := add_console
                     (console_warn_error
                        "Bulk cleanup failed, trying individual cleanup:" e)
                     (set_database (database w)
                        (Execute TRUNCATE_teachers_schools, false) w) in
         when_constructed reg "teacher" TeacherFactory.cleanup w0 = (Returned tt, w1) ∧
         when_constructed reg "school" SchoolFactory.cleanup w1 = (Returned tt, w')).
Proof.
  intros Hok. destruct (registry_loop_turns db reg Hok) as [Hteacher Hschool].
  unfold TestFactories.cleanup, TestFactories.cleanupOrder.
  cbn [for_of]. rewrite Hteacher, Hschool.
  unfold db_execute, db_call, console_warn. unfold_monad. cbn [run_sql].
  destruct (db_fault (env w) (length (requests w))) eqn:Hfault.
  - set (w0 := add_console _ (set_database _ _ w)).
    assert (logged_run w w0 [(Execute TRUNCATE_teachers_schools, false)]) as H0.
    { split; [done|]. split; [by eexists [_]|by repeat split]. }
    destruct (when_constructed_teacher reg w0) as (w1 & tr_t & Ht & H1 & Hft & Hnt).
    destruct (when_constructed_school reg w1) as (w2 & tr_s & Hs & H2 & Hfs & Hns).
    exists w2, false, tr_t, tr_s. rewrite Ht, Hs.
    split; [done|].
    split; [apply (logged_run_trans _ _ _ [_] _ H0), (logged_run_trans _ _ _ _ _ H1 H2)|].
    split; [done|]. split; [done|].
    split; [rewrite Hnt; split; [by split | by intros [_ ?]]|].
    split; [rewrite Hns; split; [by split | by intros [_ ?]]|].
    split; [done|]. intros _. by exists (DbError "request rejected"), w1.
  - eexists _, true, [], []. split; [reflexivity|].
    split.
    { split; [done|]. split; [by exists []; rewrite app_nil_r|by repeat split]. }
    repeat split; try done; by intros [? ?].
Qed.

(** C1 (amended).  Whatever factories a registry has constructed, its
    [cleanup()] never raises.  It first sends one bulk erase-and-reset of
    both tables.  If that request fails it logs a warning and then runs the
    individual [cleanup()] of the factories the registry has constructed
    so far, the Teacher factory before the School factory; an entity whose
    factory was never requested through [get] is skipped.  Every request
    that fails on the way leaves one line on the console and is swallowed:
    nothing is propagated. *)
Theorem registry_cleanup_never_raises
    (factoryTypes : list string) (db : Database) (w : World) :
  let reg := registry_after factoryTypes db in
  ∃ w' bulk_ok tr_teacher tr_school,
    TestFactories.cleanup reg w = (Returned tt, w') ∧
    logged_run w w'
      ((Execute TRUNCATE_teachers_schools, bulk_ok) :: tr_teacher ++ tr_school) ∧
    Forall teacher_request tr_teacher ∧
    Forall school_request tr_school ∧
    (tr_teacher ≠ [] ↔ bulk_ok = false ∧ is_Some (tf_factories reg !! "teacher")) ∧
    (tr_school ≠ [] ↔ bulk_ok = false ∧ is_Some (tf_factories reg !! "school")) ∧
    (bulk_ok = false →
       ∃ e w1,
         let w0 := add_console
                     (console_warn_error
                        "Bulk cleanup failed, trying individual cleanup:" e)
                     (set_database (database w)
                        (Execute TRUNCATE_teachers_schools, false) w) in
         when_constructed reg "teacher" TeacherFactory.cleanup w0 = (Returned tt, w1) ∧
         when_constructed reg "school" SchoolFactory.cleanup w1 = (Returned tt, w')).
Proof.
  intros reg.
  destruct (registry_cleanup_cases db reg w (registry_after_ok factoryTypes db))
    as (w' & ok & tr_t & tr_s & Hrun & Hlog & Ht & Hs & Hnt & Hns & _ & Hfall).
  exists w', ok, tr_t, tr_s. repeat (split; [assumption|]). exact Hfall.
Qed.

(** C1, as stated, fails: on a registry from which no factory was ever
    requested, a failed bulk attempt is followed by no individual cleanup at
    all.  The only request sent is the rejected bulk statement and the rows
    stay where they were. *)
Lemma registry_cleanup_skips_unconstructed_factories :
  let w := start_world (faulty_env 0) seeded_db in
  let reg := registry_after [] (Connection 0) in
  (TestFactories.cleanup reg w).1 = Returned tt ∧
  requests (TestFactories.cleanup reg w).2
    = [(Execute TRUNCATE_teachers_schools, false)] ∧
  database (TestFactories.cleanup reg w).2 = seeded_db ∧
  TeacherFactory.cleanup
    (add_console
       (console_warn_error "Bulk cleanup failed, trying individual cleanup:"
          (DbError "request rejected"))
       (set_database (database w) (Execute TRUNCATE_teachers_schools, false) w))
    ≠ (Returned tt, (TestFactories.cleanup reg w).2).
Proof.
  cbv zeta. split; [reflexivity|]. split; [reflexivity|]. split; [reflexivity|].
  intros H. apply (f_equal (λ r, length (requests r.2))) in H.
  vm_compute in H. discriminate.
Qed.

(** ** Decimal numerals inside generated strings *)

Lemma string_app_nil (s : string) : "" +:+ s = s.
Proof. reflexivity. Qed.

Lemma string_app_cons (a : ascii) (s1 s2 : string) :
  String a s1 +:+ s2 = String a (s1 +:+ s2).
Proof. reflexivity. Qed.

(** Two strings that agree up to and after the first occurrence of a
    separator agree on both sides of it. *)
Lemma app_separator (c : ascii) (a a' b b' : string) :
  lacks c a → lacks c a' →
  a +:+ String c b = a' +:+ String c b' → a = a' ∧ b = b'.
Proof.
  revert a'. induction a as [|x a IH]; intros [|x' a'];
    rewrite ?string_app_nil, ?string_app_cons; simpl.
  - intros _ _ [= ->]. done.
  - intros _ [Hx _] [= <- _]. done.
  - intros [Hx _] _ [= -> _]. done.
  - intros [_ Ha] [_ Ha'] [= -> H]. destruct (IH a' Ha Ha' H) as [-> ->]. done.
Qed.

Lemma pretty_N_go_lacks (c : ascii) (x : N) (s : string) :
  nondigit c → lacks c s → lacks c (pretty_N_go x s).
Proof.
  intros Hc. revert s. induction (N.lt_wf_0 x) as [x _ IH]; intros s Hs.
  destruct (decide (x = 0)%N) as [->|Hx].
  - by rewrite pretty_N_go_0.
  - rewrite pretty_N_go_step by lia.
    apply IH; [apply N.div_lt; lia|]. split; [apply Hc | done].
Qed.

Lemma pretty_N_lacks (c : ascii) (x : N) : nondigit c → lacks c (pretty x).
Proof.
  intros Hc. unfold pretty, pretty_N. case_decide.
  - split; [apply (Hc 0%N)|done].
  - by apply pretty_N_go_lacks.
Qed.

Lemma pretty_nat_lacks (c : ascii) (n : nat) : nondigit c → lacks c (pretty n).
Proof. apply pretty_N_lacks. Qed.

Lemma pretty_Z_lacks (c : ascii) (z : Z) :
  nondigit c → c ≠ "-"%char → lacks c (pretty z).
Proof.
  intros Hc Hdash. destruct z as [|p|p]; unfold pretty, pretty_Z.
  - split; [apply (Hc 0%N)|done].
  - by apply pretty_N_lacks.
  - rewrite string_app_cons, string_app_nil.
    split; [done|]. by apply pretty_N_lacks.
Qed.

Lemma nondigit_underscore : nondigit "_".
Proof. intros d. unfold pretty_N_char. by repeat case_match. Qed.

Lemma nondigit_at : nondigit "@".
Proof. intros d. unfold pretty_N_char. by repeat case_match. Qed.

(** The first name [createMany] generates determines the index. *)
Lemma teacher_firstName_index (t t' : Z) (i j : nat) :
  "Teacher" +:+ pretty t +:+ "_" +:+ pretty i
  = "Teacher" +:+ pretty t' +:+ "_" +:+ pretty j → i = j.
Proof.
  intros H. apply (inj (String.app "Teacher")) in H.
  change ("_" +:+ pretty i) with (String "_" (pretty i)) in H.
  change ("_" +:+ pretty j) with (String "_" (pretty j)) in H.
  apply app_separator in H as [_ H];
    [| apply pretty_Z_lacks; [apply nondigit_underscore|done] ..].
  by apply (inj pretty) in H.
Qed.

(** So does the email address. *)
Lemma teacher_email_index (t t' : Z) (i j : nat) :
  "teacher" +:+ pretty t +:+ "_" +:+ pretty i +:+ "@test.com"
  = "teacher" +:+ pretty t' +:+ "_" +:+ pretty j +:+ "@test.com" → i = j.
Proof.
  intros H. apply (inj (String.app "teacher")) in H.
  change ("_" +:+ pretty i +:+ "@test.com")
    with (String "_" (pretty i +:+ "@test.com")) in H.
  change ("_" +:+ pretty j +:+ "@test.com")
    with (String "_" (pretty j +:+ "@test.com")) in H.
  apply app_separator in H as [_ H];
    [| apply pretty_Z_lacks; [apply nondigit_underscore|done] ..].
  change "@test.com" with (String "@" "test.com") in H.
  apply app_separator in H as [H _];
    [| apply pretty_nat_lacks, nondigit_at ..].
  by apply (inj pretty) in H.
Qed.



(** ** Lengths and NUL characters of generated strings *)

Lemma string_length_app (s1 s2 : string) :
  String.length (s1 +:+ s2) = (String.length s1 + String.length s2)%nat.
Proof. induction s1 as [|a s1 IH]; simpl; [done|]. by rewrite IH. Qed.

Lemma char_length_le (s : string) : (char_length s ≤ String.length s)%nat.
Proof. induction s as [|c s IH]; simpl; [done|]. destruct (continuation c); lia. Qed.

Lemma contains_nul_app (s1 s2 : string) :
  contains_nul (s1 +:+ s2) = contains_nul s1 || contains_nul s2.
Proof. induction s1 as [|a s1 IH]; simpl; [done|]. by rewrite IH, orb_assoc. Qed.

Lemma lacks_nul (s : string) : lacks "000" s → contains_nul s = false.
Proof.
  induction s as [|c s IH]; simpl; [done|]. intros [Hc Hs].
  by rewrite bool_decide_false, IH.
Qed.

Lemma nondigit_nul : nondigit "000".
Proof. intros d. unfold pretty_N_char. by repeat case_match. Qed.

Lemma pretty_Z_no_nul (z : Z) : contains_nul (pretty z) = false.
Proof. apply lacks_nul, pretty_Z_lacks; [apply nondigit_nul|done]. Qed.


Lemma substring_length (n m : nat) (s : string) :
  (String.length (String.substring n m s) ≤ m)%nat.
Proof.
  revert n m. induction s as [|c s IH]; intros [|n] [|m]; simpl; try lia.
  - specialize (IH 0%nat m). lia.
  - apply (IH n 0%nat).
  - apply IH.
Qed.

Lemma substring_no_nul (n m : nat) (s : string) :
  contains_nul s = false → contains_nul (String.substring n m s) = false.
Proof.
  revert n m. induction s as [|c s IH]; intros [|n] [|m]; simpl; try done.
  - intros [? ?]%orb_false_elim. rewrite IH by done. by rewrite orb_false_r.
  - intros [? ?]%orb_false_elim. by apply IH.
  - intros [? ?]%orb_false_elim. by apply IH.
Qed.

(** A numeral below [10^k] has at most [k] digits. *)
Lemma pretty_N_go_length_le (k : nat) (x : N) (s : string) :
  (x < 10 ^ N.of_nat k)%N →
  (String.length (pretty_N_go x s) ≤ k + String.length s)%nat.
Proof.
  revert x s. induction k as [|k IH]; intros x s Hx.
  - assert (x = 0%N) as -> by (simpl in Hx; lia). by rewrite pretty_N_go_0.
  - destruct (decide (x = 0)%N) as [->|Hne]; [rewrite pretty_N_go_0; lia|].
    rewrite pretty_N_go_step by lia.
    rewrite Nat2N.inj_succ, N.pow_succ_r' in Hx.
    etrans; [apply IH|simpl; lia].
    apply N.Div0.div_lt_upper_bound; lia.
Qed.

Lemma pretty_Z_length_le (k : nat) (z : Z) :
  0 ≤ z < 10 ^ Z.of_nat k → (String.length (pretty z) ≤ S k)%nat.
Proof.
  intros Hz. destruct z as [|p|p]; [simpl; lia| |lia].
  unfold pretty, pretty_Z, pretty, pretty_positive, pretty, pretty_N.
  rewrite decide_False by done.
  etrans; [apply (pretty_N_go_length_le k)|simpl; lia].
  apply N2Z.inj_lt. rewrite N2Z.inj_pow, nat_N_Z. simpl Z.of_N. lia.
Qed.

(** ** Requests and inserts *)

Lemma db_call_Returned {A} req (run : Z → DB → option A * DB) w a w' :
  db_call req run w = (Returned a, w') →
  db_fault (env w) (length (requests w)) = false ∧
  ∃ d', run (db_now (env w) (length (requests w))) (database w) = (Some a, d') ∧
        w' = set_database d' (req, true) w.
Proof.
  unfold db_call. destruct (db_fault _ _); [done|].
  destruct (run _ _) as [[a'|] d']; [|done].
  intros [= <- <-]. eauto.
Qed.

Lemma db_call_run {A} req (run : Z → DB → option A * DB) w a d' :
  db_fault (env w) (length (requests w)) = false →
  run (db_now (env w) (length (requests w))) (database w) = (Some a, d') →
  db_call req run w = (Returned a, set_database d' (req, true) w).
Proof. intros Hf Hr. unfold db_call. by rewrite Hf, Hr. Qed.

Lemma transaction_insert_Some {Row} parameters can_bind
    (ins : jsobj → DB → option Row * DB) deferred values d rows d' :
  transaction_insert parameters can_bind ins deferred values d = (Some rows, d') →
  values ≠ [] ∧ forallb can_bind values = true ∧
  insert_rows ins values d = (Some rows, d') ∧
  forallb (deferred d') rows = true.
Proof.
  unfold transaction_insert, insert_statement.
  destruct values as [|o values]; [done|].
  destruct (bool_decide _); [|done]. cbn [andb].
  destruct (forallb can_bind (o :: values)); [|done].
  destruct (insert_rows ins (o :: values) d) as [[rows'|] d1]; [|done].
  destruct (forallb (deferred d1) rows') eqn:Hdef; [|done].
  intros [= <- <-]. done.
Qed.

(** A transaction that fails leaves both tables as they were. *)
Lemma transaction_insert_None {Row} parameters can_bind
    (ins : jsobj → DB → option Row * DB) deferred values d d' :
  transaction_insert parameters can_bind ins deferred values d = (None, d') →
  schools d' = schools d ∧ teachers d' = teachers d.
Proof.
  unfold transaction_insert. destruct values as [|o rest]; [by intros [= <-]|].
  destruct (insert_statement _ _ _ _ _ _) as [[rows|] d'']; [done|].
  by intros [= <-].
Qed.

Lemma transaction_insert_run {Row} parameters can_bind
    (ins : jsobj → DB → option Row * DB) deferred values d rows d' :
  values ≠ [] →
  Z.of_nat (sum_list (parameters <$> values)) < max_parameters →
  forallb can_bind values = true →
  insert_rows ins values d = (Some rows, d') →
  forallb (deferred d') rows = true →
  transaction_insert parameters can_bind ins deferred values d = (Some rows, d').
Proof.
  intros Hne Hpar Hbind Hins Hdef. unfold transaction_insert, insert_statement.
  destruct values; [done|].
  by rewrite bool_decide_eq_true_2, Hbind, Hins, Hdef.
Qed.

(** drizzle refuses an empty list of rows: nothing is inserted and no
    identifier is drawn. *)
Lemma transaction_insert_empty {Row} parameters can_bind
    (ins : jsobj → DB → option Row * DB) deferred d :
  transaction_insert parameters can_bind ins deferred [] d = (None, d).
Proof. done. Qed.

Lemma insert_rows_Forall2 {Row} (ins : jsobj → DB → option Row * DB)
    (R : jsobj → Row → Prop) :
  (∀ o d row d', ins o d = (Some row, d') → R o row) →
  ∀ values d rows d',
    insert_rows ins values d = (Some rows, d') → Forall2 R values rows.
Proof.
  intros HR values. induction values as [|o values IH]; intros d rows d'; simpl.
  - intros [= <- <-]. constructor.
  - destruct (ins o d) as [[row|] d1] eqn:Hins; [|done].
    destruct (insert_rows ins values d1) as [[rows1|] d2] eqn:Hrest; [|done].
    intros [= <- <-]. constructor; eauto.
Qed.

Lemma insert_rows_length {Row} (ins : jsobj → DB → option Row * DB)
    values d rows d' :
  insert_rows ins values d = (Some rows, d') → length rows = length values.
Proof.
  intros H. eapply (insert_rows_Forall2 ins (λ _ _, True)) in H; [|done].
  symmetry. eapply Forall2_length, H.
Qed.

(** *** What a column of an inserted row holds *)

Lemma varchar_applied (n : nat) (o : jsobj) (k : string) (r : option string) (v : jsval) :
  varchar n (cell_text o k) = Some r →
  o !! k = Some v → v ≠ VUndefined → text_value r = v.
Proof.
  unfold cell_text. intros H Hk Hv. rewrite Hk in H.
  destruct v; simpl in H; try done.
  - by injection H as <-.
  - destruct (contains_nul s); [done|]. simpl in H.
    case_decide; [|done]. by injection H as <-.
Qed.

Lemma varchar_length (n : nat) (c : cell string) (s : string) :
  varchar n c = Some (Some s) → c = Value s ∧ (char_length s ≤ n)%nat.
Proof.
  destruct c as [| |s'|]; simpl; try done.
  case_decide; [|done]. by intros [= <-].
Qed.

Lemma varchar_Default (n : nat) (c : cell string) (r : option string) :
  varchar n c = Some r → c = Default → r = None.
Proof. intros H ->. by injection H as <-. Qed.

Lemma integer_applied (o : jsobj) (k : string) (r : option Z) (v : jsval) :
  integer (cell_int o k) = Some r →
  o !! k = Some v → v ≠ VUndefined → int_value r = v.
Proof.
  unfold cell_int. intros H Hk Hv. rewrite Hk in H.
  destruct v; simpl in H; try done.
  - by injection H as <-.
  - case_decide; [|done]. by injection H as <-.
Qed.

Lemma timestamp_applied (now : Z) (o : jsobj) (k : string) (t : Z) (v : jsval) :
  timestamp_default_now now (cell_time o k) = Some (Some t) →
  o !! k = Some v → v ≠ VUndefined → VDate t = v.
Proof.
  unfold cell_time. intros H Hk Hv. rewrite Hk in H.
  destruct v; simpl in H; try done.
  case_decide; [|done]. by injection H as <-.
Qed.

Lemma serial_applied (seq : Z) (o : jsobj) (id seq' : Z) (v : jsval) :
  serial seq (cell_int o "id") = Some (Some id, seq') →
  o !! "id" = Some v → v ≠ VUndefined → VNum id = v.
Proof.
  unfold cell_int. intros H Hk Hv. rewrite Hk in H.
  destruct v; simpl in H; try done.
  case_decide; [|done]. by injection H as <- _.
Qed.

(** The identifier of an inserted row and the sequence after it. *)
Lemma serial_Some (seq : Z) (c : cell Z) (id seq' : Z) :
  serial seq c = Some (Some id, seq') →
  (c = Default ∧ id = seq ∧ seq' = seq + 1 ∧ seq ≤ int4_max) ∨
  (c = Value id ∧ seq' = seq).
Proof.
  destruct c as [| |n|]; simpl; try done.
  - case_decide; [|done]. intros [= <- <-]. by left.
  - intros [= <- <-]. by right.
Qed.

(** *** Rows of [schools] *)

Lemma school_row_Some now o id d row :
  school_row now o id d = Some row →
  id = Some (school_id row) ∧
  varchar 255 (cell_text o "name") = Some (Some (school_name row)) ∧
  varchar 500 (cell_text o "address") = Some (school_address row) ∧
  varchar 20 (cell_text o "phone") = Some (school_phone row) ∧
  varchar 255 (cell_text o "email") = Some (school_email row) ∧
  timestamp_default_now now (cell_time o "createdAt") = Some (Some (school_createdAt row)) ∧
  timestamp_default_now now (cell_time o "updatedAt") = Some (Some (school_updatedAt row)) ∧
  int4_min ≤ school_id row ≤ int4_max ∧
  (school_id row ∉ school_id <$> schools d).
Proof.
  unfold school_row, not_null. destruct id as [i|]; simpl; [|done].
  destruct (varchar 255 (cell_text o "name")) as [[name|]|]; simpl; try done.
  destruct (varchar 500 (cell_text o "address")) as [address|]; simpl; [|done].
  destruct (varchar 20 (cell_text o "phone")) as [phone|]; simpl; [|done].
  destruct (varchar 255 (cell_text o "email")) as [email|]; simpl; [|done].
  destruct (timestamp_default_now now (cell_time o "createdAt")) as [[c|]|]; simpl; try done.
  destruct (timestamp_default_now now (cell_time o "updatedAt")) as [[u|]|]; simpl; try done.
  case_decide as Hok; [|done]. intros [= <-]. simpl. by destruct Hok.
Qed.

Lemma school_row_matches now o id d row :
  school_row now o id d = Some row →
  (∀ v, o !! "id" = Some v → v ≠ VUndefined → VNum (school_id row) = v) →
  school_matches o row.
Proof.
  intros (_ & Hn & Ha & Hp & He & Hc & Hu & _)%school_row_Some Hid.
  split; [|repeat split; intros Hd; eapply varchar_Default; eauto].
  intros k v Hk Hv Hattr. unfold School_attribute in *.
  repeat case_decide; subst; f_equal.
  - by apply Hid.
  - by apply (varchar_applied _ _ _ _ _ Hn).
  - by apply (varchar_applied _ _ _ _ _ Ha).
  - by apply (varchar_applied _ _ _ _ _ Hp).
  - by apply (varchar_applied _ _ _ _ _ He).
  - by apply (timestamp_applied _ _ _ _ _ Hc).
  - by apply (timestamp_applied _ _ _ _ _ Hu).
  - by destruct Hattr.
Qed.

Lemma insert_school_Some now o d row d' :
  insert_school now o d = (Some row, d') →
  school_matches o row ∧
  ((cell_int o "id" = Default ∧ school_id row = schools_id_seq d ∧
    schools_id_seq d' = schools_id_seq d + 1) ∨
   (cell_int o "id" = Value (school_id row) ∧ schools_id_seq d' = schools_id_seq d)) ∧
  int4_min ≤ school_id row ≤ int4_max ∧
  (school_id row ∉ school_id <$> schools d) ∧
  schools d' = schools d ++ [row] ∧ teachers d' = teachers d ∧
  teachers_id_seq d' = teachers_id_seq d ∧
  (char_length (school_name row) ≤ 255)%nat.
Proof.
  unfold insert_school.
  destruct (serial _ _) as [[id seq]|] eqn:Hserial; [|done].
  destruct (school_row now o id d) as [row'|] eqn:Hrow; [|done].
  intros [= <- <-].
  pose proof Hrow as (-> & Hn & _ & _ & _ & _ & _ & Hint & Hfresh)%school_row_Some.
  split.
  { eapply school_row_matches; [done|].
    intros v Hk Hv. by eapply serial_applied. }
  split.
  { apply serial_Some in Hserial as [(? & ? & ? & ?)|(? & ?)]; [left|right];
      simpl; repeat split; done. }
  apply varchar_length in Hn as [_ Hlen].
  split; [done|]. repeat split; done.
Qed.


(** *** Rows of [teachers] *)

Lemma teacher_row_Some now o id d row :
  teacher_row now o id d = Some row →
  id = Some (teacher_id row) ∧
  varchar 100 (cell_text o "firstName") = Some (Some (teacher_firstName row)) ∧
  varchar 100 (cell_text o "lastName") = Some (Some (teacher_lastName row)) ∧
  varchar 255 (cell_text o "email") = Some (Some (teacher_email row)) ∧
  varchar 20 (cell_text o "phone") = Some (teacher_phone row) ∧
  varchar 100 (cell_text o "subject") = Some (teacher_subject row) ∧
  integer (cell_int o "schoolId") = Some (teacher_schoolId row) ∧
  timestamp_default_now now (cell_time o "createdAt") = Some (Some (teacher_createdAt row)) ∧
  timestamp_default_now now (cell_time o "updatedAt") = Some (Some (teacher_updatedAt row)) ∧
  int4_min ≤ teacher_id row ≤ int4_max ∧
  (teacher_id row ∉ teacher_id <$> teachers d) ∧
  (teacher_email row ∉ teacher_email <$> teachers d).
Proof.
  unfold teacher_row, not_null. destruct id as [i|]; simpl; [|done].
  destruct (varchar 100 (cell_text o "firstName")) as [[first|]|]; simpl; try done.
  destruct (varchar 100 (cell_text o "lastName")) as [[last|]|]; simpl; try done.
  destruct (varchar 255 (cell_text o "email")) as [[mail|]|]; simpl; try done.
  destruct (varchar 20 (cell_text o "phone")) as [phone|]; simpl; [|done].
  destruct (varchar 100 (cell_text o "subject")) as [subject|]; simpl; [|done].
  destruct (integer (cell_int o "schoolId")) as [schoolId|]; simpl; [|done].
  destruct (timestamp_default_now now (cell_time o "createdAt")) as [[c|]|]; simpl; try done.
  destruct (timestamp_default_now now (cell_time o "updatedAt")) as [[u|]|]; simpl; try done.
  case_decide as Hok; [|done]. intros [= <-]. simpl.
  destruct Hok as (? & ? & ?). done.
Qed.

Lemma integer_Default (c : cell Z) (r : option Z) :
  integer c = Some r → c = Default → r = None.
Proof. intros H ->. by injection H as <-. Qed.

Lemma teacher_row_matches now o id d row :
  teacher_row now o id d = Some row →
  (∀ v, o !! "id" = Some v → v ≠ VUndefined → VNum (teacher_id row) = v) →
  teacher_matches o row.
Proof.
  intros (_ & Hf & Hl & He & Hp & Hs & Hi & Hc & Hu & _)%teacher_row_Some Hid.
  split; [|repeat split; intros Hd;
            [eapply varchar_Default|eapply varchar_Default|eapply integer_Default];
            eauto].
  intros k v Hk Hv Hattr. unfold Teacher_attribute in *.
  repeat case_decide; subst; f_equal.
  - by apply Hid.
  - by apply (varchar_applied _ _ _ _ _ Hf).
  - by apply (varchar_applied _ _ _ _ _ Hl).
  - by apply (varchar_applied _ _ _ _ _ He).
  - by apply (varchar_applied _ _ _ _ _ Hp).
  - by apply (varchar_applied _ _ _ _ _ Hs).
  - by apply (integer_applied _ _ _ _ Hi).
  - by apply (timestamp_applied _ _ _ _ _ Hc).
  - by apply (timestamp_applied _ _ _ _ _ Hu).
  - by destruct Hattr.
Qed.

Lemma insert_teacher_Some now o d row d' :
  insert_teacher now o d = (Some row, d') →
  teacher_matches o row ∧
  ((cell_int o "id" = Default ∧ teacher_id row = teachers_id_seq d ∧
    teachers_id_seq d' = teachers_id_seq d + 1) ∨
   (cell_int o "id" = Value (teacher_id row) ∧ teachers_id_seq d' = teachers_id_seq d)) ∧
  int4_min ≤ teacher_id row ≤ int4_max ∧
  (teacher_id row ∉ teacher_id <$> teachers d) ∧
  (teacher_email row ∉ teacher_email <$> teachers d) ∧
  teachers d' = teachers d ++ [row] ∧ schools d' = schools d ∧
  schools_id_seq d' = schools_id_seq d.
Proof.
  unfold insert_teacher.
  destruct (serial _ _) as [[id seq]|] eqn:Hserial; [|done].
  destruct (teacher_row now o id d) as [row'|] eqn:Hrow; [|done].
  intros [= <- <-].
  pose proof Hrow as (-> & _ & _ & _ & _ & _ & _ & _ & _ & Hint & Hfresh & Hmail)%teacher_row_Some.
  split.
  { eapply teacher_row_matches; [done|].
    intros v Hk Hv. by eapply serial_applied. }
  split.
  { apply serial_Some in Hserial as [(? & ? & ? & ?)|(? & ?)]; [left|right];
      simpl; repeat split; done. }
  split; [done|]. repeat split; done.
Qed.

Lemma insert_teachers_table now values d rows d' :
  insert_rows (insert_teacher now) values d = (Some rows, d') →
  teachers d' = teachers d ++ rows ∧ schools d' = schools d.
Proof.
  revert d rows d'. induction values as [|o values IH]; intros d rows d'; simpl.
  - intros [= <- <-]. by rewrite app_nil_r.
  - destruct (insert_teacher now o d) as [[row|] d1] eqn:Hins; [|done].
    destruct (insert_rows _ values d1) as [[rows1|] d2] eqn:Hrest; [|done].
    intros [= <- <-].
    apply insert_teacher_Some in Hins as (_ & _ & _ & _ & _ & Ht & Hs & _).
    apply IH in Hrest as [Ht2 Hs2].
    rewrite Ht2, Hs2, Ht, Hs, <- app_assoc. done.
Qed.

(** A transaction that throws leaves both tables as they were. *)
Lemma insert_returning_Threw {Row} req parameters can_bind
    (ins : Z → jsobj → DB → option Row * DB) deferred values w e w' :
  db_call req (λ now d, transaction_insert parameters can_bind (ins now) deferred
                          values d) w
    = (Threw e, w') →
  schools (database w') = schools (database w) ∧
  teachers (database w') = teachers (database w) ∧
  requests w' = requests w ++ [(req, false)] ∧
  same_surroundings w w' ∧ console w' = console w.
Proof.
  unfold db_call. destruct (db_fault (env w) (length (requests w))).
  - intros [= <- <-]. by repeat split.
  - destruct (transaction_insert _ _ _ _ values (database w)) as [[rows|] d'] eqn:Hins; [done|].
    intros [= <- <-]. apply transaction_insert_None in Hins as [? ?]. by repeat split.
Qed.


Lemma insert_teachers_returning_Returned payloads w rows w' :
  insert_teachers_returning payloads w = (Returned rows, w') →
  payloads ≠ [] ∧ length rows = length payloads ∧
  Forall2 teacher_matches payloads rows ∧
  teachers (database w') = teachers (database w) ++ rows ∧
  schools (database w') = schools (database w) ∧
  Forall (λ row, foreign_key_holds (database w') row = true) rows ∧
  requests w' = requests w ++ [(InsertTeachers payloads, true)] ∧
  same_surroundings w w' ∧ console w' = console w.
Proof.
  unfold insert_teachers_returning.
  intros (_ & d' & Hins & ->)%db_call_Returned.
  apply transaction_insert_Some in Hins as (Hne & _ & Hins & Hfk).
  split; [done|]. split; [eapply insert_rows_length, Hins|]. split.
  { eapply insert_rows_Forall2, Hins.
    intros o d row d1 H. by apply insert_teacher_Some in H as [? _]. }
  apply insert_teachers_table in Hins as [Hs Ht].
  split; [done|]. split; [done|]. split.
  { apply Forall_forall. intros row Hrow.
    rewrite forallb_forall in Hfk. apply Hfk. by apply list_elem_of_In. }
  by repeat split.
Qed.
(** ** [TeacherFactory.create] *)

(** A run is its outcome and its final state. *)
Lemma run_with_state {St A} (run : outcome A * St) (r : outcome A) :
  run.1 = r → run = (r, run.2).
Proof. destruct run. simpl. by intros ->. Qed.

Lemma TeacherFactory_create_data_run (overrides : option jsobj) (w : World) :
  TeacherFactory.create_data overrides w
  = (Returned (teacher_create_payload overrides (env w) (ticks w)),
     set_ticks (S (S (ticks w))) w).
Proof. reflexivity. Qed.

Lemma teacher_defaults_no_school t1 t2 sid :
  teacher_defaults t1 t2 sid !! "school" = None.
Proof.
  unfold teacher_defaults.
  rewrite !lookup_insert_ne by done. by rewrite lookup_singleton_ne.
Qed.

Lemma assign_schoolId_lookup_ne school data k :
  k ≠ "schoolId" → assign_schoolId school data !! k = data !! k.
Proof.
  intros Hk. unfold assign_schoolId. destruct school as [s|]; [|done].
  case_decide; [done|]. by rewrite lookup_insert_ne.
Qed.

Lemma assign_schoolId_truthy s data :
  school_id s ≠ 0 →
  assign_schoolId (Some s) data = <["schoolId" := VNum (school_id s)]> data.
Proof. intros H. unfold assign_schoolId. by rewrite decide_False. Qed.

Lemma teacher_defaults_schoolId t1 t2 sid :
  teacher_defaults t1 t2 sid !! "schoolId"
  = Some (match sid with
          | Some n => if decide (n = 0) then VNull else VNum n
          | None => VNull
          end).
Proof.
  unfold teacher_defaults.
  rewrite !lookup_insert_ne by done. by rewrite lookup_singleton_eq.
Qed.

(** The payload never holds the [school] object. *)
Lemma teacher_create_payload_no_school overrides e tick :
  teacher_create_payload overrides e tick !! "school" = None.
Proof.
  unfold teacher_create_payload.
  rewrite assign_schoolId_lookup_ne by done.
  apply lookup_union_None. split; [apply lookup_delete_eq|apply teacher_defaults_no_school].
Qed.

(** What a returning [create] did. *)
Lemma TeacherFactory_create_Returned overrides w r w' :
  TeacherFactory.create overrides w = (Returned r, w') →
  ∃ row,
    r = Some row ∧
    teacher_matches (teacher_create_payload overrides (env w) (ticks w)) row ∧
    teachers (database w') = teachers (database w) ++ [row] ∧
    schools (database w') = schools (database w) ∧
    foreign_key_holds (database w') row = true ∧
    requests w' = requests w
                  ++ [(InsertTeachers [teacher_create_payload overrides (env w) (ticks w)],
                       true)].
Proof.
  unfold TeacherFactory.create. unfold_monad.
  rewrite TeacherFactory_create_data_run.
  destruct (insert_teachers_returning _ _) as [[rows|e] w2] eqn:Hcall; [|done].
  intros [= <- <-].
  apply insert_teachers_returning_Returned in Hcall
    as (_ & Hlen & Hm & Ht & Hs & Hfk & Hreq & _).
  destruct rows as [|row [|? ?]]; try done.
  apply Forall2_cons_1 in Hm as [Hm _]. apply Forall_cons in Hfk as [Hfk _].
  exists row. done.
Qed.

(** The school foreign key of a returned row, read off the payload. *)
Lemma teacher_matches_schoolId data row v :
  teacher_matches data row → data !! "schoolId" = Some v → v ≠ VUndefined →
  int_value (teacher_schoolId row) = v.
Proof.
  intros [Happlied _] Hk Hv.
  specialize (Happlied "schoolId" v Hk Hv). unfold Teacher_attribute in Happlied.
  simpl in Happlied. by injection (Happlied ltac:(eauto)).
Qed.

(** A School whose identifier is 0 is a row the harness itself can make:
    [schoolFactory.create({ id: 0 })] on an empty table. *)
Example school_with_identifier_zero :
  (SchoolFactory.create (Some {[ "id" := VNum 0 ]})
     (start_world steady_env empty_db)).1
  = Returned (Some (mkSchool 0 "Test School 1" (Some "5000 Pine Rd")
                      (Some "+15505505500")
                      (Some "school1700000000000i@example.com")
                      1700000000000 1700000000000)).
Proof. vm_compute. reflexivity. Qed.

(** C2 (defect).  The claim asks that the row's foreign key be the
    identifier of the associated School.  [create] tests that identifier
    for truthiness ([schoolId || null] and [if (school?.id)]), so for a
    School whose identifier is 0 the row it persists has no school at all:
    whenever the call returns, the foreign key is null. *)
Theorem teacher_create_drops_school_zero
    (overrides : jsobj) (s : School) (w : World) (r : option Teacher) (w' : World) :
  overrides !! "school" = Some (VSchool s) →
  school_id s = 0 →
  overrides !! "schoolId" = None →
  TeacherFactory.create (Some overrides) w = (Returned r, w') →
  ∃ row, r = Some row ∧ row ∈ teachers (database w') ∧
         teacher_schoolId row = None ∧
         teacher_schoolId row ≠ Some (school_id s).
Proof.
  intros Hschool Hid Hexplicit Hrun.
  apply TeacherFactory_create_Returned in Hrun as (row & -> & Hm & Ht & _).
  set (data := teacher_create_payload _ _ _) in *.
  assert (data !! "schoolId" = Some VNull) as Hsid.
  { unfold data, teacher_create_payload. simpl. rewrite Hschool. simpl.
    rewrite decide_True by done.
    rewrite lookup_union_r by (by rewrite lookup_delete_ne).
    rewrite teacher_defaults_schoolId, Hid. done. }
  pose proof (teacher_matches_schoolId _ _ _ Hm Hsid ltac:(done)) as H.
  exists row. split; [done|].
  split; [rewrite Ht; apply elem_of_app; right; apply list_elem_of_here|].
  destruct (teacher_schoolId row); simplify_eq/=. done.
Qed.

Lemma teacher_create_drops_school_zero_witness :
  let w := start_world steady_env two_schools_db in
  let overrides : jsobj := {[ "school" := VSchool school_zero ]} in
  let run := TeacherFactory.create (Some overrides) w in
  school_zero ∈ schools (database w) ∧
  run.1 = Returned (Some (mkTeacher 1 "Teacher1700000000000" "Doe"
                            "teacher1700000000000@test.com" (Some "+1234567890")
                            (Some "Mathematics") None 1700000000000 1700000000000)) ∧
  ∃ row, Some (mkTeacher 1 "Teacher1700000000000" "Doe"
                 "teacher1700000000000@test.com" (Some "+1234567890")
                 (Some "Mathematics") None 1700000000000 1700000000000) = Some row ∧
         row ∈ teachers (database run.2) ∧
         teacher_schoolId row = None ∧
         teacher_schoolId row ≠ Some (school_id school_zero).
Proof.
  intros w overrides run.
  assert (run.1 = Returned (Some (mkTeacher 1 "Teacher1700000000000" "Doe"
                            "teacher1700000000000@test.com" (Some "+1234567890")
                            (Some "Mathematics") None 1700000000000 1700000000000)))
    as Hrun by (vm_compute; reflexivity).
  split; [apply list_elem_of_here|]. split; [exact Hrun|].
  apply (teacher_create_drops_school_zero overrides school_zero w _ run.2);
    [reflexivity..|].
  apply run_with_state, Hrun.
Defined.

(** C10 (defect).  The claim asks that the identifier of the associated
    School win over an explicit [schoolId].  The assignment is guarded by
    [if (school?.id)], a truthiness test, so for a School whose identifier
    is 0 the explicit [schoolId] stays in the payload and is what the row
    holds, whenever the call returns. *)
Theorem teacher_create_keeps_explicit_schoolId_for_school_zero
    (overrides : jsobj) (s : School) (explicit : Z) (w : World)
    (r : option Teacher) (w' : World) :
  overrides !! "school" = Some (VSchool s) →
  school_id s = 0 →
  overrides !! "schoolId" = Some (VNum explicit) →
  TeacherFactory.create (Some overrides) w = (Returned r, w') →
  ∃ row, r = Some row ∧ row ∈ teachers (database w') ∧
         teacher_schoolId row = Some explicit.
Proof.
  intros Hschool Hid Hexplicit Hrun.
  apply TeacherFactory_create_Returned in Hrun as (row & -> & Hm & Ht & _).
  set (data := teacher_create_payload _ _ _) in *.
  assert (data !! "schoolId" = Some (VNum explicit)) as Hsid.
  { unfold data, teacher_create_payload. simpl. rewrite Hschool. simpl.
    rewrite decide_True by done.
    apply lookup_union_Some_l. by rewrite lookup_delete_ne. }
  pose proof (teacher_matches_schoolId _ _ _ Hm Hsid ltac:(done)) as H.
  exists row. split; [done|].
  split; [rewrite Ht; apply elem_of_app; right; apply list_elem_of_here|].
  destruct (teacher_schoolId row); simplify_eq/=. done.
Qed.

Lemma teacher_create_keeps_explicit_schoolId_for_school_zero_witness :
  let w := start_world steady_env two_schools_db in
  let overrides : jsobj :=
    {[ "school" := VSchool school_zero; "schoolId" := VNum 7 ]} in
  let run := TeacherFactory.create (Some overrides) w in
  school_zero ∈ schools (database w) ∧ Some 7 ≠ Some (school_id school_zero) ∧
  run.1 = Returned (Some (mkTeacher 1 "Teacher1700000000000" "Doe"
                            "teacher1700000000000@test.com" (Some "+1234567890")
                            (Some "Mathematics") (Some 7) 1700000000000 1700000000000)) ∧
  ∃ row, Some (mkTeacher 1 "Teacher1700000000000" "Doe"
                 "teacher1700000000000@test.com" (Some "+1234567890")
                 (Some "Mathematics") (Some 7) 1700000000000 1700000000000) = Some row ∧
         row ∈ teachers (database run.2) ∧
         teacher_schoolId row = Some 7.
Proof.
  intros w overrides run.
  assert (run.1 = Returned (Some (mkTeacher 1 "Teacher1700000000000" "Doe"
                            "teacher1700000000000@test.com" (Some "+1234567890")
                            (Some "Mathematics") (Some 7) 1700000000000 1700000000000)))
    as Hrun by (vm_compute; reflexivity).
  split; [apply list_elem_of_here|]. split; [done|]. split; [exact Hrun|].
  apply (teacher_create_keeps_explicit_schoolId_for_school_zero
           overrides school_zero 7 w _ run.2); [reflexivity..|].
  apply run_with_state, Hrun.
Defined.
(** ** Texts that fit their columns *)

Lemma fits_app (n1 n2 : nat) (s1 s2 : string) :
  fits n1 s1 → fits n2 s2 → fits (n1 + n2) (s1 +:+ s2).
Proof.
  intros [H1 L1] [H2 L2]. split.
  - by rewrite contains_nul_app, H1, H2.
  - rewrite string_length_app. lia.
Qed.

Lemma fits_le (n m : nat) (s : string) : fits n s → (n ≤ m)%nat → fits m s.
Proof. intros [? ?] ?. split; [done|lia]. Qed.

Lemma fits_pretty_Z (k : nat) (z : Z) :
  0 ≤ z < 10 ^ Z.of_nat k → fits (S k) (pretty z).
Proof. intros Hz. split; [apply pretty_Z_no_nul|by apply pretty_Z_length_le]. Qed.


Lemma fits_substring (n m : nat) (s : string) :
  contains_nul s = false → fits m (String.substring n m s).
Proof. intros Hs. split; [by apply substring_no_nul|apply substring_length]. Qed.

(** A text that fits is stored as it is. *)
Lemma varchar_fits (n : nat) (o : jsobj) (k s : string) :
  o !! k = Some (VStr s) → fits n s →
  varchar n (cell_text o k) = Some (Some s).
Proof.
  intros Hk [Hnul Hlen]. unfold cell_text. rewrite Hk, Hnul. simpl.
  rewrite decide_True; [done|]. pose proof (char_length_le s). lia.
Qed.

Lemma street_fits (i : nat) :
  fits 10 (default "undefined" (TestDataGenerator.streets !! i)).
Proof. do 5 (destruct i as [|i]; [by split; [|simpl; lia]|]). by split; [|simpl; lia]. Qed.

(** ** [SchoolFactory.create] *)

Lemma SchoolFactory_getDefaultData_run (w : World) :
  ∃ defaults w1,
    SchoolFactory.getDefaultData w = (Returned defaults, w1) ∧
    school_defaults_shape defaults (increment (counter w)) ∧
    counter w1 = increment (counter w) ∧ same_database w w1 ∧
    (realistic (env w) → school_defaults_fit defaults (increment (counter w))).
Proof.
  unfold SchoolFactory.getDefaultData, TestDataGenerator.generateName,
    TestDataGenerator.generateAddress, TestDataGenerator.generatePhone,
    TestDataGenerator.generateEmail, TestDataGenerator.getTimestampId,
    TestDataGenerator.getUniqueId, Math_random, Date_now.
  unfold_monad.
  cbn -[pretty Z.pow Z.modulo floor_times increment String.app String.substring].
  do 2 eexists. split; [reflexivity|]. split; [do 3 eexists; reflexivity|].
  split; [done|]. split; [by repeat split|].
  intros [Hclock Hnul]. do 3 eexists. split; [reflexivity|].
  assert (∀ k, 0 ≤ entropy (env w) k `mod` 2 ^ 53 < 2 ^ 53) as Hr
    by (intros; apply Z.mod_pos_bound; lia).
  assert (∀ r n k, 0 ≤ r < 2 ^ 53 → 0 < n ≤ 2 ^ 53 → n ≤ 10 ^ Z.of_nat k →
            ∀ c, 0 ≤ c → c + n ≤ 10 ^ Z.of_nat k →
            fits (S k) (pretty (floor_times r n + c))) as Hdigits.
  { intros r n k ? ? ? c ? ?. apply fits_pretty_Z.
    destruct (floor_times_nonneg r n) as [? ?]; [done|lia|]. lia. }
  split; [|split].
  - apply (fits_le (5 + (1 + 10))); [|lia].
    apply fits_app; [apply (Hdigits _ 9999 4%nat); try done; lia|].
    apply (fits_app 1 10 " "); [by split; [|simpl; lia]|apply street_fits].
  - apply (fits_le (2 + (4 + (4 + 5)))); [|lia].
    apply (fits_app 2 _ "+1"); [by split; [|simpl; lia]|].
    apply fits_app; [apply (Hdigits _ 900 3%nat); try done; lia|].
    apply fits_app; [apply (Hdigits _ 900 3%nat); try done; lia|].
    apply (Hdigits _ 9000 4%nat); try done; lia.
  - apply (fits_le (6 + ((17 + 5) + 12))); [|lia].
    apply (fits_app 6 _ "school"); [by split; [|simpl; lia]|].
    apply fits_app; [|by split; [|simpl; lia]].
    apply fits_app; [|by apply fits_substring].
    apply (fits_pretty_Z 16). specialize (Hclock (ticks w)). lia.
Qed.

Lemma SchoolFactory_create_data_run (overrides : option jsobj) (w : World) :
  ∃ defaults w1,
    SchoolFactory.create_data overrides w
      = (Returned (default ∅ overrides ∪ defaults), w1) ∧
    school_defaults_shape defaults (increment (counter w)) ∧
    counter w1 = increment (counter w) ∧ same_database w w1 ∧
    (realistic (env w) → school_defaults_fit defaults (increment (counter w))).
Proof.
  destruct (SchoolFactory_getDefaultData_run w) as (defaults & w1 & Hrun & ?).
  exists defaults, w1. split; [|done].
  unfold SchoolFactory.create_data. unfold_monad. by rewrite Hrun.
Qed.

Lemma school_defaults_fit_shape defaults id :
  school_defaults_fit defaults id → school_defaults_shape defaults id.
Proof. intros (a & p & e & -> & _). by exists a, p, e. Qed.

Lemma school_defaults_absent defaults id k :
  school_defaults_shape defaults id →
  k ≠ "name" → k ≠ "address" → k ≠ "phone" → k ≠ "email" → defaults !! k = None.
Proof.
  intros (a & p & e & ->) ? ? ? ?.
  rewrite !lookup_insert_ne by done. by rewrite lookup_singleton_ne.
Qed.

Lemma school_defaults_no_id defaults id :
  school_defaults_shape defaults id → defaults !! "id" = None.
Proof. intros H. by eapply school_defaults_absent. Qed.



(** *** Default payloads go into the table *)

Lemma school_defaults_lookups (name address phone email : string) :
  let o : jsobj := {[ "name" := VStr name; "address" := VStr address;
                      "phone" := VStr phone; "email" := VStr email ]} in
  o !! "name" = Some (VStr name) ∧ o !! "address" = Some (VStr address) ∧
  o !! "phone" = Some (VStr phone) ∧ o !! "email" = Some (VStr email) ∧
  o !! "id" = None ∧ o !! "createdAt" = None ∧ o !! "updatedAt" = None.
Proof. repeat split; by simplify_map_eq. Qed.

Lemma school_name_fits (id : Z) :
  0 ≤ id ≤ 2 ^ 53 → fits 255 ("Test School" +:+ " " +:+ pretty id).
Proof.
  intros Hid. apply (fits_le (11 + (1 + 17))); [|lia].
  apply (fits_app 11 _ "Test School"); [by split; [|simpl; lia]|].
  apply (fits_app 1 _ " "); [by split; [|simpl; lia]|].
  apply (fits_pretty_Z 16). lia.
Qed.

(** A default payload has four parameters, all of which can be bound, and
    makes a row with any identifier that is free. *)
Lemma school_defaults_row defaults id :
  school_defaults_fit defaults id → 0 ≤ id ≤ 2 ^ 53 →
  cell_int defaults "id" = Default ∧ bindable_school defaults = true ∧
  parameters_school defaults = 4%nat ∧
  ∀ now i d, int4_min ≤ i ≤ int4_max → i ∉ school_id <$> schools d →
    ∃ row, school_row now defaults (Some i) d = Some row ∧ school_id row = i.
Proof.
  intros (address & phone & email & -> & Ha & Hp & He) Hid.
  destruct (school_defaults_lookups ("Test School" +:+ " " +:+ pretty id)
              address phone email) as (Ln & La & Lp & Le & Li & Lc & Lu).
  pose proof (school_name_fits id Hid) as Hn.
  assert (∀ n k s, fits n s →
            ({[ "name" := VStr ("Test School" +:+ " " +:+ pretty id);
                "address" := VStr address; "phone" := VStr phone;
                "email" := VStr email ]} : jsobj) !! k = Some (VStr s) →
            cell_text {[ "name" := VStr ("Test School" +:+ " " +:+ pretty id);
                "address" := VStr address; "phone" := VStr phone;
                "email" := VStr email ]} k = Value s) as Hcell.
  { intros n k s [Hnul _] Hk. unfold cell_text. by rewrite Hk, Hnul. }
  assert (Hcn := Hcell _ _ _ Hn Ln). assert (Hca := Hcell _ _ _ Ha La).
  assert (Hcp := Hcell _ _ _ Hp Lp). assert (Hce := Hcell _ _ _ He Le).
  unfold bindable_school, parameters_school, cell_int, cell_time.
  rewrite Hcn, Hca, Hcp, Hce, Li, Lc, Lu.
  split; [done|]. split; [done|]. split; [done|].
  intros now i d Hi Hfree. unfold school_row, cell_time. rewrite Lc, Lu.
  rewrite (varchar_fits 255 _ _ _ Ln Hn), (varchar_fits 500 _ _ _ La Ha),
    (varchar_fits 20 _ _ _ Lp Hp), (varchar_fits 255 _ _ _ Le He).
  simpl. rewrite decide_True by done. eauto.
Qed.




Lemma SchoolFactory_create_succeeds w :
  db_fault (env w) (length (requests w)) = false →
  realistic (env w) →
  0 ≤ counter w < 2 ^ 53 →
  schools_sequence_ahead (database w) →
  int4_min ≤ schools_id_seq (database w) ≤ int4_max →
  ∃ row w', SchoolFactory.create None w = (Returned (Some row), w') ∧
            school_id row = schools_id_seq (database w).
Proof.
  intros Hfault Hreal Hc Hahead Hseq.
  unfold SchoolFactory.create. unfold_monad.
  destruct (SchoolFactory_create_data_run None w)
    as (defaults & w1 & -> & _ & _ & (He & Hd & Hr & _) & Hfit).
  specialize (Hfit Hreal). rewrite increment_exact in Hfit by lia.
  cbn [default]. rewrite (left_id_L ∅ (∪)).
  destruct (school_defaults_row defaults _ Hfit ltac:(lia)) as (Hcell & Hbind & Hpar & Hrow).
  destruct (Hrow (db_now (env w1) (length (requests w1))) (schools_id_seq (database w))
              (database w)) as (row & Hmk & Hid); [done| |].
  { intros (r & Hr' & Hin)%list_elem_of_fmap.
    unfold schools_sequence_ahead in Hahead. rewrite Forall_forall in Hahead.
    apply Hahead in Hin. lia. }
  unfold insert_schools_returning.
  erewrite (db_call_run _ _ w1 [row]); [simpl; eauto|congruence|].
  apply transaction_insert_run; try done.
  - simpl. rewrite Hpar. unfold max_parameters. lia.
  - simpl. by rewrite Hbind.
  - simpl. unfold insert_school. rewrite Hcell, Hd. simpl.
    rewrite decide_True by lia. rewrite Hmk. done.
Qed.
(** *** Default payloads of [TeacherFactory] go into the table *)

Lemma teacher_default_payload_row p first email :
  teacher_default_payload p first email → fits 100 first → fits 255 email →
  cell_int p "id" = Default ∧ bindable_teacher p = true ∧
  parameters_teacher p = 6%nat ∧
  ∀ now i d, int4_min ≤ i ≤ int4_max → i ∉ teacher_id <$> teachers d →
    email ∉ teacher_email <$> teachers d →
    ∃ row, teacher_row now p (Some i) d = Some row ∧ teacher_id row = i ∧
           teacher_email row = email ∧ teacher_schoolId row = None.
Proof.
  intros (Li & Lf & Ll & Le & Lp & Ls & Lsid & Lc & Lu) Hf He.
  assert (∀ n k s, fits n s → p !! k = Some (VStr s) → cell_text p k = Value s)
    as Hcell.
  { intros n k s [Hnul _] Hk. unfold cell_text. by rewrite Hk, Hnul. }
  assert (fits 100 "Doe") as Hl by (by split; [|simpl; lia]).
  assert (fits 20 "+1234567890") as Hp by (by split; [|simpl; lia]).
  assert (fits 100 "Mathematics") as Hs by (by split; [|simpl; lia]).
  assert (Hcf := Hcell _ _ _ Hf Lf). assert (Hcl := Hcell _ _ _ Hl Ll).
  assert (Hce := Hcell _ _ _ He Le). assert (Hcp := Hcell _ _ _ Hp Lp).
  assert (Hcs := Hcell _ _ _ Hs Ls).
  unfold bindable_teacher, parameters_teacher, cell_int, cell_time.
  rewrite Hcf, Hcl, Hce, Hcp, Hcs, Li, Lsid, Lc, Lu.
  split; [done|]. split; [done|]. split; [done|].
  intros now i d Hi Hfree Hmail. unfold teacher_row, cell_time, cell_int.
  rewrite Lc, Lu, Lsid.
  rewrite (varchar_fits 100 _ _ _ Lf Hf), (varchar_fits 100 _ _ _ Ll Hl),
    (varchar_fits 255 _ _ _ Le He), (varchar_fits 20 _ _ _ Lp Hp),
    (varchar_fits 100 _ _ _ Ls Hs).
  simpl. rewrite decide_True by done. eauto.
Qed.



Lemma teacher_defaults_payload t1 t2 :
  teacher_default_payload (teacher_defaults t1 t2 None)
    ("Teacher" +:+ pretty t1) ("teacher" +:+ pretty t2 +:+ "@test.com").
Proof. unfold teacher_defaults. repeat split; by simplify_map_eq. Qed.

Lemma teacher_create_payload_default e tick :
  teacher_create_payload None e tick
  = teacher_defaults (clock e tick) (clock e (S tick)) None.
Proof.
  unfold teacher_create_payload. cbn [default]. rewrite lookup_empty.
  cbn [school_of assign_schoolId fmap option_fmap option_map].
  by rewrite delete_empty, (left_id_L ∅ (∪)).
Qed.

Lemma teacher_text_fits (n : nat) (front back : string) (t : Z) :
  0 ≤ t ≤ 8640000000000000 →
  contains_nul front = false → contains_nul back = false →
  (String.length front + 17 + String.length back ≤ n)%nat →
  fits n (front +:+ pretty t +:+ back).
Proof.
  intros Ht Hfront Hback Hn.
  apply (fits_le (String.length front + (17 + String.length back))); [|lia].
  apply fits_app; [done|]. apply fits_app; [|done].
  apply (fits_pretty_Z 16). lia.
Qed.

Lemma TeacherFactory_create_succeeds w :
  db_fault (env w) (length (requests w)) = false →
  realistic (env w) →
  teachers (database w) = [] →
  int4_min ≤ teachers_id_seq (database w) ≤ int4_max →
  ∃ row w', TeacherFactory.create None w = (Returned (Some row), w') ∧
            teacher_id row = teachers_id_seq (database w).
Proof.
  intros Hfault [Hclock _] Hempty Hseq.
  unfold TeacherFactory.create. unfold_monad.
  rewrite TeacherFactory_create_data_run, teacher_create_payload_default.
  set (p := teacher_defaults _ _ _).
  destruct (teacher_default_payload_row p _ _ (teacher_defaults_payload _ _))
    as (Hcell & Hbind & Hpar & Hrow).
  { apply (fits_le (7 + 17)); [|lia].
    apply (fits_app 7 _ "Teacher"); [by split; [|simpl; lia]|].
    apply (fits_pretty_Z 16). specialize (Hclock (ticks w)). lia. }
  { apply teacher_text_fits; [apply Hclock|done|done|simpl; lia]. }
  destruct (Hrow (db_now (env w) (length (requests w))) (teachers_id_seq (database w))
              (database w)) as (row & Hmk & Hid & _ & Hsid); [done| | |].
  { rewrite Hempty. apply not_elem_of_nil. }
  { rewrite Hempty. apply not_elem_of_nil. }
  unfold insert_teachers_returning.
  erewrite (db_call_run _ _ _ [row]); [simpl; eauto|done|].
  apply transaction_insert_run; try done.
  - simpl. rewrite Hpar. unfold max_parameters. lia.
  - simpl. by rewrite Hbind.
  - unfold insert_rows, insert_teacher. rewrite Hcell. unfold serial.
    cbn [database env requests set_ticks].
    rewrite decide_True by lia. rewrite Hmk. done.
  - simpl. unfold foreign_key_holds. by rewrite Hsid.
Qed.
(** ** After a cleanup that went through *)

Ltac cleanup_cases :=
  repeat (cbn; rewrite ?length_app; cbn [length]; rewrite ?Nat.add_1_r;
          match goal with
          | |- context [if ?b then _ else _] => destruct b eqn:?
          end);
  cbn.

Lemma Factory_cleanup_result (factory : Factory) (w : World) :
  ∃ w', Factory_cleanup factory w = (Returned tt, w') ∧
    same_surroundings w w' ∧
    (cleanup_goes_through factory w →
       erased factory (database w') ∧
       ∀ e, console_warn_error "Fallback cleanup also failed:" e ∉ console_since w w') ∧
    (¬ cleanup_goes_through factory w →
       ∃ e, console_warn_error "Fallback cleanup also failed:" e ∈ console_since w w').
Proof.
  unfold cleanup_goes_through, erased, console_since.
  destruct factory as [db|db]; simpl;
    unfold SchoolFactory.cleanup, TeacherFactory.cleanup,
      db_execute, db_delete, db_call, console_warn; unfold_monad; cleanup_cases.
  all: eexists; split; [reflexivity|]; split; [by repeat split|].
  all: cbn; rewrite <- ?app_assoc, ?drop_app_length.
  all: try (replace (drop (length (console w)) (console w)) with (@nil ConsoleLine)
              by (by rewrite drop_all)).
  all: cbn [app].
  all: split;
    [ intros Hg; try (split; [done|]);
      try (intros e He;
           repeat (apply elem_of_cons in He as [He|He]; [done|]);
           by apply elem_of_nil in He);
      try (exfalso; intuition congruence)
    | intros Hn; try (exfalso; intuition congruence);
      try (eexists; apply list_elem_of_further, list_elem_of_here) ].
Qed.

Lemma cell_int_lookup (o o' : jsobj) (k : string) :
  o !! k = o' !! k → cell_int o k = cell_int o' k.
Proof. unfold cell_int. by intros ->. Qed.

Lemma cell_int_union_l (o defaults : jsobj) (k : string) :
  defaults !! k = None → cell_int (o ∪ defaults) k = cell_int o k.
Proof.
  intros Hd. apply cell_int_lookup. rewrite lookup_union.
  destruct (o !! k); by rewrite Hd.
Qed.

Lemma teacher_defaults_no_id t1 t2 sid : teacher_defaults t1 t2 sid !! "id" = None.
Proof.
  unfold teacher_defaults.
  rewrite !lookup_insert_ne by done. by rewrite lookup_singleton_ne.
Qed.

Lemma teacher_create_payload_id overrides e tick :
  cell_int (teacher_create_payload overrides e tick) "id"
  = cell_int (default ∅ overrides) "id".
Proof.
  unfold teacher_create_payload. cbv zeta.
  rewrite (cell_int_lookup _ _ _ (assign_schoolId_lookup_ne _ _ "id" ltac:(done))).
  rewrite cell_int_union_l by apply teacher_defaults_no_id.
  apply cell_int_lookup. by rewrite lookup_delete_ne.
Qed.

(** The row a single-row insert returned is the one the table took. *)
Lemma insert_schools_returning_single p w rows w' :
  insert_schools_returning [p] w = (Returned rows, w') →
  ∃ row now, rows = [row] ∧
    insert_school now p (database w) = (Some row, database w').
Proof.
  unfold insert_schools_returning.
  intros (_ & d' & Hins & ->)%db_call_Returned.
  apply transaction_insert_Some in Hins as (_ & _ & Hins & _).
  simpl in Hins. destruct (insert_school _ p _) as [[row|] d1] eqn:Hrow; [|done].
  injection Hins as <- <-. eauto.
Qed.

Lemma insert_teachers_returning_single p w rows w' :
  insert_teachers_returning [p] w = (Returned rows, w') →
  ∃ row now, rows = [row] ∧
    insert_teacher now p (database w) = (Some row, database w').
Proof.
  unfold insert_teachers_returning.
  intros (_ & d' & Hins & ->)%db_call_Returned.
  apply transaction_insert_Some in Hins as (_ & _ & Hins & _).
  simpl in Hins. destruct (insert_teacher _ p _) as [[row|] d1] eqn:Hrow; [|done].
  injection Hins as <- <-. eauto.
Qed.

(** A [create] that leaves the identifier to the table returns the next
    value of the sequence. *)
Lemma SchoolFactory_create_id overrides w row w' :
  cell_int (default ∅ overrides) "id" = Default →
  SchoolFactory.create overrides w = (Returned row, w') →
  school_id <$> row = Some (schools_id_seq (database w)).
Proof.
  intros Hno. unfold SchoolFactory.create. unfold_monad.
  destruct (SchoolFactory_create_data_run overrides w)
    as (defaults & w1 & -> & Hshape & _ & (_ & Hd & _) & _).
  destruct (insert_schools_returning _ _) as [[rows|e] w2] eqn:Hcall; [|done].
  intros [= <- <-].
  apply insert_schools_returning_single in Hcall as (r & now & -> & Hins).
  apply insert_school_Some in Hins as (_ & [(_ & Hid & _)|(Hid & _)] & _).
  - simpl. by rewrite Hid, Hd.
  - rewrite cell_int_union_l in Hid by (by eapply school_defaults_no_id).
    congruence.
Qed.

Lemma TeacherFactory_create_id overrides w row w' :
  cell_int (default ∅ overrides) "id" = Default →
  TeacherFactory.create overrides w = (Returned row, w') →
  teacher_id <$> row = Some (teachers_id_seq (database w)).
Proof.
  intros Hno. unfold TeacherFactory.create. unfold_monad.
  rewrite TeacherFactory_create_data_run.
  destruct (insert_teachers_returning _ _) as [[rows|e] w2] eqn:Hcall; [|done].
  intros [= <- <-].
  apply insert_teachers_returning_single in Hcall as (r & now & -> & Hins).
  apply insert_teacher_Some in Hins as (_ & [(_ & Hid & _)|(Hid & _)] & _).
  - simpl. by rewrite Hid.
  - rewrite teacher_create_payload_id in Hid. congruence.
Qed.

Lemma erased_next_create (factory : Factory) (w : World) :
  erased factory (database w) → next_create_is_first factory w.
Proof.
  intros [Hrows Hseq]. destruct factory as [db|db]; simpl in Hrows, Hseq.
  - apply length_zero_iff_nil in Hrows. split.
    + intros overrides id w' Hno. simpl. unfold_monad.
      destruct (SchoolFactory.create overrides w) as [[row|e] w1] eqn:Hrun; [|done].
      intros [= <- <-]. rewrite <- Hseq. by eapply SchoolFactory_create_id.
    + intros Hfault Hreal Hc.
      destruct (SchoolFactory_create_succeeds w) as (row & w' & Hrun & Hid);
        try done.
      * unfold schools_sequence_ahead. rewrite Hrows. constructor.
      * rewrite Hseq. done.
      * exists w'. simpl. unfold_monad. rewrite Hrun. simpl. by rewrite Hid, Hseq.
  - apply length_zero_iff_nil in Hrows. split.
    + intros overrides id w' Hno. simpl. unfold_monad.
      destruct (TeacherFactory.create overrides w) as [[row|e] w1] eqn:Hrun; [|done].
      intros [= <- <-]. rewrite <- Hseq. by eapply TeacherFactory_create_id.
    + intros Hfault Hreal Hc.
      destruct (TeacherFactory_create_succeeds w) as (row & w' & Hrun & Hid);
        try done.
      * rewrite Hseq. done.
      * exists w'. simpl. unfold_monad. rewrite Hrun. simpl. by rewrite Hid, Hseq.
Qed.

(** The cleanup of the School factory leaves an erased [teachers] erased. *)
Lemma SchoolFactory_cleanup_keeps_teachers_erased db (w : World) :
  erased (TeacherFactoryOf db) (database w) →
  erased (TeacherFactoryOf db) (database (SchoolFactory.cleanup w).2).
Proof.
  unfold erased. simpl. intros [Hrows Hseq].
  unfold SchoolFactory.cleanup, db_execute, db_delete, db_call, console_warn.
  unfold_monad. cleanup_cases; done.
Qed.

Lemma cleanup_goes_through_dec (factory : Factory) (w : World) :
  cleanup_goes_through factory w ∨ ¬ cleanup_goes_through factory w.
Proof.
  unfold cleanup_goes_through.
  destruct (db_fault (env w) (length (requests w))); [|by left; left].
  destruct (db_fault (env w) (S (length (requests w)))); [right; intuition congruence|].
  destruct (db_fault (env w) (S (S (length (requests w))))); [right; intuition congruence|].
  destruct factory as [?|?]; simpl; [|left; right; done].
  destruct (existsb _ _); [right; intuition congruence|left; right; done].
Qed.

Lemma registry_cleanup_bulk reg w :
  db_fault (env w) (length (requests w)) = false →
  TestFactories.cleanup reg w
  = (Returned tt,
     set_database (mkDB [] [] 1 1) (Execute TRUNCATE_teachers_schools, true) w).
Proof.
  intros Hfault. unfold TestFactories.cleanup, db_execute, db_call.
  unfold_monad. by rewrite Hfault.
Qed.

Lemma when_constructed_run reg factoryType (c : M World unit) w :
  (∀ w, (c w).1 = Returned tt) →
  when_constructed reg factoryType c w
  = (Returned tt, (when_constructed reg factoryType c w).2).
Proof.
  intros Hc. apply run_with_state. unfold when_constructed.
  case_decide; [apply Hc|done].
Qed.

Lemma registry_cleanup_fallback db reg w :
  registry_ok db reg →
  db_fault (env w) (length (requests w)) = true →
  TestFactories.cleanup reg w
  = (Returned tt,
     (when_constructed reg "school" SchoolFactory.cleanup
        (fallback_world reg (SchoolFactoryOf db) w)).2).
Proof.
  intros Hok Hfault.
  destruct (registry_loop_turns db reg Hok) as [Hteacher Hschool].
  unfold TestFactories.cleanup, TestFactories.cleanupOrder.
  cbn [for_of]. rewrite Hteacher, Hschool.
  unfold db_execute, db_call, console_warn. unfold_monad. rewrite Hfault.
  unfold fallback_world.
  set (w0 := add_console _ (set_database _ _ w)).
  rewrite (when_constructed_run reg "teacher").
  2:{ intros w1. by destruct (TeacherFactory_cleanup_returns w1) as (? & ? & -> & _). }
  rewrite (when_constructed_run reg "school").
  2:{ intros w1. by destruct (SchoolFactory_cleanup_returns w1) as (? & ? & -> & _). }
  done.
Qed.

(** C7.  A factory's [cleanup()] always returns.  Its erase-and-reset goes
    through when the database takes the TRUNCATE, or rejects it and takes
    the DELETE and the ALTER SEQUENCE of the fallback; this is the case
    exactly when no 'Fallback cleanup also failed' warning is logged.  After
    such a cleanup the storage of the entity holds no rows and its sequence
    is back at 1, so the next [create()] that leaves the identifier to the
    table returns a row with identifier 1 whenever it returns, and a
    [create()] with the default attributes does return one when the
    database takes the insert.  The same holds after the [cleanup()] of the
    registry, for both entity types when the bulk statement is taken, and
    when it is rejected for each type whose factory the registry has
    constructed and whose own cleanup goes through in the fallback. *)
Theorem factory_cleanup_restarts_identifiers
    (factory : Factory) (factoryTypes : list string) (db : Database) (w : World) :
  let after := (Factory_cleanup factory w).2 in
  let reg := registry_after factoryTypes db in
  let after_all := (TestFactories.cleanup reg w).2 in
  (Factory_cleanup factory w).1 = Returned tt ∧
  (cleanup_goes_through factory w ↔
     ∀ e, console_warn_error "Fallback cleanup also failed:" e
          ∉ console_since w after) ∧
  (cleanup_goes_through factory w →
     storage_rows factory (database after) = 0%nat ∧
     id_sequence factory (database after) = 1 ∧
     next_create_is_first factory after) ∧
  (TestFactories.cleanup reg w).1 = Returned tt ∧
  (db_fault (env w) (length (requests w)) = false →
     database after_all = mkDB [] [] 1 1 ∧
     ∀ created, next_create_is_first created after_all) ∧
  (db_fault (env w) (length (requests w)) = true →
     is_Some (tf_factories reg !! factory_type factory) →
     cleanup_goes_through factory (fallback_world reg factory w) →
     storage_rows factory (database after_all) = 0%nat ∧
     id_sequence factory (database after_all) = 1 ∧
     next_create_is_first factory after_all).
Proof.
  intros after reg after_all.
  destruct (Factory_cleanup_result factory w) as (w' & Hrun & _ & Hyes & Hno).
  assert (after = w') as -> by (unfold after; by rewrite Hrun).
  split; [by rewrite Hrun|]. split; [|split].
  - split; [by intros H; apply Hyes|].
    intros Hlog. destruct (cleanup_goes_through_dec factory w) as [|Hn]; [done|].
    destruct (Hno Hn) as [e He]. by destruct (Hlog e).
  - intros Hg. destruct (Hyes Hg) as [[Hrows Hseq] _].
    split; [done|]. split; [done|]. by apply erased_next_create.
  - split.
    { destruct (db_fault (env w) (length (requests w))) eqn:Hfault.
      - unfold after_all.
        by rewrite (registry_cleanup_fallback db reg w (registry_after_ok _ _) Hfault).
      - unfold after_all. by rewrite (registry_cleanup_bulk reg w Hfault). }
    split.
    + intros Hfault. unfold after_all. rewrite (registry_cleanup_bulk reg w Hfault).
      split; [done|]. intros created. apply erased_next_create.
      by destruct created.
    + intros Hfault Hcons Hg. unfold after_all.
      rewrite (registry_cleanup_fallback db reg w (registry_after_ok _ _) Hfault).
      cbn [snd].
      assert (erased factory
                (database (when_constructed reg "school" SchoolFactory.cleanup
                             (fallback_world reg (SchoolFactoryOf db) w)).2)) as He.
      { destruct factory as [db'|db'].
        - replace (fallback_world reg (SchoolFactoryOf db) w)
            with (fallback_world reg (SchoolFactoryOf db') w) by done.
          set (w1 := fallback_world reg (SchoolFactoryOf db') w) in *.
          unfold when_constructed. rewrite decide_True by done.
          destruct (Factory_cleanup_result (SchoolFactoryOf db') w1)
            as (w3 & Hrun3 & _ & Hyes3 & _).
          change (SchoolFactory.cleanup w1 = (Returned tt, w3)) in Hrun3.
          rewrite Hrun3. by apply Hyes3.
        - assert (erased (TeacherFactoryOf db')
                    (database (fallback_world reg (SchoolFactoryOf db) w))) as Ht.
          { change (fallback_world reg (SchoolFactoryOf db) w)
              with (when_constructed reg "teacher" TeacherFactory.cleanup
                      (fallback_world reg (TeacherFactoryOf db') w)).2.
            set (w1 := fallback_world reg (TeacherFactoryOf db') w) in *.
            unfold when_constructed. rewrite decide_True by done.
            destruct (Factory_cleanup_result (TeacherFactoryOf db') w1)
              as (w3 & Hrun3 & _ & Hyes3 & _).
            change (TeacherFactory.cleanup w1 = (Returned tt, w3)) in Hrun3.
            rewrite Hrun3. by apply Hyes3. }
          unfold when_constructed. case_decide; [|done].
          by apply SchoolFactory_cleanup_keeps_teachers_erased. }
      destruct He as [? ?]. split; [done|]. split; [done|].
      by apply erased_next_create.
Qed.

(** *** The environments of the examples are realistic *)

Lemma base36_alphabet_no_nul (i : nat) :
  default "0"%char (base36_alphabet !! i) ≠ "000"%char.
Proof.
  assert (Forall (λ c, c ≠ "000"%char) base36_alphabet) as Hall
    by (unfold base36_alphabet; simpl; repeat constructor; done).
  destruct (base36_alphabet !! i) as [c|] eqn:Hc; simpl; [|done].
  rewrite Forall_forall in Hall. apply Hall. by eapply list_elem_of_lookup_2.
Qed.

Lemma base36_digits_no_nul (n : nat) (r : Z) : contains_nul (base36_digits n r) = false.
Proof.
  revert r. induction n as [|n IH]; intros r; simpl; [done|].
  case_decide; [done|]. simpl. rewrite IH.
  rewrite bool_decide_eq_false_2 by apply base36_alphabet_no_nul. done.
Qed.

Lemma base36_no_nul (r : Z) : contains_nul (base36 r) = false.
Proof.
  unfold base36. case_decide; [done|].
  rewrite contains_nul_app, base36_digits_no_nul. done.
Qed.

Lemma realistic_steady_env : realistic steady_env.
Proof. split; [intros k; simpl; lia|apply base36_no_nul]. Qed.

Lemma realistic_faulty_env (k : nat) : realistic (faulty_env k).
Proof. split; [intros n; simpl; lia|apply base36_no_nul]. Qed.

Lemma factory_cleanup_restarts_identifiers_witness :
  let teacher := TeacherFactoryOf (Connection 0) in
  let school := SchoolFactoryOf (Connection 0) in
  let w := start_world (faulty_env 0) seeded_db in
  let after := (Factory_cleanup teacher w).2 in
  let after_all :=
    (TestFactories.cleanup (registry_after ["school"] (Connection 0))
       (start_world steady_env seeded_db)).2 in
  requests after = [(Execute TRUNCATE_teachers, false);
                    (DeleteFrom teachers_table, true);
                    (Execute RESTART_teachers_id_seq, true)] ∧
  storage_rows teacher (database after) = 0%nat ∧
  id_sequence teacher (database after) = 1 ∧
  (∃ w', Factory_create_id teacher None after = (Returned (Some 1), w')) ∧
  database after_all = mkDB [] [] 1 1 ∧
  (∃ w', Factory_create_id school None after_all = (Returned (Some 1), w')) ∧
  (∃ w', Factory_create_id teacher None after_all = (Returned (Some 1), w')).
Proof.
  cbv zeta.
  destruct (factory_cleanup_restarts_identifiers (TeacherFactoryOf (Connection 0))
              [] (Connection 0) (start_world (faulty_env 0) seeded_db))
    as (_ & _ & H & _).
  destruct H as (Hrows & Hseq & _ & Hnext).
  { right. vm_compute. done. }
  split; [vm_compute; reflexivity|]. split; [exact Hrows|]. split; [exact Hseq|].
  split.
  { apply Hnext.
    - vm_compute. reflexivity.
    - apply (realistic_faulty_env 0).
    - vm_compute. split; [discriminate|reflexivity]. }
  destruct (factory_cleanup_restarts_identifiers (SchoolFactoryOf (Connection 0))
              ["school"] (Connection 0) (start_world steady_env seeded_db))
    as (_ & _ & _ & _ & H & _).
  destruct H as (Hdb & Hall); [reflexivity|].
  split; [exact Hdb|]. split.
  - destruct (Hall (SchoolFactoryOf (Connection 0))) as [_ Hcreate].
    apply Hcreate.
    + vm_compute. reflexivity.
    + apply realistic_steady_env.
    + vm_compute. split; [discriminate|reflexivity].
  - destruct (Hall (TeacherFactoryOf (Connection 0))) as [_ Hcreate].
    apply Hcreate.
    + vm_compute. reflexivity.
    + apply realistic_steady_env.
    + vm_compute. split; [discriminate|reflexivity].
Defined.

(** ** Batches *)

Lemma same_database_refl w : same_database w w.
Proof. by repeat split. Qed.

Lemma same_database_trans w1 w2 w3 :
  same_database w1 w2 → same_database w2 w3 → same_database w1 w3.
Proof.
  unfold same_database. intros (?&?&?&?&?) (?&?&?&?&?). repeat split; congruence.
Qed.

(** [Array.from] over a callback that always returns: the array has the
    asked length and its [k]-th element is what the callback made of index
    [start + k].  [Q w index k p] relates the element to the world the whole
    loop started in. *)
Lemma array_from_items {A} (f : nat → M World A)
    (Q : World → nat → nat → A → Prop) :
  (∀ i w, ∃ p w1, f i w = (Returned p, w1) ∧ same_database w w1 ∧
                  Q w i 0%nat p ∧ (∀ j k q, Q w1 j k q → Q w j (S k) q)) →
  ∀ n start w, ∃ l w',
    array_from start n f w = (Returned l, w') ∧ same_database w w' ∧
    length l = n ∧ ∀ k p, l !! k = Some p → Q w (start + k)%nat k p.
Proof.
  intros Hf n. induction n as [|n IH]; intros start w; simpl.
  - exists [], w. split; [done|]. split; [apply same_database_refl|].
    split; [done|]. intros k p. by rewrite lookup_nil.
  - destruct (Hf start w) as (p & w1 & Hp & Hs1 & HQ & Hshift).
    destruct (IH (S start) w1) as (l & w' & Hl & Hs2 & Hlen & Hitems).
    exists (p :: l), w'. unfold_monad. rewrite Hp, Hl.
    split; [done|]. split; [eauto using same_database_trans|].
    split; [simpl; by rewrite Hlen|].
    intros [|k] q; simpl.
    + intros [= <-]. by rewrite Nat.add_0_r.
    + intros Hq. apply Hitems, Hshift in Hq.
      by rewrite Nat.add_succ_r.
Qed.

(** An array longer than 2^32 - 1 is refused before anything is generated. *)
Lemma Array_from_range {A} (count : Z) (f : nat → M World A) (w : World) :
  2 ^ 32 - 1 < count →
  Array_from count f w = (Threw (RangeError "Invalid array length"), w).
Proof. intros H. unfold Array_from. by rewrite decide_False by lia. Qed.

Lemma Array_from_Returned {A} (count : Z) (f : nat → M World A) (w : World) l w' :
  Array_from count f w = (Returned l, w') →
  count ≤ 2 ^ 32 - 1 ∧ array_from 0 (Z.to_nat count) f w = (Returned l, w').
Proof. unfold Array_from. by case_decide. Qed.

Lemma SchoolFactory_createMany_data_run count overrides w :
  count ≤ 2 ^ 32 - 1 →
  ∃ payloads w',
    SchoolFactory.createMany_data count overrides w = (Returned payloads, w') ∧
    same_database w w' ∧ length payloads = Z.to_nat count ∧
    ∀ k p, payloads !! k = Some p →
      ∃ defaults,
        p = default ∅ overrides ∪ defaults ∧
        school_defaults_shape defaults (Nat.iter (S k) increment (counter w)) ∧
        (realistic (env w) →
           school_defaults_fit defaults (Nat.iter (S k) increment (counter w))).
Proof.
  intros Hcount. unfold SchoolFactory.createMany_data, Array_from.
  rewrite decide_True by done.
  destruct (array_from_items (λ _, SchoolFactory.create_data overrides)
    (λ w _ k p, ∃ defaults,
        p = default ∅ overrides ∪ defaults ∧
        school_defaults_shape defaults (Nat.iter (S k) increment (counter w)) ∧
        (realistic (env w) →
           school_defaults_fit defaults (Nat.iter (S k) increment (counter w)))))
    with (n := Z.to_nat count) (start := 0%nat) (w := w)
    as (l & w' & Hrun & Hsame & Hlen & Hitems).
  - intros _ w0.
    destruct (SchoolFactory_create_data_run overrides w0)
      as (defaults & w1 & Hrun & Hshape & Hc & Hs & Hfit).
    exists (default ∅ overrides ∪ defaults), w1.
    split; [done|]. split; [done|]. split.
    + exists defaults. by repeat split.
    + intros _ k q (d & -> & Hd & Hf). exists d. split; [done|].
      destruct Hs as (He & _).
      rewrite Hc, He in *. by rewrite !Nat.iter_succ_r in *.
  - exists l, w'. eauto.
Qed.

Lemma TeacherFactory_createMany_data_run count overrides w :
  count ≤ 2 ^ 32 - 1 →
  ∃ payloads w',
    TeacherFactory.createMany_data count overrides w = (Returned payloads, w') ∧
    same_database w w' ∧ length payloads = Z.to_nat count ∧
    ∀ k p, payloads !! k = Some p →
      ∃ tick, p = teacher_batch_payload overrides (env w) tick k.
Proof.
  intros Hcount. unfold TeacherFactory.createMany_data, Array_from.
  rewrite decide_True by done.
  match goal with |- context [array_from _ _ ?f] => set (body := f) end.
  destruct (array_from_items body
    (λ w i _ p, ∃ tick, p = teacher_batch_payload overrides (env w) tick i))
    with (n := Z.to_nat count) (start := 0%nat) (w := w)
    as (l & w' & Hrun & Hsame & Hlen & Hitems).
  - intros i w0.
    exists (teacher_batch_payload overrides (env w0) (ticks w0) i),
           (set_ticks (S (S (S (S (ticks w0))))) w0).
    split; [reflexivity|]. split; [by repeat split|]. split; [eauto|].
    intros j _ q [tick ->]. eauto.
  - exists l, w'. eauto.
Qed.

Lemma carries_union (overrides defaults : jsobj) : carries overrides (overrides ∪ defaults).
Proof. intros k v. apply lookup_union_Some_l. Qed.

Lemma teacher_batch_payload_carries overrides e tick index :
  carries (teacher_overrides overrides) (teacher_batch_payload overrides e tick index).
Proof.
  unfold teacher_overrides, teacher_batch_payload, assign_schoolId. cbv zeta.
  destruct (school_of _) as [s|]; [case_decide|]; try apply carries_union.
  intros k v. destruct (decide (k = "schoolId")) as [->|Hk].
  - rewrite !lookup_insert_eq. done.
  - rewrite !lookup_insert_ne by done. apply carries_union.
Qed.

(** A row that holds the attributes of a payload holds those of every
    override set the payload carries. *)
Lemma applied_carries (overrides payload : jsobj) (attribute : string → option jsval) :
  carries overrides payload → applied payload attribute → applied overrides attribute.
Proof. intros Hc Ha k v Hk. apply Ha. by apply Hc. Qed.

Lemma teacher_batch_payload_firstName overrides e tick index :
  default ∅ overrides !! "firstName" = None →
  teacher_batch_payload overrides e tick index !! "firstName"
  = Some (VStr ("Teacher" +:+ pretty (clock e (S (S tick))) +:+ "_" +:+ pretty index)).
Proof.
  intros Hno. unfold teacher_batch_payload. cbv zeta.
  rewrite assign_schoolId_lookup_ne by done.
  rewrite lookup_union_r by (by rewrite lookup_delete_ne).
  rewrite lookup_insert_ne by done. by rewrite lookup_insert_eq.
Qed.

Lemma teacher_batch_payload_email overrides e tick index :
  default ∅ overrides !! "email" = None →
  teacher_batch_payload overrides e tick index !! "email"
  = Some (VStr ("teacher" +:+ pretty (clock e (S (S (S tick)))) +:+ "_"
                  +:+ pretty index +:+ "@test.com")).
Proof.
  intros Hno. unfold teacher_batch_payload. cbv zeta.
  rewrite assign_schoolId_lookup_ne by done.
  rewrite lookup_union_r by (by rewrite lookup_delete_ne).
  by rewrite lookup_insert_eq.
Qed.

Lemma teacher_matches_text data row k s :
  teacher_matches data row → data !! k = Some (VStr s) →
  is_Some (Teacher_attribute row k) → Teacher_attribute row k = Some (VStr s).
Proof. intros [Ha _] Hk Hattr. by apply Ha. Qed.


(** What a returning [createMany] of [TeacherFactory] returned. *)
Lemma TeacherFactory_createMany_Returned count overrides w rows w' :
  TeacherFactory.createMany count overrides w = (Returned rows, w') →
  1 ≤ count ∧ length rows = Z.to_nat count ∧
  teachers (database w') = teachers (database w) ++ rows ∧
  schools (database w') = schools (database w) ∧
  Forall (λ row, applied (teacher_overrides overrides) (Teacher_attribute row)) rows ∧
  (default ∅ overrides !! "firstName" = None → NoDup (teacher_firstName <$> rows)) ∧
  (default ∅ overrides !! "email" = None → NoDup (teacher_email <$> rows)).
Proof.
  unfold TeacherFactory.createMany. unfold_monad.
  destruct (TeacherFactory.createMany_data count overrides w) as [[payloads|e] w1]
    eqn:Hdata; [|done].
  pose proof Hdata as [Hcount _]%Array_from_Returned.
  destruct (TeacherFactory_createMany_data_run count overrides w Hcount)
    as (payloads' & w1' & Hdata' & (_ & Hd & _) & Hlen & Hitems).
  rewrite Hdata in Hdata'. injection Hdata' as <- <-.
  intros Hins.
  apply insert_teachers_returning_Returned in Hins
    as (Hne & Hlen' & Hm & Ht & Hs & _).
  split. { destruct payloads; [done|]. simpl in Hlen. lia. }
  split; [congruence|]. split; [by rewrite <- Hd|]. split; [by rewrite <- Hd|].
  split; [|split].
  - apply Forall_lookup. intros k row Hrow.
    destruct (Forall2_lookup_r _ _ _ _ _ Hm Hrow) as (p & Hp & (Ha & _)).
    destruct (Hitems k p Hp) as (tick & ->).
    eapply applied_carries; [apply teacher_batch_payload_carries|done].
  - intros Hno. apply NoDup_alt. intros i j name.
    rewrite !list_lookup_fmap.
    destruct (rows !! i) as [ri|] eqn:Hri; [|done].
    destruct (rows !! j) as [rj|] eqn:Hrj; [|done].
    simpl. intros [= Hi] [= Hj].
    destruct (Forall2_lookup_r _ _ _ _ _ Hm Hri) as (pi & Hpi & Hmi).
    destruct (Forall2_lookup_r _ _ _ _ _ Hm Hrj) as (pj & Hpj & Hmj).
    destruct (Hitems i pi Hpi) as (ti & ->).
    destruct (Hitems j pj Hpj) as (tj & ->).
    pose proof (teacher_matches_text _ _ "firstName" _ Hmi
                  (teacher_batch_payload_firstName _ _ _ _ Hno) ltac:(by eexists))
      as [= Hni].
    pose proof (teacher_matches_text _ _ "firstName" _ Hmj
                  (teacher_batch_payload_firstName _ _ _ _ Hno) ltac:(by eexists))
      as [= Hnj].
    apply (teacher_firstName_index (clock (env w) (S (S ti)))
             (clock (env w) (S (S tj)))). congruence.
  - intros Hno. apply NoDup_alt. intros i j name.
    rewrite !list_lookup_fmap.
    destruct (rows !! i) as [ri|] eqn:Hri; [|done].
    destruct (rows !! j) as [rj|] eqn:Hrj; [|done].
    simpl. intros [= Hi] [= Hj].
    destruct (Forall2_lookup_r _ _ _ _ _ Hm Hri) as (pi & Hpi & Hmi).
    destruct (Forall2_lookup_r _ _ _ _ _ Hm Hrj) as (pj & Hpj & Hmj).
    destruct (Hitems i pi Hpi) as (ti & ->).
    destruct (Hitems j pj Hpj) as (tj & ->).
    pose proof (teacher_matches_text _ _ "email" _ Hmi
                  (teacher_batch_payload_email _ _ _ _ Hno) ltac:(by eexists))
      as [= Hni].
    pose proof (teacher_matches_text _ _ "email" _ Hmj
                  (teacher_batch_payload_email _ _ _ _ Hno) ltac:(by eexists))
      as [= Hnj].
    apply (teacher_email_index (clock (env w) (S (S (S ti))))
             (clock (env w) (S (S (S tj))))). congruence.
Qed.




(** ** Batches that go through *)







(** ** The builder: what a build records and installs *)

Lemma apply_override_spec mb o w mb' w' :
  E2ETestSetup.apply_override mb o w = (Returned mb', w') →
  tmb_overloads mb' = tmb_overloads mb ++ option_list (installed o) ∧
  tmb_metadata mb' = tmb_metadata mb ∧
  invocations w' = invocations w ++ option_list (factory_invocation o) ∧
  same_database w w' ∧ apps_created w' = apps_created w.
Proof.
  unfold E2ETestSetup.apply_override, installed, factory_invocation,
    factory_record, call_function. unfold_monad.
  destruct (useValue o); simpl;
    try (intros [= <- <-]; simpl; rewrite ?app_nil_r; by repeat split).
  destruct (useClass o); [intros [= <- <-]; simpl; rewrite ?app_nil_r; by repeat split|].
  destruct (useFactory o) as [f|];
    [|intros [= <- <-]; simpl; rewrite ?app_nil_r; by repeat split].
  destruct (fun_call f []); intros [= <- <-]; by repeat split.
Qed.

(** The one way a turn of the loop throws: the record's function did. *)
Lemma apply_override_Threw mb o w e w' :
  E2ETestSetup.apply_override mb o w = (Threw e, w') →
  ∃ f, factory_record o = Some f ∧ fun_call f [] = Threw e ∧
       w' = add_invocation (fun_name f, []) w.
Proof.
  unfold E2ETestSetup.apply_override, factory_record, call_function. unfold_monad.
  destruct (useValue o); try discriminate.
  destruct (useClass o); [discriminate|].
  destruct (useFactory o) as [f|]; [|discriminate].
  destruct (fun_call f []) eqn:Hcall; [discriminate|].
  intros [= <- <-]. eauto.
Qed.

Lemma apply_overrides_spec ovs mb w mb' w' :
  E2ETestSetup.apply_overrides mb ovs w = (Returned mb', w') →
  tmb_overloads mb' = tmb_overloads mb ++ omap installed ovs ∧
  tmb_metadata mb' = tmb_metadata mb ∧
  invocations w' = invocations w ++ omap factory_invocation ovs ∧
  same_database w w' ∧ apps_created w' = apps_created w.
Proof.
  revert mb w. induction ovs as [|o ovs IH]; intros mb w; simpl.
  - intros [= <- <-]. rewrite !app_nil_r. split; [done|]. split; [done|].
    split; [done|]. split; [apply same_database_refl|done].
  - unfold_monad.
    destruct (E2ETestSetup.apply_override mb o w) as [[mb1|e] w1] eqn:H1; [|done].
    intros H2. apply apply_override_spec in H1 as (Ho & Hmd & Hi & Hs & Ha).
    apply IH in H2 as (Ho2 & Hmd2 & Hi2 & Hs2 & Ha2).
    rewrite Ho2, Hi2, Ho, Hi, Ha2, Ha, Hmd2, Hmd, <- !app_assoc.
    split; [by destruct (installed o)|]. split; [done|].
    split; [by destruct (factory_invocation o)|].
    split; [eauto using same_database_trans|done].
Qed.

(** A loop that throws has called the functions of the records up to the
    one whose function threw, and no other. *)
Lemma apply_overrides_Threw ovs mb w e w' :
  E2ETestSetup.apply_overrides mb ovs w = (Threw e, w') →
  ∃ n o f, ovs !! n = Some o ∧ factory_record o = Some f ∧
    fun_call f [] = Threw e ∧
    invocations w' = invocations w ++ omap factory_invocation (take (S n) ovs) ∧
    same_database w w' ∧ apps_created w' = apps_created w.
Proof.
  revert mb w. induction ovs as [|o ovs IH]; intros mb w; simpl; [done|].
  unfold_monad.
  destruct (E2ETestSetup.apply_override mb o w) as [[mb1|e1] w1] eqn:H1.
  - intros H2. apply apply_override_spec in H1 as (_ & _ & Hi & Hs & Ha).
    apply IH in H2 as (n & o' & f & Hn & Hf & Hcall & Hi2 & Hs2 & Ha2).
    exists (S n), o', f. split; [done|]. split; [done|]. split; [done|].
    rewrite Hi2, Hi, Ha2, Ha, <- app_assoc.
    split; [by destruct (factory_invocation o)|].
    split; [eauto using same_database_trans|done].
  - intros [= <- <-]. apply apply_override_Threw in H1 as (f & Hf & Hcall & ->).
    exists 0%nat, o, f. split; [done|]. split; [done|]. split; [done|].
    simpl. unfold factory_invocation. rewrite Hf. simpl.
    by repeat split.
Qed.

(** A factory record whose function returned has its value installed. *)
Lemma apply_overrides_factory ovs mb w mb' w' o f :
  E2ETestSetup.apply_overrides mb ovs w = (Returned mb', w') →
  o ∈ ovs → factory_record o = Some f →
  ∃ v, fun_call f [] = Returned v ∧ installed o = Some (token o, UseValue v).
Proof.
  revert mb w. induction ovs as [|o' ovs IH]; intros mb w; simpl.
  - intros _ Hin. by apply elem_of_nil in Hin.
  - unfold_monad.
    destruct (E2ETestSetup.apply_override mb o' w) as [[mb1|e] w1] eqn:H1; [|done].
    intros H2 [<-|Hin]%elem_of_cons Hf; [|eauto].
    clear IH H2. revert H1 Hf.
    unfold E2ETestSetup.apply_override, installed, factory_record, call_function.
    unfold_monad.
    destruct (useValue o); try done.
    destruct (useClass o); [done|].
    destruct (useFactory o) as [g|]; [|done].
    destruct (fun_call g []) as [v|e] eqn:Hcall; [|done].
    intros _ [= <-]. eauto.
Qed.

(** The [inject] list of a record plays no part in the loop. *)
Lemma apply_overrides_forget_inject ovs mb w :
  E2ETestSetup.apply_overrides mb (forget_inject <$> ovs) w
  = E2ETestSetup.apply_overrides mb ovs w.
Proof.
  revert mb w. induction ovs as [|o ovs IH]; intros mb w; [done|].
  simpl. unfold_monad.
  change (E2ETestSetup.apply_override mb (forget_inject o) w)
    with (E2ETestSetup.apply_override mb o w).
  destruct (E2ETestSetup.apply_override mb o w) as [[mb1|e] w1]; [apply IH|done].
Qed.

(** [setupApp] with the world it leaves behind in each case. *)
Lemma setupApp_run (this : E2ETestSetup) (w : World) :
  let mb0 := Test_createTestingModule
               (mkMetadata (e2e_imports this) (e2e_controllers this) (e2e_providers this)) in
  E2ETestSetup.setupApp (this, w)
  = match E2ETestSetup.apply_overrides mb0 (e2e_providerOverrides this) w with
    | (Threw e, w1) => (Threw e, (this, w1))
    | (Returned mb, w1) =>
      if nest_compile_fails (env w1) mb
      then (Threw (NestError "compile"), (this, w1))
      else
        let app := mkApp (apps_created w1) mb in
        let w2 := world_with_app mb w1 in
        if nest_init_fails (env w1) mb
        then (Threw (NestError "init"), (E2ETestSetup.set_app app this, w2))
        else
          let w3 := add_nest_event (Initialized (apps_created w1)) w2 in
          if nest_provides_db (env w1) mb
          then (Returned tt,
                (E2ETestSetup.set_factories (TestFactories.new (Connection (apps_created w1)))
                   (E2ETestSetup.set_db (Connection (apps_created w1))
                      (E2ETestSetup.set_serverHttp (apps_created w1)
                         (E2ETestSetup.set_app app this))), w3))
          else (Returned tt,
                (E2ETestSetup.set_serverHttp (apps_created w1)
                   (E2ETestSetup.set_app app this), log_missing_database w3))
    end.
Proof.
  intros mb0. unfold E2ETestSetup.setupApp. unfold_monad. cbn [fst snd].
  fold mb0.
  destruct (E2ETestSetup.apply_overrides mb0 (e2e_providerOverrides this) w)
    as [[mb|e] w1]; [|done].
  unfold moduleBuilder_compile, createNestApplication, app_init,
    app_get_DATABASE_CONNECTION. cbn.
  destruct (nest_compile_fails (env w1) mb); [done|]. cbn.
  destruct (nest_init_fails (env w1) mb); cbn; [done|].
  destruct (nest_provides_db (env w1) mb); cbn; done.
Qed.

(** C9.  A record pushed by [overrideProviderWithFactory(token, factoryFn,
    inject)] keeps the function and the inject list.  A build calls the
    functions of the factory records in registration order, each with an
    empty argument list and each at most once, and makes no other call: it
    calls those of all records, unless the function of a record throws,
    in which case the build throws that error and calls none of the later
    ones.  A build that returns has therefore called the function of every
    factory record exactly once with no argument, and the application it
    attached has the value each function returned installed for the
    record's token as a value override, in registration order.  The inject
    lists play no part: the build of the object without them has the same
    outcome, leaves the same world and attaches the same application. *)
Theorem factory_overrides_called_once_without_arguments
    (this : E2ETestSetup) (w : World) :
  let overrides := e2e_providerOverrides this in
  let run := E2ETestSetup.setupApp (this, w) in
  let forgotten := E2ETestSetup.setupApp (forget_injects this, w) in
  (∀ tok factoryFn inject_,
     ∃ o, e2e_providerOverrides
            (E2ETestSetup.overrideProviderWithFactory tok factoryFn inject_ this)
          = overrides ++ [o] ∧
          token o = tok ∧ factory_record o = Some factoryFn ∧
          inject o = Some (default [] inject_)) ∧
  (∃ n, invocations run.2.2
        = invocations w ++ omap factory_invocation (take n overrides) ∧
        (take n overrides = overrides ∨
         ∃ o f e, (0 < n)%nat ∧ overrides !! (n - 1)%nat = Some o ∧
                  factory_record o = Some f ∧
                  fun_call f [] = Threw e ∧ run.1 = Threw e)) ∧
  (run.1 = Returned tt →
     invocations run.2.2 = invocations w ++ omap factory_invocation overrides ∧
     ∃ app, e2e_app run.2.1 = Some app ∧
       tmb_overloads (app_module app) = omap installed overrides ∧
       ∀ o f, o ∈ overrides → factory_record o = Some f →
         (fun_name f, []) ∈ omap factory_invocation overrides ∧
         ∃ v, fun_call f [] = Returned v ∧
              installed o = Some (token o, UseValue v) ∧
              (token o, UseValue v) ∈ tmb_overloads (app_module app)) ∧
  forgotten.1 = run.1 ∧ forgotten.2.2 = run.2.2 ∧
  e2e_app forgotten.2.1 = e2e_app run.2.1.
Proof.
  intros overrides run forgotten.
  split. { intros tok f inject_. eexists. split; [reflexivity|]. done. }
  unfold run, forgotten. rewrite !setupApp_run. cbn zeta.
  change (e2e_providerOverrides (forget_injects this))
    with (forget_inject <$> e2e_providerOverrides this).
  change (e2e_imports (forget_injects this)) with (e2e_imports this).
  change (e2e_controllers (forget_injects this)) with (e2e_controllers this).
  change (e2e_providers (forget_injects this)) with (e2e_providers this).
  rewrite apply_overrides_forget_inject. fold overrides.
  destruct (E2ETestSetup.apply_overrides _ overrides w) as [[mb|e] w1] eqn:Hloop.
  - pose proof (apply_overrides_spec _ _ _ _ _ Hloop) as (Ho & _ & Hi & _ & _).
    simpl in Ho.
    assert (∀ o f, o ∈ overrides → factory_record o = Some f →
              (fun_name f, []) ∈ omap factory_invocation overrides ∧
              ∃ v, fun_call f [] = Returned v ∧
                   installed o = Some (token o, UseValue v) ∧
                   (token o, UseValue v) ∈ tmb_overloads mb) as Hrecords.
    { intros o f Hin Hf. split.
      - apply list_elem_of_omap. exists o. split; [done|].
        unfold factory_invocation. by rewrite Hf.
      - destruct (apply_overrides_factory _ _ _ _ _ o f Hloop Hin Hf) as (v & Hv & Hins).
        exists v. split; [done|]. split; [done|]. rewrite Ho.
        apply list_elem_of_omap. eauto. }
    split.
    { exists (length overrides). rewrite firstn_all.
      split; [|by left].
      destruct (nest_compile_fails (env w1) mb); [done|].
      destruct (nest_init_fails (env w1) mb); [done|].
      by destruct (nest_provides_db (env w1) mb). }
    split; [|by repeat split;
               destruct (nest_compile_fails (env w1) mb);
               destruct (nest_init_fails (env w1) mb);
               destruct (nest_provides_db (env w1) mb)].
    destruct (nest_compile_fails (env w1) mb); [done|].
    destruct (nest_init_fails (env w1) mb); [done|].
    destruct (nest_provides_db (env w1) mb); intros _;
      (split; [done|]); eexists; (split; [reflexivity|]); by split.
  - apply apply_overrides_Threw in Hloop
      as (n & o & f & Hn & Hf & Hcall & Hi & _ & _).
    split; [|by split].
    exists (S n). split; [done|]. right. exists o, f, e.
    split; [lia|]. split; [by rewrite Nat.sub_1_r|]. done.
Qed.

Lemma factory_overrides_called_once_without_arguments_witness :
  let this :=
    E2ETestSetup.overrideProviderWithFactory (VClass "TeacherService")
      throwingFactory None
      (E2ETestSetup.overrideProviderWithFactory (VClass "SchoolService")
         mockFactory (Some [VClass "SchoolRepository"]) E2ETestSetup.new) in
  let built :=
    E2ETestSetup.setupApp
      (E2ETestSetup.overrideProviderWithFactory (VClass "SchoolService")
         mockFactory (Some [VClass "SchoolRepository"]) E2ETestSetup.new,
       start_world steady_env empty_db) in
  built.1 = Returned tt ∧
  invocations built.2.2 = [("mockFactory", [])] ∧
  (tmb_overloads ∘ app_module) <$> e2e_app built.2.1
  = Some [(VClass "SchoolService", UseValue (VStr "mock"))] ∧
  invocations (E2ETestSetup.setupApp (this, start_world steady_env empty_db)).2.2
  = [("mockFactory", []); ("throwingFactory", [])].
Proof.
  cbv zeta.
  destruct (factory_overrides_called_once_without_arguments
              (E2ETestSetup.overrideProviderWithFactory (VClass "SchoolService")
                 mockFactory (Some [VClass "SchoolRepository"]) E2ETestSetup.new)
              (start_world steady_env empty_db))
    as (_ & _ & Hbuilt & _).
  split; [vm_compute; reflexivity|].
  destruct Hbuilt as (Hcalls & app & Happ & Hinstalled & _); [vm_compute; reflexivity|].
  split; [exact Hcalls|]. split; [by rewrite Happ; simpl; rewrite Hinstalled|].
  vm_compute. reflexivity.
Defined.

(** ** The context of a builder object *)

Lemma context_ok_new : context_ok E2ETestSetup.new.
Proof. split; [done|]. intros reg. done. Qed.

Lemma context_ok_same (this this' : E2ETestSetup) :
  e2e_db this' = e2e_db this → e2e_factories this' = e2e_factories this →
  context_ok this → context_ok this'.
Proof. unfold context_ok. intros -> ->. done. Qed.

Lemma configure1_context c this : context_ok this → context_ok (configure1 c this).
Proof.
  destruct (configure_keeps_context [c] this) as (_ & Hdb & Hf).
  by apply context_ok_same.
Qed.

Lemma setupApp_context this w : context_ok this → context_ok (E2ETestSetup.setupApp (this, w)).2.1.
Proof.
  intros Hok. rewrite setupApp_run. cbv zeta.
  destruct (E2ETestSetup.apply_overrides _ _ w) as [[mb|e] w1]; [|done].
  destruct (nest_compile_fails (env w1) mb); [done|].
  destruct (nest_init_fails (env w1) mb); [done|].
  destruct (nest_provides_db (env w1) mb); [|done].
  split; [done|]. simpl. intros reg [= <-]. eexists. split; [done|].
  intros k f. simpl. by rewrite lookup_empty.
Qed.

Lemma getFactory_context factoryType this :
  context_ok this → context_ok (E2ETestSetup.getFactory factoryType this).2.
Proof.
  intros Hctx. unfold E2ETestSetup.getFactory.
  destruct (e2e_factories this) as [reg|] eqn:Hf; [|exact Hctx].
  destruct Hctx as [Hboth Hreg].
  destruct (Hreg reg Hf) as [db Hok].
  pose proof (registry_get_ok db reg factoryType Hok) as Hok'.
  destruct (TestFactories.get factoryType reg) as [r reg']. simpl in *.
  split.
  - simpl. split; [|done]. intros Hdb. apply Hboth in Hdb. congruence.
  - simpl. intros ? [= <-]. eauto.
Qed.

Lemma call1_context c st : context_ok st.1 → context_ok (call1 c st).1.
Proof.
  destruct st as [this w]. destruct c; simpl; try done.
  - apply configure1_context.
  - apply setupApp_context.
  - apply getFactory_context.
Qed.

Lemma script_context calls st : context_ok st.1 → context_ok (script calls st).1.
Proof.
  revert st. induction calls as [|c calls IH]; intros st Hok; [done|].
  simpl. apply IH, call1_context, Hok.
Qed.

(** The scenario of the specification: a custom composition without any
    wiring fragment, built once on a new object, leaves a context without
    factories. *)
Example custom_composition_without_fragments_has_no_factories :
  let st := script [Configure WithCustomModule; SetupApp]
                   (E2ETestSetup.new, start_world steady_env empty_db) in
  e2e_db st.1 = None ∧
  (E2ETestSetup.getFactory "school" st.1).1 = Threw E2ETestSetup.FactoriesUnavailable ∧
  (E2ETestSetup.getFactory "teacher" st.1).1 = Threw E2ETestSetup.FactoriesUnavailable.
Proof. cbv zeta. split; [|split]; vm_compute; reflexivity. Qed.

(** C5 fails on an object that is built twice.  [setupApp] assigns
    [this.db] and [this.factories] when 'DATABASE_CONNECTION' resolves and
    leaves them alone when it does not.  So after a full build, a second
    build of the same object as a custom composition without fragments
    resolves no database handle and says so on the console, and
    [getFactory] still hands out a factory: one bound to the connection of
    the first application. *)
Theorem getFactory_returns_stale_factory_after_rebuild :
  let st1 := script [SetupApp] (E2ETestSetup.new, start_world steady_env empty_db) in
  let rebuild := E2ETestSetup.setupApp (E2ETestSetup.withCustomModule st1.1, st1.2) in
  let st2 := script [Configure WithCustomModule; SetupApp] st1 in
  e2e_db st1.1 = Some (Connection 0) ∧
  rebuild.1 = Returned tt ∧ st2 = rebuild.2 ∧
  app_id <$> e2e_app st2.1 = Some 1%nat ∧
  (nest_provides_db (env st1.2) ∘ app_module) <$> e2e_app st2.1 = Some false ∧
  console st2.2
  = [console_error_line (NestError "Nest could not find DATABASE_CONNECTION element");
     console_warn_text "DATABASE_CONNECTION not found - factories will not be available"] ∧
  e2e_db st2.1 = Some (Connection 0) ∧
  (E2ETestSetup.getFactory "school" st2.1).1 = Returned (SchoolFactoryOf (Connection 0)) ∧
  (E2ETestSetup.getFactory "school" st2.1).1 ≠ Threw E2ETestSetup.FactoriesUnavailable.
Proof.
  cbv zeta. split; [vm_compute; reflexivity|]. split; [vm_compute; reflexivity|].
  split; [reflexivity|]. split; [vm_compute; reflexivity|].
  split; [vm_compute; reflexivity|]. split; [vm_compute; reflexivity|].
  split; [vm_compute; reflexivity|].
  assert ((E2ETestSetup.getFactory "school"
             (script [Configure WithCustomModule; SetupApp]
                (script [SetupApp]
                   (E2ETestSetup.new, start_world steady_env empty_db))).1).1
          = Returned (SchoolFactoryOf (Connection 0))) as ->
    by (vm_compute; reflexivity).
  split; [reflexivity|discriminate].
Qed.

(** ** Teardown *)

Lemma E2ETestSetup_cleanup_returns this w :
  context_ok this →
  ∃ w', E2ETestSetup.cleanup this w = (Returned tt, w') ∧ same_surroundings w w' ∧
        (e2e_factories this = None → w' = w).
Proof.
  intros [_ Hreg]. unfold E2ETestSetup.cleanup.
  destruct (e2e_factories this) as [reg|].
  - destruct (Hreg reg eq_refl) as [db Hok].
    destruct (registry_cleanup_cases db reg w Hok)
      as (w' & ok & tr_t & tr_s & Hrun & (_ & _ & Hs) & _).
    exists w'. split; [done|]. split; [done|]. done.
  - exists w. split; [done|]. split; [apply same_surroundings_refl|done].
Qed.

Lemma close_attempts_app_close app w :
  close_attempts (app_id app) (app_close app w).2 = S (close_attempts (app_id app) w).
Proof.
  unfold app_close, close_attempts.
  destruct (nest_close_fails _ _); simpl;
    rewrite List.filter_app, length_app; simpl;
    rewrite bool_decide_eq_true_2 by done; simpl; lia.
Qed.

Lemma app_close_throws app w e :
  (app_close app w).1 = Threw e → e = NestError "close".
Proof. unfold app_close. destruct (nest_close_fails _ _); simpl; congruence. Qed.

(** One [teardown()], spelled out. *)
Lemma teardown_cases this w :
  context_ok this →
  ∃ w1, E2ETestSetup.cleanup this w = (Returned tt, w1) ∧
        same_surroundings w w1 ∧ (e2e_factories this = None → w1 = w) ∧
        E2ETestSetup.teardown this w
        = match e2e_app this with
          | Some app => app_close app w1
          | None => (Returned tt, w1)
          end.
Proof.
  intros Hok. destruct (E2ETestSetup_cleanup_returns this w Hok) as (w1 & Hc & Hs & Hn).
  exists w1. split; [done|]. split; [done|]. split; [done|].
  unfold E2ETestSetup.teardown. unfold_monad. rewrite Hc.
  by destruct (e2e_app this).
Qed.

(** C4 (amended).  On every builder object, whatever was called on it
    before (nothing, a build that failed half-way, a complete build), the
    two steps of [teardown()] each check presence before acting.  The
    cleanup step never raises, leaves everything but the database and the
    console as it was, does nothing at all while the object holds no
    registry, and is the registry's [cleanup()] while it holds one.  The
    shutdown step is one [app.close()] on the world the cleanup left while
    the object holds an application, and nothing otherwise.  So
    [teardown()] never propagates a cleanup failure: it raises only when
    the framework's [app.close()] raises.  While the object holds no
    application, [teardown()] returns without attempting a shutdown, and
    with no registry either it does nothing at all.  While it holds one,
    each [teardown()] calls [app.close()] once: the reference is not
    cleared, so a second [teardown()] attempts the shutdown again. *)
Theorem teardown_in_every_state (calls : list Call) (w0 : World) :
  let st := script calls (E2ETestSetup.new, w0) in
  let cleaned := E2ETestSetup.cleanup st.1 st.2 in
  let first := E2ETestSetup.teardown st.1 st.2 in
  let second := E2ETestSetup.teardown st.1 first.2 in
  cleaned.1 = Returned tt ∧ same_surroundings st.2 cleaned.2 ∧
  (e2e_factories st.1 = None → cleaned.2 = st.2) ∧
  (∀ reg, e2e_factories st.1 = Some reg →
     cleaned = TestFactories.cleanup reg st.2) ∧
  first = match e2e_app st.1 with
          | Some app => app_close app cleaned.2
          | None => (Returned tt, cleaned.2)
          end ∧
  (∀ e, first.1 = Threw e ∨ second.1 = Threw e → e = NestError "close") ∧
  (e2e_app st.1 = None →
     first.1 = Returned tt ∧ second.1 = Returned tt ∧
     nest_events second.2 = nest_events st.2 ∧
     (e2e_factories st.1 = None → second.2 = st.2)) ∧
  (∀ app, e2e_app st.1 = Some app →
     close_attempts (app_id app) first.2 = S (close_attempts (app_id app) st.2) ∧
     close_attempts (app_id app) second.2
       = S (S (close_attempts (app_id app) st.2))).
Proof.
  intros st cleaned first second.
  assert (context_ok st.1) as Hok by apply script_context, context_ok_new.
  destruct (teardown_cases st.1 st.2 Hok) as (w1 & Hc1 & Hs1 & Hn1 & H1).
  destruct (teardown_cases st.1 first.2 Hok) as (w2 & _ & Hs2 & Hn2 & H2).
  fold first in H1. fold second in H2. fold cleaned in Hc1.
  split; [by rewrite Hc1|]. split; [by rewrite Hc1|].
  split; [by rewrite Hc1|]. split.
  { intros reg Hreg. unfold cleaned, E2ETestSetup.cleanup. by rewrite Hreg. }
  split; [by rewrite Hc1|].
  destruct (e2e_app st.1) as [app|] eqn:Happ.
  - split; [|split; [done|]].
    + intros e [He|He]; [rewrite H1 in He|rewrite H2 in He];
        by apply app_close_throws in He.
    + intros ? [= <-].
      assert (close_attempts (app_id app) first.2
              = S (close_attempts (app_id app) st.2)) as Hfirst.
      { rewrite H1, close_attempts_app_close. unfold close_attempts.
        destruct Hs1 as (_ & -> & _). done. }
      split; [done|].
      rewrite H2, close_attempts_app_close, <- Hfirst. unfold close_attempts.
      destruct Hs2 as (_ & -> & _). done.
  - split; [|split; [|done]].
    + intros e [He|He]; [rewrite H1 in He|rewrite H2 in He]; done.
    + intros _. rewrite H1, H2. split; [done|]. split; [done|]. simpl.
      rewrite H1 in Hs2, Hn2. simpl in Hs2, Hn2. split.
      * destruct Hs2 as (_ & -> & _). destruct Hs1 as (_ & -> & _). done.
      * intros Hf. rewrite (Hn2 Hf). apply Hn1, Hf.
Qed.

(** C4, as stated, fails: after a complete build, a first [teardown()]
    whose shutdown completed is followed by a second [teardown()] that
    calls [app.close()] again. *)
Lemma teardown_twice_closes_twice :
  let st := script [SetupApp] (E2ETestSetup.new, start_world steady_env empty_db) in
  let first := E2ETestSetup.teardown st.1 st.2 in
  let second := E2ETestSetup.teardown st.1 first.2 in
  first.1 = Returned tt ∧
  List.filter (is_close_attempt 0) (nest_events first.2) = [CloseAttempt 0 true] ∧
  List.filter (is_close_attempt 0) (nest_events second.2)
    = [CloseAttempt 0 true; CloseAttempt 0 true].
Proof. cbv zeta. split; [|split]; vm_compute; reflexivity. Qed.

(** ** The builder: composition modes *)

Lemma setupApp_metadata this w st' :
  E2ETestSetup.setupApp (this, w) = (Returned tt, st') →
  ∃ app, e2e_app st'.1 = Some app ∧
         tmb_metadata (app_module app)
         = mkMetadata (e2e_imports this) (e2e_controllers this) (e2e_providers this).
Proof.
  rewrite setupApp_run. cbv zeta.
  destruct (E2ETestSetup.apply_overrides _ _ w) as [[mb|e] w1] eqn:Hloop; [|done].
  apply apply_overrides_spec in Hloop as (_ & Hmd & _).
  destruct (nest_compile_fails (env w1) mb); [done|].
  destruct (nest_init_fails (env w1) mb); [done|].
  destruct (nest_provides_db (env w1) mb);
    intros [= <-]; eexists; split; done.
Qed.

(** While the full composition is selected on an object made by [new], the
    imports list is [AppModule] alone. *)
Lemma configure_full_mode_imports (calls : list ConfigCall) (this : E2ETestSetup) :
  (e2e_useCustomModule this = false → e2e_imports this = [AppModule]) →
  e2e_useCustomModule (configure calls this) = false →
  e2e_imports (configure calls this) = [AppModule].
Proof.
  revert this. induction calls as [|c calls IH]; intros this Hinv; [done|].
  rewrite configure_cons. apply IH.
  destruct c; simpl; try done;
    unfold E2ETestSetup.withImports, E2ETestSetup.withControllers,
      E2ETestSetup.withProviders;
    destruct (e2e_useCustomModule this) eqn:Hmode; simpl; try done;
    rewrite ?Hmode; done.
Qed.

(** C3 (amended).  For every sequence of builder configuration calls: the
    additive calls ([withImports], [withControllers], [withProviders]) leave
    the builder unchanged while the full-composition mode is selected.
    Selecting a mode, either one, starts the imports list afresh
    ([AppModule] alone, or empty), so imports added earlier are dropped,
    and leaves the controllers and providers lists as they are: these two
    lists keep everything that was added while the custom mode was
    selected.  On an object made by [new], the imports list is [AppModule]
    alone whenever the full composition is selected.  A build compiles the
    imports list as it stands, so an import added in custom mode is never
    part of a build made in full mode; a build made in custom mode
    compiles the three lists as they stand. *)
Theorem builder_lists_across_modes (calls : list ConfigCall) (this : E2ETestSetup) :
  let built := configure calls this in
  (e2e_useCustomModule built = false →
     ∀ imports controllers providers,
       E2ETestSetup.withImports imports built = built ∧
       E2ETestSetup.withControllers controllers built = built ∧
       E2ETestSetup.withProviders providers built = built) ∧
  (e2e_imports (E2ETestSetup.withAppModule built) = [AppModule] ∧
   e2e_controllers (E2ETestSetup.withAppModule built) = e2e_controllers built ∧
   e2e_providers (E2ETestSetup.withAppModule built) = e2e_providers built) ∧
  (e2e_imports (E2ETestSetup.withCustomModule built) = [] ∧
   e2e_controllers (E2ETestSetup.withCustomModule built) = e2e_controllers built ∧
   e2e_providers (E2ETestSetup.withCustomModule built) = e2e_providers built) ∧
  e2e_imports built
    = kept_imports (e2e_useCustomModule this) (e2e_imports this) calls ∧
  e2e_controllers built
    = e2e_controllers this ++ kept_controllers (e2e_useCustomModule this) calls ∧
  e2e_providers built
    = e2e_providers this ++ kept_providers (e2e_useCustomModule this) calls ∧
  (e2e_useCustomModule (configure calls E2ETestSetup.new) = false →
     e2e_imports (configure calls E2ETestSetup.new) = [AppModule]) ∧
  (∀ w st',
     E2ETestSetup.setupApp (built, w) = (Returned tt, st') →
     ∃ app, e2e_app st'.1 = Some app ∧
            md_imports (tmb_metadata (app_module app)) = e2e_imports built ∧
            (e2e_useCustomModule built = true →
               tmb_metadata (app_module app)
               = mkMetadata (e2e_imports built) (e2e_controllers built)
                            (e2e_providers built))).
Proof.
  intros built.
  destruct (configure_lists calls this) as (Hc & Hp & Hi).
  split.
  { intros Hmode imports controllers providers.
    unfold E2ETestSetup.withImports, E2ETestSetup.withControllers,
      E2ETestSetup.withProviders. by rewrite Hmode. }
  repeat (split; [done|]).
  split; [by apply configure_full_mode_imports|].
  intros w st' (app & Happ & Hmd)%setupApp_metadata.
  exists app. split; [done|]. by rewrite Hmd.
Qed.

(** C3, as stated, fails: switching the mode does discard what was added
    to the imports list.  An import added in custom mode is gone after
    switching to the full composition and back, and the builder is then
    what a plain [withCustomModule()] makes of a new object. *)
Lemma builder_mode_switch_drops_imports :
  let added :=
    configure [WithCustomModule; WithImports [SchoolModule]] E2ETestSetup.new in
  let there_and_back := configure [WithAppModule; WithCustomModule] added in
  e2e_imports added = [SchoolModule] ∧
  e2e_useCustomModule there_and_back = true ∧
  e2e_imports there_and_back = [] ∧
  there_and_back = E2ETestSetup.withCustomModule E2ETestSetup.new.
Proof. cbv zeta. repeat split; vm_compute; reflexivity. Qed.

(** * Further properties *)

(** ** The data generator: identifiers, names and formats *)

Lemma lacks_app_separator (c : ascii) (s1 s2 : string) :
  ¬ lacks c (s1 +:+ String c s2).
Proof. induction s1 as [|a s1 IH]; simpl; intros [? ?]; [done|]. by apply IH. Qed.

(** Two strings that end in a separator followed by a part without that
    separator agree part by part. *)
Lemma app_last_separator (c : ascii) (a a' b b' : string) :
  lacks c b → lacks c b' →
  a +:+ String c b = a' +:+ String c b' → a = a' ∧ b = b'.
Proof.
  intros Hb Hb'. revert a'. induction a as [|x a IH]; intros [|x' a']; simpl.
  - by intros [= ->].
  - intros [= <- ->]. by apply lacks_app_separator in Hb.
  - intros [= -> <-]. by apply lacks_app_separator in Hb'.
  - intros [= -> H]. by destruct (IH _ H) as [-> ->].
Qed.

Lemma nondigit_space : nondigit " ".
Proof. intros d. unfold pretty_N_char. by repeat case_match. Qed.

(** The name [generateName] builds from the identifier it draws. *)
Lemma generateName_run (prefix : option string) (w : World) :
  ∃ base, TestDataGenerator.generateName prefix w
          = (Returned (base +:+ String " " (pretty (increment (counter w)))),
             set_counter (increment (counter w)) w) ∧
          base = match prefix with
                 | Some p => if decide (p = "") then "Test Name" else p
                 | None => "Test Name"
                 end.
Proof.
  unfold TestDataGenerator.generateName, TestDataGenerator.getUniqueId. unfold_monad.
  eexists; split; [|reflexivity].
  destruct prefix as [p|]; [destruct (decide (p = ""))|]; reflexivity.
Qed.

(** [generateName] does not repeat a name while the counter counts
    exactly: two calls made at different values of the counter below 2^53
    return different names, whatever prefixes they are given, and each call
    moves the counter on by one.  At 2^53 the counter stays where it is,
    and so does the name. *)
Theorem generateName_never_repeats (prefix1 prefix2 : option string) (w1 w2 : World) :
  0 ≤ counter w1 < 2 ^ 53 → 0 ≤ counter w2 < 2 ^ 53 →
  counter w1 ≠ counter w2 →
  (TestDataGenerator.generateName prefix1 w1).1
    ≠ (TestDataGenerator.generateName prefix2 w2).1 ∧
  counter (TestDataGenerator.generateName prefix1 w1).2 = counter w1 + 1 ∧
  (∀ w, counter w = 2 ^ 53 →
     (TestDataGenerator.generateName prefix1 (TestDataGenerator.generateName prefix1 w).2).1
     = (TestDataGenerator.generateName prefix1 w).1).
Proof.
  intros H1 H2 Hne.
  pose proof (generateName_run prefix1 w1) as (b1 & R1 & _).
  pose proof (generateName_run prefix2 w2) as (b2 & R2 & _).
  rewrite R1, R2. rewrite !increment_exact by lia.
  split; [|split; [reflexivity|]].
  - simpl. intros [= H].
    apply app_last_separator in H as [_ H];
      [|apply pretty_Z_lacks; [apply nondigit_space|done]..].
    apply (inj pretty) in H. lia.
  - intros w Hw.
    destruct (generateName_run prefix1 w) as (b & R & Hb).
    destruct (generateName_run prefix1 (TestDataGenerator.generateName prefix1 w).2)
      as (b' & R' & Hb').
    rewrite R', R. simpl. rewrite Hw.
    change (increment (2 ^ 53)) with (2 ^ 53) at 1. congruence.
Qed.

Lemma generateName_never_repeats_witness :
  let w := start_world steady_env empty_db in
  (TestDataGenerator.generateName (Some "Test School") w).1
    ≠ (TestDataGenerator.generateName (Some "Test School 1")
         (TestDataGenerator.generateName (Some "Test School") w).2).1 ∧
  counter (TestDataGenerator.generateName (Some "Test School") w).2 = 0 + 1.
Proof.
  cbv zeta.
  destruct (generateName_never_repeats (Some "Test School") (Some "Test School 1")
              (start_world steady_env empty_db)
              (TestDataGenerator.generateName (Some "Test School")
                 (start_world steady_env empty_db)).2) as (H1 & H2 & _).
  - simpl. lia.
  - vm_compute. split; [discriminate|reflexivity].
  - vm_compute. discriminate.
  - split; [exact H1|exact H2].
Defined.

(** The identifiers of [n] calls in a row. *)
Lemma getUniqueId_calls (n start : nat) (w : World) :
  0 ≤ counter w → counter w + Z.of_nat n ≤ 2 ^ 53 →
  array_from start n (λ _, TestDataGenerator.getUniqueId) w
  = (Returned ((λ k : nat, counter w + 1 + Z.of_nat k) <$> seq 0 n),
     set_counter (counter w + Z.of_nat n) w).
Proof.
  revert start w. induction n as [|n IH]; intros start w H0 H1.
  - simpl. unfold_monad. f_equal. destruct w; unfold set_counter; simpl.
    f_equal. lia.
  - simpl. unfold_monad. unfold TestDataGenerator.getUniqueId at 1.
    rewrite increment_exact by lia.
    rewrite IH by (simpl; lia). simpl. f_equal.
    + f_equal. f_equal; [lia|].
      rewrite <- seq_shift, <- list_fmap_compose. apply list_fmap_ext.
      intros i x _. simpl. lia.
    + unfold set_counter; simpl. f_equal. lia.
Qed.

(** [getUniqueId] counts up from the counter while the count is exact:
    [n] calls in a row that stay within 2^53 return the next [n] integers
    in increasing order, no value twice, and leave the counter at the last
    value returned; in a fresh process the k-th call returns k. *)
Theorem getUniqueId_counts_up (n : nat) (w : World) :
  0 ≤ counter w → counter w + Z.of_nat n ≤ 2 ^ 53 →
  ∃ ids w',
    array_from 0 n (λ _, TestDataGenerator.getUniqueId) w = (Returned ids, w') ∧
    length ids = n ∧
    (∀ k id, ids !! k = Some id → id = counter w + 1 + Z.of_nat k) ∧
    NoDup ids ∧
    counter w' = counter w + Z.of_nat n ∧
    same_database w w' ∧ ticks w' = ticks w ∧ draws w' = draws w.
Proof.
  intros H0 H1.
  do 2 eexists. split; [by apply getUniqueId_calls|].
  split; [by rewrite length_fmap, length_seq|].
  split.
  { intros k id [i [-> Hi]]%list_lookup_fmap_Some.
    apply lookup_seq in Hi as [-> _]. done. }
  split.
  { apply NoDup_fmap_2; [|apply NoDup_seq]. intros i j ?. lia. }
  by repeat split.
Qed.

Lemma getUniqueId_counts_up_witness :
  ∃ ids w',
    array_from 0 3 (λ _, TestDataGenerator.getUniqueId)
      (start_world steady_env empty_db) = (Returned ids, w') ∧
    length ids = 3%nat ∧
    (∀ k id, ids !! k = Some id → id = 0 + 1 + Z.of_nat k) ∧
    NoDup ids ∧
    counter w' = 0 + Z.of_nat 3 ∧
    same_database (start_world steady_env empty_db) w' ∧
    ticks w' = 0%nat ∧ draws w' = 0%nat.
Proof.
  apply (getUniqueId_counts_up 3 (start_world steady_env empty_db)); simpl; lia.
Defined.

(** The number of digits of a decimal numeral. *)
Lemma pretty_N_go_length (k : nat) (x : N) (s : string) :
  (10 ^ N.of_nat k ≤ x < 10 ^ N.of_nat (S k))%N →
  String.length (pretty_N_go x s) = (S k + String.length s)%nat.
Proof.
  revert x s. induction k as [|k IH]; intros x s Hx.
  - change (1 ≤ x < 10)%N in Hx.
    rewrite pretty_N_go_step by lia.
    rewrite N.div_small by lia. by rewrite pretty_N_go_0.
  - rewrite !Nat2N.inj_succ, !N.pow_succ_r' in Hx.
    rewrite Nat2N.inj_succ, N.pow_succ_r' in IH.
    assert (0 < 10 ^ N.of_nat k)%N by (apply N.neq_0_lt_0, N.pow_nonzero; lia).
    rewrite pretty_N_go_step by lia.
    rewrite IH; [simpl; lia|]. split.
    + apply N.div_le_lower_bound; lia.
    + apply N.Div0.div_lt_upper_bound; lia.
Qed.

Lemma pretty_Z_length (k : nat) (z : Z) :
  10 ^ Z.of_nat k ≤ z < 10 ^ Z.of_nat (S k) →
  String.length (pretty z) = S k.
Proof.
  intros Hz. assert (0 < 10 ^ Z.of_nat k) by (apply Z.pow_pos_nonneg; lia).
  destruct z as [|p|p]; [lia| |lia].
  unfold pretty, pretty_Z, pretty, pretty_positive, pretty, pretty_N.
  rewrite decide_False by done.
  rewrite (pretty_N_go_length k); [simpl; lia|].
  split; [apply N2Z.inj_le|apply N2Z.inj_lt];
    rewrite N2Z.inj_pow, nat_N_Z; simpl Z.of_N; lia.
Qed.

(** [generatePhone] always returns "+1" followed by ten digits: a
    three-digit area code and a three-digit group, neither starting with 0,
    and a four-digit group.  The result has 12 characters and so fits the
    [phone] columns of the schema ([varchar(20)]). *)
Theorem generatePhone_format (w : World) :
  ∃ area first second,
    TestDataGenerator.generatePhone w
      = (Returned ("+1" +:+ pretty area +:+ pretty first +:+ pretty second),
         set_draws (S (S (S (draws w)))) w) ∧
    100 ≤ area ≤ 999 ∧ 100 ≤ first ≤ 999 ∧ 1000 ≤ second ≤ 9999 ∧
    String.length (pretty area) = 3%nat ∧ String.length (pretty first) = 3%nat ∧
    String.length (pretty second) = 4%nat ∧
    String.length ("+1" +:+ pretty area +:+ pretty first +:+ pretty second) = 12%nat.
Proof.
  unfold TestDataGenerator.generatePhone. unfold_monad.
  destruct (Math_random_range w) as (r1 & -> & Hr1).
  destruct (Math_random_range (set_draws (S (draws w)) w)) as (r2 & -> & Hr2).
  destruct (Math_random_range
              (set_draws (S (draws (set_draws (S (draws w)) w)))
                 (set_draws (S (draws w)) w))) as (r3 & -> & Hr3).
  destruct (floor_times_nonneg r1 900) as [? ?]; [done|lia|].
  destruct (floor_times_nonneg r2 900) as [? ?]; [done|lia|].
  destruct (floor_times_nonneg r3 9000) as [? ?]; [done|lia|].
  do 3 eexists. split; [reflexivity|].
  assert (String.length (pretty (floor_times r1 900 + 100)) = 3%nat) as L1
    by (apply (pretty_Z_length 2); simpl; lia).
  assert (String.length (pretty (floor_times r2 900 + 100)) = 3%nat) as L2
    by (apply (pretty_Z_length 2); simpl; lia).
  assert (String.length (pretty (floor_times r3 9000 + 1000)) = 4%nat) as L3
    by (apply (pretty_Z_length 3); simpl; lia).
  repeat (split; [lia|]).
  rewrite !string_length_app, L1, L2, L3. reflexivity.
Qed.

(** [generateAddress] always returns a street number between 1 and 9999, a
    space, and one of the five street names: the index it draws never
    leaves the array. *)
Theorem generateAddress_format (w : World) :
  ∃ streetNumber street,
    TestDataGenerator.generateAddress w
      = (Returned (pretty streetNumber +:+ " " +:+ street),
         set_draws (S (S (draws w))) w) ∧
    1 ≤ streetNumber ≤ 9999 ∧
    street ∈ TestDataGenerator.streets.
Proof.
  unfold TestDataGenerator.generateAddress. unfold_monad.
  destruct (Math_random_range w) as (r1 & -> & Hr1).
  destruct (Math_random_range (set_draws (S (draws w)) w)) as (r2 & -> & Hr2).
  destruct (floor_times_nonneg r1 9999) as [? ?]; [done|lia|].
  destruct (floor_times_nonneg r2 5) as [? ?]; [done|lia|].
  destruct (lookup_lt_is_Some_2 TestDataGenerator.streets
              (Z.to_nat (floor_times r2 5))) as [street Hstreet].
  { simpl. lia. }
  exists (floor_times r1 9999 + 1), street.
  split; [|split; [lia|by eapply list_elem_of_lookup_2]].
  cbn [length TestDataGenerator.streets] in *.
  change (Z.of_nat 5) with 5. rewrite Hstreet. reflexivity.
Qed.

(** [randomChoice] returns a member of a non-empty array and [undefined]
    for an empty one; it never fails and draws one random number either
    way.  (An array has fewer than 2^32 elements.) *)
Theorem randomChoice_member {T} (items : list T) (w : World) :
  Z.of_nat (length items) < 2 ^ 32 →
  ∃ r, TestDataGenerator.randomChoice items w = (Returned r, set_draws (S (draws w)) w) ∧
       (items = [] → r = None) ∧
       (items ≠ [] → ∃ x, r = Some x ∧ x ∈ items).
Proof.
  intros Hlen. unfold TestDataGenerator.randomChoice. unfold_monad.
  destruct (Math_random_range w) as (r & -> & Hr).
  eexists; split; [reflexivity|]. split.
  - by intros ->.
  - intros Hne.
    destruct (floor_times_nonneg r (Z.of_nat (length items))) as [? Hlt]; [done|lia|].
    assert (0 < length items)%nat by (destruct items; [done|simpl; lia]).
    destruct (lookup_lt_is_Some_2 items
                (Z.to_nat (floor_times r (Z.of_nat (length items))))) as [x Hx]; [lia|].
    exists x. split; [done|]. by eapply list_elem_of_lookup_2.
Qed.

Lemma randomChoice_member_witness :
  ∃ r, TestDataGenerator.randomChoice ["a"; "b"; "c"] (start_world steady_env empty_db)
       = (Returned r, set_draws 1 (start_world steady_env empty_db)) ∧
       (["a"; "b"; "c"] = [] → r = None) ∧
       (["a"; "b"; "c"] ≠ [] → ∃ x : string, r = Some x ∧ x ∈ ["a"; "b"; "c"]).
Proof.
  apply (randomChoice_member ["a"; "b"; "c"] (start_world steady_env empty_db)).
  simpl. lia.
Defined.

(** ** The factory registry: [get] and [getMultiple] *)









(** ** The builder: every build, step by step *)

Lemma apply_overrides_app ovs1 ovs2 mb w :
  E2ETestSetup.apply_overrides mb (ovs1 ++ ovs2) w
  = match E2ETestSetup.apply_overrides mb ovs1 w with
    | (Returned mb1, w1) => E2ETestSetup.apply_overrides mb1 ovs2 w1
    | (Threw e, w1) => (Threw e, w1)
    end.
Proof.
  revert mb w. induction ovs1 as [|o ovs1 IH]; intros mb w; [done|].
  simpl. unfold_monad.
  destruct (E2ETestSetup.apply_override mb o w) as [[mb1|e] w1]; [|done].
  apply IH.
Qed.

Lemma configure_overrides (calls : list ConfigCall) (this : E2ETestSetup) :
  e2e_providerOverrides (configure calls this)
  = e2e_providerOverrides this ++ omap recorded calls.
Proof.
  revert this. induction calls as [|c calls IH]; intros this.
  - simpl. by rewrite app_nil_r.
  - rewrite configure_cons, IH.
    destruct c; simpl; rewrite <- ?app_assoc; try reflexivity;
      unfold E2ETestSetup.withImports, E2ETestSetup.withControllers,
        E2ETestSetup.withProviders; by destruct (e2e_useCustomModule this).
Qed.

(** Overrides are recorded whatever the composition mode and are never
    dropped or reordered by later configuration calls: after any chain of
    calls the list holds the earlier records followed by one record per
    override call, in call order, and a build that returns has installed
    them on the testing module in that order. *)
Theorem overrides_survive_configuration (calls : list ConfigCall) (this : E2ETestSetup) :
  let built := configure calls this in
  e2e_providerOverrides built = e2e_providerOverrides this ++ omap recorded calls ∧
  (∀ w st',
     E2ETestSetup.setupApp (built, w) = (Returned tt, st') →
     ∃ app, e2e_app st'.1 = Some app ∧
            tmb_overloads (app_module app)
            = omap installed (e2e_providerOverrides this ++ omap recorded calls) ∧
            e2e_providerOverrides st'.1 = e2e_providerOverrides built).
Proof.
  intros built. split; [apply configure_overrides|].
  intros w st'. rewrite setupApp_run. cbn zeta.
  destruct (E2ETestSetup.apply_overrides _ _ w) as [[mb|e] w1] eqn:Hloop; [|done].
  apply apply_overrides_spec in Hloop as [Hov _].
  unfold built in Hov. rewrite configure_overrides in Hov. simpl in Hov.
  destruct (nest_compile_fails (env w1) mb); [done|].
  destruct (nest_init_fails (env w1) mb); [done|].
  destruct (nest_provides_db (env w1) mb); intros [= <-];
    (eexists; split; [reflexivity|]); by split.
Qed.

(** A value override whose value is [undefined] installs nothing:
    the loop of the build treats [overrideProvider(token, undefined)] as if
    the call had not been made, while any other value, [null] included, is
    installed last as a value override for the token. *)
Theorem undefined_value_override_is_dropped
    (this : E2ETestSetup) (tok value : jsval) (w w1 : World)
    (moduleBuilder0 moduleBuilder : TestingModuleBuilder) :
  E2ETestSetup.apply_overrides moduleBuilder0 (e2e_providerOverrides this) w
    = (Returned moduleBuilder, w1) →
  E2ETestSetup.apply_overrides moduleBuilder0
    (e2e_providerOverrides (E2ETestSetup.overrideProvider tok value this)) w
  = (Returned (match value with
               | VUndefined => moduleBuilder
               | _ => overrideProvider_use tok (UseValue value) moduleBuilder
               end), w1).
Proof.
  intros Hloop. simpl. rewrite apply_overrides_app, Hloop.
  by destruct value.
Qed.

Lemma undefined_value_override_is_dropped_witness :
  let this := E2ETestSetup.overrideProvider (VClass "SchoolService") (VStr "stub")
                E2ETestSetup.new in
  let w := start_world steady_env empty_db in
  let moduleBuilder0 := Test_createTestingModule (mkMetadata [AppModule] [] []) in
  E2ETestSetup.apply_overrides moduleBuilder0
    (e2e_providerOverrides
       (E2ETestSetup.overrideProvider (VClass "TeacherService") VUndefined this)) w
  = (Returned (mkBuilder (mkMetadata [AppModule] [] [])
                 [(VClass "SchoolService", UseValue (VStr "stub"))]), w).
Proof.
  apply (undefined_value_override_is_dropped
           (E2ETestSetup.overrideProvider (VClass "SchoolService") (VStr "stub")
              E2ETestSetup.new)
           (VClass "TeacherService") VUndefined).
  reflexivity.
Defined.

(** A build that throws attaches nothing: the database handle, the
    registry, the server handle and the configuration of the object are
    what they were, and the tables are untouched.  The application of the
    object is what it was too, unless it is the initialisation that failed:
    then the object already holds the new, uninitialised application. *)
Theorem failed_build_attaches_nothing
    (this : E2ETestSetup) (w : World) (e : error) (st' : E2ETestSetup * World) :
  E2ETestSetup.setupApp (this, w) = (Threw e, st') →
  e2e_db st'.1 = e2e_db this ∧
  e2e_factories st'.1 = e2e_factories this ∧
  e2e_serverHttp st'.1 = e2e_serverHttp this ∧
  e2e_imports st'.1 = e2e_imports this ∧
  e2e_controllers st'.1 = e2e_controllers this ∧
  e2e_providers st'.1 = e2e_providers this ∧
  e2e_providerOverrides st'.1 = e2e_providerOverrides this ∧
  e2e_useCustomModule st'.1 = e2e_useCustomModule this ∧
  database st'.2 = database w ∧ requests st'.2 = requests w ∧
  ((e2e_app st'.1 = e2e_app this ∧ apps_created st'.2 = apps_created w ∧
    nest_events st'.2 = nest_events w) ∨
   (e = NestError "init" ∧
    ∃ app, e2e_app st'.1 = Some app ∧ app_id app = apps_created w ∧
           nest_events st'.2 = nest_events w ++ [Compiled (app_module app)])).
Proof.
  rewrite setupApp_run. cbn zeta.
  destruct (E2ETestSetup.apply_overrides _ _ w) as [[mb|e1] w1] eqn:Hloop.
  - apply apply_overrides_spec in Hloop as (_ & _ & _ & Hsame & Hcreated).
    destruct Hsame as (_ & Hdb & Hreq & _ & Hev).
    destruct (nest_compile_fails (env w1) mb).
    { intros [= <- <-]. repeat split; try done. by left. }
    destruct (nest_init_fails (env w1) mb).
    { intros [= <- <-]. repeat split; try done. right. split; [done|].
      eexists. split; [reflexivity|]. simpl. by rewrite Hev. }
    destruct (nest_provides_db (env w1) mb); discriminate.
  - intros [= <- <-]. simpl.
    apply apply_overrides_Threw in Hloop as (_ & _ & _ & _ & _ & _ & _ & Hsame & Hc).
    destruct Hsame as (_ & Hdb & Hreq & _ & Hev).
    repeat split; try done. by left.
Qed.

Lemma failed_build_attaches_nothing_witness :
  let this := E2ETestSetup.overrideProviderWithFactory (VClass "SchoolService")
                throwingFactory None E2ETestSetup.new in
  let w := start_world steady_env empty_db in
  let st' := (E2ETestSetup.setupApp (this, w)).2 in
  e2e_db st'.1 = e2e_db this ∧
  e2e_factories st'.1 = e2e_factories this ∧
  e2e_serverHttp st'.1 = e2e_serverHttp this ∧
  e2e_imports st'.1 = e2e_imports this ∧
  e2e_controllers st'.1 = e2e_controllers this ∧
  e2e_providers st'.1 = e2e_providers this ∧
  e2e_providerOverrides st'.1 = e2e_providerOverrides this ∧
  e2e_useCustomModule st'.1 = e2e_useCustomModule this ∧
  database st'.2 = database w ∧ requests st'.2 = requests w ∧
  ((e2e_app st'.1 = e2e_app this ∧ apps_created st'.2 = apps_created w ∧
    nest_events st'.2 = nest_events w) ∨
   (CallbackError "factory failed" = NestError "init" ∧
    ∃ app, e2e_app st'.1 = Some app ∧ app_id app = apps_created w ∧
           nest_events st'.2 = nest_events w ++ [Compiled (app_module app)])).
Proof.
  intros this w st'.
  apply (failed_build_attaches_nothing this w (CallbackError "factory failed") st').
  reflexivity.
Defined.

(** ** The builder: building twice, and the registry of a build *)

Lemma Factory_cleanup_returns (factory : Factory) (w : World) :
  ∃ w', Factory_cleanup factory w = (Returned tt, w') ∧ same_surroundings w w'.
Proof.
  destruct factory; simpl.
  - destruct (SchoolFactory_cleanup_returns w) as (w' & tr & Hrun & (_ & _ & Hs) & _).
    by exists w'.
  - destruct (TeacherFactory_cleanup_returns w) as (w' & tr & Hrun & (_ & _ & Hs) & _).
    by exists w'.
Qed.

(** The registry cleanup returns whatever the registry holds. *)
Lemma registry_cleanup_returns (reg : TestFactories) (w : World) :
  ∃ w', TestFactories.cleanup reg w = (Returned tt, w') ∧ same_surroundings w w'.
Proof.
  unfold TestFactories.cleanup, db_execute, db_call, console_warn. unfold_monad.
  destruct (db_fault (env w) (length (requests w))).
  - simpl. unfold_monad.
    set (w0 := add_console _ _).
    assert (same_surroundings w w0) as H0 by by repeat split.
    assert (∀ k w1, same_surroundings w w1 →
              ∃ w2, match tf_factories reg !! k with
                    | Some factory => Factory_cleanup factory
                    | None => λ s, (Returned tt, s)
                    end w1 = (Returned tt, w2) ∧ same_surroundings w w2) as Hturn.
    { intros k w1 H1. destruct (tf_factories reg !! k) as [f|].
      - destruct (Factory_cleanup_returns f w1) as (w2 & Hrun & H2).
        exists w2. split; [done|]. by eapply same_surroundings_trans.
      - by exists w1. }
    destruct (Hturn "teacher" w0 H0) as (w1 & -> & H1).
    destruct (Hturn "school" w1 H1) as (w2 & -> & H2).
    by exists w2.
  - eexists. split; [reflexivity|]. by repeat split.
Qed.

Lemma close_attempts_same (id : nat) (w w' : World) :
  nest_events w' = nest_events w → close_attempts id w' = close_attempts id w.
Proof. unfold close_attempts. by intros ->. Qed.

Lemma close_attempts_other (app : INestApplication) (id : nat) (w : World) :
  id ≠ app_id app →
  close_attempts id (app_close app w).2 = close_attempts id w.
Proof.
  intros Hid. unfold close_attempts, app_close.
  destruct (nest_close_fails _ _); simpl;
    rewrite List.filter_app, length_app; simpl;
    rewrite bool_decide_false by done; simpl; lia.
Qed.

(** A build that returns, with the application it created. *)
Lemma setupApp_Returned (this : E2ETestSetup) (w : World) (st' : E2ETestSetup * World) :
  E2ETestSetup.setupApp (this, w) = (Returned tt, st') →
  ∃ app, e2e_app st'.1 = Some app ∧
         app_id app = apps_created w ∧
         apps_created st'.2 = S (apps_created w) ∧
         env st'.2 = env w ∧
         (nest_provides_db (env w) (app_module app) = true →
            e2e_db st'.1 = Some (Connection (app_id app)) ∧
            e2e_factories st'.1 = Some (TestFactories.new (Connection (app_id app)))) ∧
         (nest_provides_db (env w) (app_module app) = false →
            e2e_db st'.1 = e2e_db this ∧ e2e_factories st'.1 = e2e_factories this).
Proof.
  rewrite setupApp_run. cbn zeta.
  destruct (E2ETestSetup.apply_overrides _ _ w) as [[mb|e1] w1] eqn:Hloop; [|done].
  apply apply_overrides_spec in Hloop as (_ & _ & _ & Hsame & Hcreated).
  destruct Hsame as (Henv & _).
  destruct (nest_compile_fails (env w1) mb); [done|].
  destruct (nest_init_fails (env w1) mb); [done|].
  rewrite <- Henv.
  destruct (nest_provides_db (env w1) mb) eqn:Hdb; intros [= <-];
    (eexists; split; [reflexivity|]); simpl; rewrite Hdb, Hcreated;
    repeat split; try done.
Qed.

(** A second build does not shut the first application down: it puts
    a new application in its place, and a teardown after it makes one
    shutdown attempt, on the new application, and none on any other; the
    application of the first build is never closed through this object. *)
Theorem rebuild_replaces_application
    (this : E2ETestSetup) (w : World) (st1 st2 : E2ETestSetup * World) :
  E2ETestSetup.setupApp (this, w) = (Returned tt, st1) →
  E2ETestSetup.setupApp st1 = (Returned tt, st2) →
  ∃ app1 app2,
    e2e_app st1.1 = Some app1 ∧ e2e_app st2.1 = Some app2 ∧
    app_id app2 = S (app_id app1) ∧
    close_attempts (app_id app1) st2.2 = close_attempts (app_id app1) w ∧
    close_attempts (app_id app2) (E2ETestSetup.teardown st2.1 st2.2).2
      = S (close_attempts (app_id app2) st2.2) ∧
    (∀ id, id ≠ app_id app2 →
       close_attempts id (E2ETestSetup.teardown st2.1 st2.2).2
       = close_attempts id st2.2).
Proof.
  intros H1 H2.
  assert (∀ id this w st', E2ETestSetup.setupApp (this, w) = (Returned tt, st') →
            close_attempts id st'.2 = close_attempts id w) as Hkeeps.
  { clear. intros id this w st'. rewrite setupApp_run. cbn zeta.
    destruct (E2ETestSetup.apply_overrides _ _ w) as [[mb|e1] w1] eqn:Hloop; [|done].
    apply apply_overrides_spec in Hloop as (_ & _ & _ & (_ & _ & _ & _ & Hev) & _).
    destruct (nest_compile_fails (env w1) mb); [done|].
    destruct (nest_init_fails (env w1) mb); [done|].
    destruct (nest_provides_db (env w1) mb); intros [= <-];
      unfold close_attempts; simpl;
      rewrite !List.filter_app; simpl; by rewrite !app_nil_r, Hev. }
  pose proof (λ id, Hkeeps id _ _ _ H1) as K1.
  destruct st1 as [this1 w1].
  pose proof (λ id, Hkeeps id _ _ _ H2) as K2.
  apply setupApp_Returned in H1 as (app1 & Happ1 & Hid1 & Hc1 & _).
  apply setupApp_Returned in H2 as (app2 & Happ2 & Hid2 & Hc2 & _).
  simpl in *. exists app1, app2.
  split; [done|]. split; [done|]. split; [congruence|].
  split; [by rewrite K2, K1|].
  unfold E2ETestSetup.teardown, E2ETestSetup.cleanup. unfold_monad. rewrite Happ2.
  assert (∃ w', match e2e_factories st2.1 with
                | Some factories => TestFactories.cleanup factories
                | None => λ s, (Returned tt, s)
                end st2.2 = (Returned tt, w') ∧ nest_events w' = nest_events st2.2)
    as (w' & -> & Hev).
  { destruct (e2e_factories st2.1) as [reg|].
    - destruct (registry_cleanup_returns reg st2.2) as (w' & Hrun & _ & Hev & _).
      by exists w'.
    - by eexists. }
  split.
  - rewrite close_attempts_app_close. f_equal. by apply close_attempts_same.
  - intros id Hid. rewrite close_attempts_other by done. by apply close_attempts_same.
Qed.

Lemma rebuild_replaces_application_witness :
  let w := start_world steady_env empty_db in
  let st1 := (E2ETestSetup.setupApp (E2ETestSetup.new, w)).2 in
  let st2 := (E2ETestSetup.setupApp st1).2 in
  ∃ app1 app2,
    e2e_app st1.1 = Some app1 ∧ e2e_app st2.1 = Some app2 ∧
    app_id app2 = S (app_id app1) ∧
    close_attempts (app_id app1) st2.2 = close_attempts (app_id app1) w ∧
    close_attempts (app_id app2) (E2ETestSetup.teardown st2.1 st2.2).2
      = S (close_attempts (app_id app2) st2.2) ∧
    (∀ id, id ≠ app_id app2 →
       close_attempts id (E2ETestSetup.teardown st2.1 st2.2).2
       = close_attempts id st2.2).
Proof.
  intros w st1 st2.
  apply (rebuild_replaces_application E2ETestSetup.new w st1 st2); reflexivity.
Defined.

(** *** The registry is bound to the handle of the object *)










(** ** What a factory cleanup reaches *)

(** [TeacherFactory.cleanup] never touches the schools table or its
    sequence.  [SchoolFactory.cleanup] empties both tables and restarts both
    sequences when its TRUNCATE ... CASCADE goes through; when that
    statement is rejected, its fallback never touches the teachers, and
    while a teacher still references a school the fallback cannot delete
    the schools either: the database is left as it was and the failure of
    the fallback is logged. *)
Theorem factory_cleanup_reach (w : World) :
  let wt := (TeacherFactory.cleanup w).2 in
  let ws := (SchoolFactory.cleanup w).2 in
  schools (database wt) = schools (database w) ∧
  schools_id_seq (database wt) = schools_id_seq (database w) ∧
  (db_fault (env w) (length (requests w)) = false →
     database ws = empty_db ∧
     teachers (database wt) = [] ∧ teachers_id_seq (database wt) = 1) ∧
  (db_fault (env w) (length (requests w)) = true →
     teachers (database ws) = teachers (database w) ∧
     teachers_id_seq (database ws) = teachers_id_seq (database w) ∧
     (existsb (references_school (database w)) (teachers (database w)) = true →
        database ws = database w ∧
        ∃ e, console_warn_error "Fallback cleanup also failed:" e
             ∈ console_since w ws)).
Proof.
  intros wt ws. subst wt ws.
  unfold TeacherFactory.cleanup, SchoolFactory.cleanup,
    db_execute, db_delete, db_call, console_warn.
  unfold_monad. cbn.
  destruct (db_fault (env w) (length (requests w))) eqn:Hfault; cbn.
  - rewrite !length_app. cbn.
    split; [|split; [|split; [done|intros _]]].
    + repeat match goal with
             | |- context [if ?b then _ else _] => destruct b eqn:?; cbn
             end; done.
    + repeat match goal with
             | |- context [if ?b then _ else _] => destruct b eqn:?; cbn
             end; done.
    + split; [|split].
      * repeat match goal with
               | |- context [if ?b then _ else _] => destruct b eqn:?; cbn
               end; done.
      * repeat match goal with
               | |- context [if ?b then _ else _] => destruct b eqn:?; cbn
               end; done.
      * intros Href. rewrite Href.
        destruct (db_fault (env w) (length (requests w) + 1)); cbn;
          (split; [done|]); eexists; unfold console_since; cbn;
          rewrite <- ?app_assoc, drop_app_length; cbn;
          apply list_elem_of_further, list_elem_of_here.
  - split; [done|]. split; [done|]. split; [done|]. done.
Qed.

(** ** Generated email addresses *)

(** [generateEmail] does not use the unique counter: the address is the
    prefix (or "test" for an absent or empty prefix), the clock reading, at
    most five characters of the random draw in base 36 and "@example.com",
    and the counter is left alone.  Two calls that meet the same clock
    reading and the same draw therefore return the same address. *)
Theorem generateEmail_ignores_the_counter (prefix : option string) (w1 w2 : World) :
  env w2 = env w1 →
  clock (env w1) (ticks w2) = clock (env w1) (ticks w1) →
  entropy (env w1) (draws w2) = entropy (env w1) (draws w1) →
  (TestDataGenerator.generateEmail prefix w2).1
    = (TestDataGenerator.generateEmail prefix w1).1 ∧
  counter (TestDataGenerator.generateEmail prefix w1).2 = counter w1 ∧
  ∃ token,
    (String.length token ≤ 5)%nat ∧
    (TestDataGenerator.generateEmail prefix w1).1
    = Returned (match prefix with
                | Some p => if decide (p = "") then "test" else p
                | None => "test"
                end +:+ (pretty (clock (env w1) (ticks w1)) +:+ token)
                    +:+ "@example.com").
Proof.
  intros Henv Hclock Hdraw.
  unfold TestDataGenerator.generateEmail, TestDataGenerator.getTimestampId,
    Date_now, Math_random.
  unfold_monad. cbn -[pretty Z.pow Z.modulo String.app String.substring].
  rewrite Henv, Hclock, Hdraw. split; [done|]. split; [done|].
  eexists. split; [|reflexivity]. apply substring_length.
Qed.

Lemma generateEmail_ignores_the_counter_witness :
  let w1 := start_world steady_env empty_db in
  let w2 := (TestDataGenerator.generateName None
               (TestDataGenerator.generateEmail (Some "school") w1).2).2 in
  (TestDataGenerator.generateEmail (Some "school") w2).1
    = (TestDataGenerator.generateEmail (Some "school") w1).1 ∧
  counter (TestDataGenerator.generateEmail (Some "school") w1).2 = counter w1 ∧
  ∃ token,
    (String.length token ≤ 5)%nat ∧
    (TestDataGenerator.generateEmail (Some "school") w1).1
    = Returned ("school" +:+ (pretty (clock (env w1) (ticks w1)) +:+ token)
                         +:+ "@example.com").
Proof.
  intros w1 w2.
  apply (generateEmail_ignores_the_counter (Some "school") w1 w2); reflexivity.
Defined.

(** ** [create]: the row or nothing *)


Lemma TeacherFactory_create_Threw overrides w e w' :
  TeacherFactory.create overrides w = (Threw e, w') →
  schools (database w') = schools (database w) ∧
  teachers (database w') = teachers (database w).
Proof.
  unfold TeacherFactory.create. unfold_monad.
  rewrite TeacherFactory_create_data_run.
  destruct (insert_teachers_returning _ _) as [[rows|e1] w2] eqn:Hcall; [done|].
  intros [= <- <-]. unfold insert_teachers_returning in Hcall.
  by apply insert_returning_Threw in Hcall as (Hs & Ht & _).
Qed.


(** ** Batches are all or nothing *)

(** A [createMany] that throws has inserted nothing: both tables hold what
    they held before the call.  Either the batch was refused for its size
    before anything was sent, or the log shows the one insert request,
    carrying [count] payloads, as failed. *)
Theorem createMany_all_or_nothing (count : Z) (overrides : option jsobj) (w : World) :
  (∀ e w',
     SchoolFactory.createMany count overrides w = (Threw e, w') →
     schools (database w') = schools (database w) ∧
     teachers (database w') = teachers (database w) ∧
     ((2 ^ 32 - 1 < count ∧ requests w' = requests w) ∨
      ∃ payloads, length payloads = Z.to_nat count ∧
                  requests w' = requests w ++ [(InsertSchools payloads, false)])) ∧
  (∀ e w',
     TeacherFactory.createMany count overrides w = (Threw e, w') →
     schools (database w') = schools (database w) ∧
     teachers (database w') = teachers (database w) ∧
     ((2 ^ 32 - 1 < count ∧ requests w' = requests w) ∨
      ∃ payloads, length payloads = Z.to_nat count ∧
                  requests w' = requests w ++ [(InsertTeachers payloads, false)])).
Proof.
  split; intros e w'.
  - unfold SchoolFactory.createMany. unfold_monad.
    destruct (decide (count ≤ 2 ^ 32 - 1)) as [Hcount|Hcount].
    + destruct (SchoolFactory_createMany_data_run count overrides w Hcount)
        as (payloads & w1 & -> & (_ & Hd & Hr & _) & Hlen & _).
      unfold insert_schools_returning.
      intros (Hs & Ht & Hreq & _)%insert_returning_Threw.
      rewrite Hs, Ht, Hreq, Hd, Hr. eauto 10.
    + unfold SchoolFactory.createMany_data. rewrite Array_from_range by lia.
      intros [= <- <-]. split; [done|]. split; [done|]. left. split; [lia|done].
  - unfold TeacherFactory.createMany. unfold_monad.
    destruct (decide (count ≤ 2 ^ 32 - 1)) as [Hcount|Hcount].
    + destruct (TeacherFactory_createMany_data_run count overrides w Hcount)
        as (payloads & w1 & -> & (_ & Hd & Hr & _) & Hlen & _).
      unfold insert_teachers_returning.
      intros (Hs & Ht & Hreq & _)%insert_returning_Threw.
      rewrite Hs, Ht, Hreq, Hd, Hr. eauto 10.
    + unfold TeacherFactory.createMany_data. rewrite Array_from_range by lia.
      intros [= <- <-]. split; [done|]. split; [done|]. left. split; [lia|done].
Qed.

(** ** Email addresses that collide *)

Lemma teacher_matches_email data row mail :
  teacher_matches data row → data !! "email" = Some (VStr mail) →
  teacher_email row = mail.
Proof.
  intros Hm Hk.
  pose proof (teacher_matches_text _ _ "email" _ Hm Hk ltac:(by eexists)) as [= H].
  done.
Qed.

Lemma teacher_overrides_lookup overrides k :
  k ≠ "school" → k ≠ "schoolId" →
  teacher_overrides overrides !! k = default ∅ overrides !! k.
Proof.
  intros ? ?. unfold teacher_overrides.
  by rewrite assign_schoolId_lookup_ne, lookup_delete_ne.
Qed.

(** The rows of one insert into [teachers] carry addresses that are new to
    the table and differ from each other. *)
Lemma insert_teachers_emails now values d rows d' :
  insert_rows (insert_teacher now) values d = (Some rows, d') →
  Forall (λ row, teacher_email row ∉ teacher_email <$> teachers d) rows ∧
  NoDup (teacher_email <$> rows).
Proof.
  revert d rows d'. induction values as [|o values IH]; intros d rows d'; simpl.
  - intros [= <- <-]. split; constructor.
  - destruct (insert_teacher now o d) as [[row|] d1] eqn:Hins; [|done].
    destruct (insert_rows _ values d1) as [[rows1|] d2] eqn:Hrest; [|done].
    intros [= <- <-].
    apply insert_teacher_Some in Hins as (_ & _ & _ & _ & Hfresh & Ht & _).
    apply IH in Hrest as [Hnew Hnd]. rewrite Ht, fmap_app in Hnew. split.
    + constructor; [done|]. eapply Forall_impl; [exact Hnew|]. simpl.
      intros r Hr Hin. apply Hr, elem_of_app. by left.
    + simpl. constructor; [|done].
      intros (r & Hr & Hin)%list_elem_of_fmap.
      rewrite Forall_forall in Hnew. apply (Hnew r Hin), elem_of_app. right.
      rewrite <- Hr. apply list_elem_of_here.
Qed.

Lemma createMany_teachers_emails count overrides w rows w' :
  TeacherFactory.createMany count overrides w = (Returned rows, w') →
  Forall (λ row, teacher_email row ∉ teacher_email <$> teachers (database w)) rows ∧
  NoDup (teacher_email <$> rows).
Proof.
  unfold TeacherFactory.createMany. unfold_monad.
  destruct (TeacherFactory.createMany_data _ _ w) as [[payloads|?] w1] eqn:Hdata;
    [|done].
  pose proof Hdata as [Hcount _]%Array_from_Returned.
  destruct (TeacherFactory_createMany_data_run count overrides w Hcount)
    as (payloads' & w1' & Hdata' & (_ & Hd & _) & _).
  rewrite Hdata in Hdata'. injection Hdata' as <- <-.
  unfold insert_teachers_returning.
  intros (_ & d' & Hins & ->)%db_call_Returned.
  apply transaction_insert_Some in Hins as (_ & _ & Hins & _).
  apply insert_teachers_emails in Hins. by rewrite Hd in Hins.
Qed.

(** [TeacherFactory.createMany] cannot be given one email address for a
    batch of two or more: the override replaces the indexed address in
    every payload, the second row violates [teachers_email_unique], the
    call throws and no teacher of the batch is stored. *)
Theorem teacher_createMany_shared_email_fails
    (count : Z) (overrides : jsobj) (mail : string) (w : World) :
  2 ≤ count →
  overrides !! "email" = Some (VStr mail) →
  ∃ e w', TeacherFactory.createMany count (Some overrides) w = (Threw e, w') ∧
          teachers (database w') = teachers (database w) ∧
          schools (database w') = schools (database w).
Proof.
  intros Hcount Hmail.
  destruct (TeacherFactory.createMany count (Some overrides) w) as [[rows|e] w']
    eqn:Hrun.
  - exfalso.
    pose proof (createMany_teachers_emails _ _ _ _ _ Hrun) as [_ Hnd].
    apply TeacherFactory_createMany_Returned in Hrun as (_ & Hlen & _ & _ & Ha & _).
    destruct rows as [|r1 [|r2 rows]]; [simpl in Hlen; lia..|].
    assert (∀ r, r ∈ r1 :: r2 :: rows → teacher_email r = mail) as Hall.
    { intros r Hr. rewrite Forall_forall in Ha. specialize (Ha r Hr "email" (VStr mail)).
      rewrite teacher_overrides_lookup in Ha by done.
      by injection (Ha Hmail ltac:(done) ltac:(by eexists)). }
    simpl in Hnd. apply NoDup_cons in Hnd as [Hnd _]. apply Hnd.
    rewrite (Hall r1), <- (Hall r2);
      [apply list_elem_of_here
      |apply list_elem_of_further, list_elem_of_here|apply list_elem_of_here].
  - exists e, w'. split; [done|].
    destruct (createMany_all_or_nothing count (Some overrides) w) as [_ H].
    by destruct (H e w' Hrun) as (Hs & Ht & _).
Qed.

Lemma teacher_createMany_shared_email_fails_witness :
  let w := start_world steady_env empty_db in
  let overrides : jsobj := {[ "email" := VStr "staff@test.com" ]} in
  ∃ e w', TeacherFactory.createMany 2 (Some overrides) w = (Threw e, w') ∧
          teachers (database w') = teachers (database w) ∧
          schools (database w') = schools (database w).
Proof.
  apply (teacher_createMany_shared_email_fails 2
           {[ "email" := VStr "staff@test.com" ]} "staff@test.com"
           (start_world steady_env empty_db)).
  - lia.
  - reflexivity.
Defined.

Lemma teacher_create_payload_email overrides e tick :
  default ∅ overrides !! "email" = None →
  teacher_create_payload overrides e tick !! "email"
  = Some (VStr ("teacher" +:+ pretty (clock e (S tick)) +:+ "@test.com")).
Proof.
  intros Hno. unfold teacher_create_payload. cbv zeta.
  rewrite assign_schoolId_lookup_ne by done.
  rewrite lookup_union_r by (by rewrite lookup_delete_ne).
  unfold teacher_defaults.
  rewrite !lookup_insert_ne by done. by rewrite lookup_insert_eq.
Qed.

(** The default email address of [TeacherFactory.create] is made of the
    clock reading alone, so two calls that read the same millisecond
    collide: when the first call has stored its row and the second call
    reads the clock value the first one used for its address, the second
    call throws ([teachers_email_unique]) and stores nothing. *)
Theorem teacher_create_same_millisecond_collides
    (w : World) (row : Teacher) (w1 : World) :
  TeacherFactory.create None w = (Returned (Some row), w1) →
  clock (env w) (S (S (S (ticks w)))) = clock (env w) (S (ticks w)) →
  ∃ e w2, TeacherFactory.create None w1 = (Threw e, w2) ∧
          teachers (database w2) = teachers (database w1) ∧
          row ∈ teachers (database w1).
Proof.
  intros Hfirst Hclock.
  assert (env w1 = env w ∧ ticks w1 = S (S (ticks w))) as [Henv Hticks].
  { revert Hfirst. unfold TeacherFactory.create. unfold_monad.
    rewrite TeacherFactory_create_data_run.
    destruct (insert_teachers_returning _ _) as [[rows|e1] w2] eqn:Hcall; [|done].
    intros [= _ <-].
    apply insert_teachers_returning_Returned in Hcall
      as (_ & _ & _ & _ & _ & _ & _ & (He & _ & _ & _ & Ht & _) & _).
    by rewrite He, Ht. }
  apply TeacherFactory_create_Returned in Hfirst
    as (row1 & [= <-] & Hm1 & Ht1 & _).
  pose proof (teacher_matches_email _ _ _ Hm1
                (teacher_create_payload_email None _ _ eq_refl)) as Hmail1.
  assert (row ∈ teachers (database w1)) as Hin
    by (rewrite Ht1; apply elem_of_app; right; apply list_elem_of_here).
  destruct (TeacherFactory.create None w1) as [[r|e] w2] eqn:Hsecond.
  - exfalso. pose proof Hsecond as Hid.
    apply TeacherFactory_create_Returned in Hsecond
      as (row2 & -> & Hm2 & Ht2 & _).
    pose proof (teacher_matches_email _ _ _ Hm2
                  (teacher_create_payload_email None _ _ eq_refl)) as Hmail2.
    rewrite Henv, Hticks, Hclock, <- Hmail1 in Hmail2.
    revert Hid. unfold TeacherFactory.create. unfold_monad.
    rewrite TeacherFactory_create_data_run.
    destruct (insert_teachers_returning _ _) as [[rows|e1] w3] eqn:Hcall; [|done].
    intros [= Hhead <-].
    apply insert_teachers_returning_single in Hcall as (r & now & -> & Hins).
    injection Hhead as ->.
    apply insert_teacher_Some in Hins as (_ & _ & _ & _ & Hfresh & _).
    apply Hfresh. simpl. rewrite Hmail2. by apply list_elem_of_fmap_2.
  - exists e, w2. split; [done|]. split; [|done].
    by apply TeacherFactory_create_Threw in Hsecond as [_ ?].
Qed.

Lemma teacher_create_same_millisecond_collides_witness :
  let w := start_world steady_env empty_db in
  let row := mkTeacher 1 "Teacher1700000000000" "Doe" "teacher1700000000000@test.com"
               (Some "+1234567890") (Some "Mathematics") None
               1700000000000 1700000000000 in
  let w1 := (TeacherFactory.create None w).2 in
  ∃ e w2, TeacherFactory.create None w1 = (Threw e, w2) ∧
          teachers (database w2) = teachers (database w1) ∧
          row ∈ teachers (database w1).
Proof.
  intros w row w1.
  apply (teacher_create_same_millisecond_collides w row w1).
  - apply run_with_state. vm_compute. reflexivity.
  - reflexivity.
Defined.

(** ** A teacher for a school that does not exist *)

(** [TeacherFactory.create] with a [schoolId] that no row of the schools
    table carries, and no [school] entity, throws: the insert violates the
    foreign key of [teachers.school_id], and no teacher is stored. *)
Theorem teacher_create_unknown_school_fails
    (overrides : jsobj) (schoolId : Z) (w : World) :
  overrides !! "school" = None →
  overrides !! "schoolId" = Some (VNum schoolId) →
  (schoolId ∉ school_id <$> schools (database w)) →
  ∃ e w', TeacherFactory.create (Some overrides) w = (Threw e, w') ∧
          teachers (database w') = teachers (database w) ∧
          schools (database w') = schools (database w).
Proof.
  intros Hschool Hid Hmissing.
  destruct (TeacherFactory.create (Some overrides) w) as [[r|e] w'] eqn:Hrun.
  - exfalso.
    apply TeacherFactory_create_Returned in Hrun
      as (row & -> & Hm & _ & Hs & Hfk & _).
    assert (teacher_create_payload (Some overrides) (env w) (ticks w) !! "schoolId"
            = Some (VNum schoolId)) as Hpay.
    { unfold teacher_create_payload. cbv zeta.
      change (default ∅ (Some overrides)) with overrides. rewrite Hschool.
      cbn [school_of assign_schoolId].
      by rewrite (lookup_union_Some_l _ _ _ (VNum schoolId))
        by by rewrite lookup_delete_ne. }
    pose proof (teacher_matches_schoolId _ _ _ Hm Hpay ltac:(done)) as Hsid.
    unfold foreign_key_holds in Hfk.
    destruct (teacher_schoolId row) as [s|]; [|done].
    injection Hsid as ->. apply bool_decide_eq_true_1 in Hfk.
    by rewrite Hs in Hfk.
  - exists e, w'. split; [done|].
    by apply TeacherFactory_create_Threw in Hrun as [? ?].
Qed.

Lemma teacher_create_unknown_school_fails_witness :
  let w := start_world steady_env two_schools_db in
  let overrides : jsobj := {[ "schoolId" := VNum 3 ]} in
  ∃ e w', TeacherFactory.create (Some overrides) w = (Threw e, w') ∧
          teachers (database w') = teachers (database w) ∧
          schools (database w') = schools (database w).
Proof.
  apply (teacher_create_unknown_school_fails {[ "schoolId" := VNum 3 ]} 3
           (start_world steady_env two_schools_db)).
  - reflexivity.
  - reflexivity.
  - simpl. intros [?|[?|?]%elem_of_cons]%elem_of_cons; [done..|].
    by apply not_elem_of_nil in H.
Defined.

(** ** A teacher for a school with a non-zero identifier *)

(** For a School entity whose identifier is not 0, [TeacherFactory.create]
    persists a row whose foreign key is that identifier, whatever [schoolId]
    the overrides carry, and the payload it inserts holds the identifier
    and no [school] key. *)
Theorem teacher_create_takes_school_identifier
    (overrides : jsobj) (s : School) (w : World) (r : option Teacher) (w' : World) :
  overrides !! "school" = Some (VSchool s) →
  school_id s ≠ 0 →
  TeacherFactory.create (Some overrides) w = (Returned r, w') →
  ∃ row data,
    r = Some row ∧
    teacher_schoolId row = Some (school_id s) ∧
    row ∈ teachers (database w') ∧
    last (requests w') = Some (InsertTeachers [data], true) ∧
    data !! "school" = None ∧
    data !! "schoolId" = Some (VNum (school_id s)).
Proof.
  intros Hschool Hid Hrun.
  apply TeacherFactory_create_Returned in Hrun as (row & -> & Hm & Ht & _ & _ & Hreq).
  set (data := teacher_create_payload _ _ _) in *.
  assert (data !! "schoolId" = Some (VNum (school_id s))) as Hsid.
  { unfold data, teacher_create_payload. simpl. rewrite Hschool. simpl.
    rewrite decide_False by done. apply lookup_insert_eq. }
  exists row, data. split; [done|]. split.
  { pose proof (teacher_matches_schoolId _ _ _ Hm Hsid ltac:(done)) as H.
    by destruct (teacher_schoolId row); simplify_eq/=. }
  split; [rewrite Ht; apply elem_of_app; right; apply list_elem_of_here|].
  split; [by rewrite Hreq, last_snoc|].
  split; [apply teacher_create_payload_no_school|done].
Qed.

Lemma teacher_create_takes_school_identifier_witness :
  let w := start_world steady_env two_schools_db in
  let overrides : jsobj :=
    {[ "school" := VSchool school_seven; "schoolId" := VNum 0 ]} in
  let run := TeacherFactory.create (Some overrides) w in
  run.1 = Returned (Some (mkTeacher 1 "Teacher1700000000000" "Doe"
                            "teacher1700000000000@test.com" (Some "+1234567890")
                            (Some "Mathematics") (Some 7) 1700000000000 1700000000000)) ∧
  ∃ row data,
    Some (mkTeacher 1 "Teacher1700000000000" "Doe"
            "teacher1700000000000@test.com" (Some "+1234567890")
            (Some "Mathematics") (Some 7) 1700000000000 1700000000000) = Some row ∧
    teacher_schoolId row = Some (school_id school_seven) ∧
    row ∈ teachers (database run.2) ∧
    last (requests run.2) = Some (InsertTeachers [data], true) ∧
    data !! "school" = None ∧
    data !! "schoolId" = Some (VNum (school_id school_seven)).
Proof.
  cbv zeta.
  assert ((TeacherFactory.create
             (Some {[ "school" := VSchool school_seven; "schoolId" := VNum 0 ]})
             (start_world steady_env two_schools_db)).1
          = Returned (Some (mkTeacher 1 "Teacher1700000000000" "Doe"
                              "teacher1700000000000@test.com" (Some "+1234567890")
                              (Some "Mathematics") (Some 7)
                              1700000000000 1700000000000))) as Hrun
    by (vm_compute; reflexivity).
  split; [exact Hrun|].
  apply (teacher_create_takes_school_identifier
           {[ "school" := VSchool school_seven; "schoolId" := VNum 0 ]}
           school_seven (start_world steady_env two_schools_db)).
  - reflexivity.
  - discriminate.
  - by apply run_with_state.
Defined.

(** ** Objects that never resolved a database handle *)

(** On every builder object, whatever was called on it before, the
    database handle and the factory registry are present or absent
    together; a build in which the framework resolves no
    'DATABASE_CONNECTION' leaves both as they were; and while the object
    holds no database handle, every [getFactory(factoryType)] fails with
    the FactoriesUnavailable error and returns no factory. *)
Theorem getFactory_fails_without_database_handle (calls : list Call) (w0 : World) :
  let st := script calls (E2ETestSetup.new, w0) in
  (e2e_db st.1 = None ↔ e2e_factories st.1 = None) ∧
  (∀ st' app,
     E2ETestSetup.setupApp st = (Returned tt, st') →
     e2e_app st'.1 = Some app →
     nest_provides_db (env st.2) (app_module app) = false →
     e2e_db st'.1 = e2e_db st.1 ∧ e2e_factories st'.1 = e2e_factories st.1) ∧
  (e2e_db st.1 = None →
   ∀ factoryType,
     E2ETestSetup.getFactory factoryType st.1
     = (Threw E2ETestSetup.FactoriesUnavailable, st.1)).
Proof.
  intros st.
  assert (context_ok st.1) as [Hboth _].
  { apply script_context, context_ok_new. }
  split; [done|]. split.
  - destruct st as [this w]. simpl. intros st' app Hsetup Happ Hnodb.
    apply setupApp_Returned in Hsetup as (app' & Happ' & _ & _ & _ & _ & Hkeep).
    apply Hkeep. congruence.
  - intros Hdb factoryType. apply Hboth in Hdb.
    unfold E2ETestSetup.getFactory. by rewrite Hdb.
Qed.

(** ** [E2ETestSetup.cleanup] *)

(** [cleanup()] on the builder object never raises, in any state of the
    object, and never touches the application.  Without a registry it does
    nothing at all; with one, a bulk TRUNCATE that the database accepts is
    the only request it sends and leaves both tables empty. *)
Theorem context_cleanup_never_raises (this : E2ETestSetup) (w : World) :
  ∃ w', E2ETestSetup.cleanup this w = (Returned tt, w') ∧
    same_surroundings w w' ∧
    (e2e_factories this = None → w' = w) ∧
    (is_Some (e2e_factories this) →
       ∃ bulk_ok rest,
         requests w' = requests w ++ (Execute TRUNCATE_teachers_schools, bulk_ok) :: rest ∧
         (bulk_ok = negb (db_fault (env w) (length (requests w)))) ∧
         (bulk_ok = true → rest = [] ∧ database w' = empty_db ∧ console w' = console w)).
Proof.
  unfold E2ETestSetup.cleanup.
  destruct (e2e_factories this) as [reg|].
  - destruct (registry_cleanup_returns reg w) as (w' & Hrun & Hsame).
    exists w'. split; [done|]. split; [done|]. split; [done|]. intros _.
    revert Hrun.
    unfold TestFactories.cleanup, db_execute, db_call, console_warn. unfold_monad.
    destruct (db_fault (env w) (length (requests w))) eqn:Hfault.
    + simpl. unfold_monad.
      set (w0 := add_console _ _).
      assert (∀ k w1, ∃ w2 tr,
                match tf_factories reg !! k with
                | Some factory => Factory_cleanup factory
                | None => λ s, (Returned tt, s)
                end w1 = (Returned tt, w2) ∧ logged_run w1 w2 tr) as Hturn.
      { intros k w1. destruct (tf_factories reg !! k) as [[]|]; simpl.
        - destruct (SchoolFactory_cleanup_returns w1) as (w2 & tr & ? & ? & _); eauto.
        - destruct (TeacherFactory_cleanup_returns w1) as (w2 & tr & ? & ? & _); eauto.
        - exists w1, []. split; [done|]. apply logged_run_refl. }
      destruct (Hturn "teacher" w0) as (w1 & tr1 & -> & (Hr1 & _)).
      destruct (Hturn "school" w1) as (w2 & tr2 & -> & (Hr2 & _)).
      intros [= <-]. exists false, (tr1 ++ tr2).
      split; [|split; [done|done]].
      rewrite Hr2, Hr1. simpl. by rewrite <- !app_assoc.
    + intros [= <-]. exists true, []. by repeat split.
  - exists w. split; [done|]. split; [apply same_surroundings_refl|].
    split; [done|]. by intros [? ?].
Qed.
